(** * zscaler-manager: the reconciliation and status-inference engine

    A shallow embedding of [src/domain.py] and of [main] in [src/cli/vpn.py].

    Python [str] values are Rocq strings whose characters are the code
    points below 256.  Calls of [subprocess.run], [time.sleep], the logger
    and [os.environ] are events; a program is a function from the history of
    events so far to a result (a value or a raised exception) and the events
    it emitted. *)

From Stdlib Require Import Ascii String ZArith Lia Sorted.
From stdpp Require Import gmap strings list pretty.

Local Open Scope string_scope.
Local Open Scope list_scope.

#[local] Set Warnings "-clear-no-such-hyp".

(** ** Python's [str] methods used by the program *)

Module Py.

Definition LF : ascii := "010"%char.
Definition CR : ascii := "013"%char.

(** [str.isspace] on one character (code points below 256):
    TAB LF VT FF CR, FS GS RS US, SPACE, NEL, NBSP. *)
Definition isspace (c : ascii) : bool :=
  match c with
  | "009" | "010" | "011" | "012" | "013"
  | "028" | "029" | "030" | "031"
  | " " | "133" | "160" => true
  | _ => false
  end%char.

(** The line boundaries of [str.splitlines] other than CR and CR LF:
    LF VT FF, FS GS RS, NEL. *)
Definition is_linebreak (c : ascii) : bool :=
  match c with
  | "010" | "011" | "012" | "028" | "029" | "030" | "133" => true
  | _ => false
  end%char.

(** [splitlines_go cur s]: [cur] is the current line, reversed. *)
Fixpoint splitlines_go (cur : string) (s : string) : list string :=
  match s with
  | "" => match cur with "" => [] | _ => [String.rev cur] end
  | String c s' =>
      if Ascii.eqb c CR then
        match s' with
        | String c' s'' =>
            if Ascii.eqb c' LF
            then String.rev cur :: splitlines_go "" s''
            else String.rev cur :: splitlines_go "" s'
        | "" => [String.rev cur]
        end
      else if is_linebreak c then String.rev cur :: splitlines_go "" s'
      else splitlines_go (String c cur) s'
  end.

(** [s.splitlines()] *)
Definition splitlines (s : string) : list string := splitlines_go "" s.

Fixpoint lstrip (s : string) : string :=
  match s with
  | "" => ""
  | String c s' => if isspace c then lstrip s' else s
  end.

Fixpoint rstrip (s : string) : string :=
  match s with
  | "" => ""
  | String c s' =>
      match rstrip s' with
      | "" => if isspace c then "" else String c ""
      | r => String c r
      end
  end.

(** [s.strip()] *)
Definition strip (s : string) : string := rstrip (lstrip s).

(** [s.startswith(p)] *)
Definition startswith (s p : string) : bool := String.prefix p s.

(** [sub in s] *)
Fixpoint contains (sub s : string) : bool :=
  String.prefix sub s ||
  match s with
  | "" => false
  | String _ s' => contains sub s'
  end.

(** [s.split(maxsplit=maxcount)] with no separator: runs of whitespace
    separate the words; once [maxcount] words are split off, the rest of
    the string, without its leading whitespace, is the last element (if it
    is not empty).  [cur] is the word being read, reversed. *)
Fixpoint split_go (maxcount : nat) (cur : option string) (s : string)
  : list string :=
  match s with
  | "" => match cur with Some w => [String.rev w] | None => [] end
  | String c s' =>
      match cur with
      | Some w =>
          if isspace c then String.rev w :: split_go maxcount None s'
          else split_go maxcount (Some (String c w)) s'
      | None =>
          if isspace c then split_go maxcount None s'
          else match maxcount with
               | 0 => [s]
               | S k => split_go k (Some (String c "")) s'
               end
      end
  end.

Definition split (maxsplit : nat) (s : string) : list string :=
  split_go maxsplit None s.

(** [" ".join(l)] *)
Fixpoint join (sep : string) (l : list string) : string :=
  match l with
  | [] => ""
  | [x] => x
  | x :: l' => x +:+ sep +:+ join sep l'
  end.

End Py.

(** ** Events, exceptions and the interaction monad *)

(** An f-string: its text with the replacement fields left in place, and
    the values of the fields, in order. *)
Record fstring := Fmt { template : string; fields : list string }.

Inductive Level := DEBUG | INFO | WARNING.

Inductive Event :=
| Run (argv : list string)          (* subprocess.run(argv, ...) *)
| Sleep (secs : nat)                (* time.sleep(secs) *)
| Log (lvl : Level) (msg : fstring) (* logger.debug / info / warning *)
| SetEnv (name value : string).     (* os.environ[name] = value *)

(** The exception classes the program raises or lets through;
    [SystemExit] is what the builtin [exit(msg)] raises, and [OSError]
    stands for its subclasses that [subprocess.run] raises for a program
    that cannot be started ([FileNotFoundError], [PermissionError]). *)
Inductive exn :=
| ValueError (msg : fstring)
| IndexError (msg : fstring)
| KeyError (key : string)
| NotImplementedError (msg : fstring)
| UnsupportedScenario (msg : fstring)
| SystemExit (msg : fstring)
| OSError (msg : fstring).

(** [Diverge] is the model running out of fuel in a [while] loop. *)
Inductive Result (A : Type) :=
| Ok (a : A)
| Raise (e : exn)
| Diverge.
Arguments Ok {A} a.
Arguments Raise {A} e.
Arguments Diverge {A}.

(** A row of the table [ZAppNotifications], columns [Time] and
    [NotificationName]. *)
Record Notification := { Time : string; NotificationName : string }.

(** The world outside the program: what a subprocess prints, given the
    events so far and its command line; the order in which a Python [set]
    of strings is iterated; the event-log store at
    [~/.Zscaler/DB/ZscalerApp.db] ([None] when the file is absent,
    else the rows of its table in the order a query returns them); and,
    for a program named by the configuration, whether it can be started
    ([None]) or the message of the [OSError] of starting it. *)
Record Env := {
  stdout : list Event -> list string -> string;
  set_order : gset string -> list string;
  set_order_perm : forall s, set_order s ≡ₚ elements s;
  zscaler_db : option (list Notification);
  cannot_start : list Event -> list string -> option fstring
}.

Definition M (A : Type) : Type := Env -> list Event -> Result A * list Event.

Definition ret {A} (a : A) : M A := fun _ _ => (Ok a, []).

Definition bind {A B} (m : M A) (f : A -> M B) : M B :=
  fun env h =>
    match m env h with
    | (Ok a, e1) => let '(r, e2) := f a env (h ++ e1) in (r, e1 ++ e2)
    | (Raise x, e1) => (Raise x, e1)
    | (Diverge, e1) => (Diverge, e1)
    end.

Definition is_Ok {A} (r : Result A) : bool :=
  match r with Ok _ => true | _ => false end.

(** A result that is not a value, at another type. *)
Definition failure {A B} (r : Result A) : Result B :=
  match r with
  | Ok _ => Diverge
  | Raise x => Raise x
  | Diverge => Diverge
  end.

Notation "x <- m ;; k" := (bind m (fun x => k))
  (at level 100, m at next level, right associativity).
Notation "m ;; k" := (bind m (fun _ => k))
  (at level 100, right associativity).

Definition raise {A} (e : exn) : M A := fun _ _ => (Raise e, []).
Definition diverge {A} : M A := fun _ _ => (Diverge, []).
Definition emit (ev : Event) : M unit := fun _ _ => (Ok tt, [ev]).
Definition lift {A} (r : Result A) : M A := fun _ _ => (r, []).

Definition log (lvl : Level) (msg : fstring) : M unit := emit (Log lvl msg).
Definition sleep (secs : nat) : M unit := emit (Sleep secs).

(** [subprocess.run(argv, capture_output=True, text=True).stdout] *)
Definition subprocess_run (argv : list string) : M string :=
  fun env h => (Ok (stdout env h argv), [Run argv]).

(** [for x in l: s = body(x, s)] *)
Fixpoint for_each {A S} (l : list A) (body : A -> S -> M S) (s : S) : M S :=
  match l with
  | [] => ret s
  | x :: l' => s' <- body x s ;; for_each l' body s'
  end.

(** [map(f, l)], consumed from left to right *)
Fixpoint map_M {A B} (f : A -> M B) (l : list A) : M (list B) :=
  match l with
  | [] => ret []
  | x :: l' => y <- f x ;; ys <- map_M f l' ;; ret (y :: ys)
  end.

(** [list(s)] on a set *)
Definition list_of_set (s : gset string) : M (list string) :=
  fun env _ => (Ok (set_order env s), []).

(** [s.remove(x)] on a set *)
Definition set_remove (x : string) (s : gset string) : M (gset string) :=
  if bool_decide (x ∈ s) then ret (s ∖ {[x]}) else raise (KeyError x).

(** ** src/domain.py: the process observer *)

Definition _get_command_without_arguments_from_ps_aux_line (line : string)
  : Result string :=
  match Py.split 10 line with
  | [user; pid; cpu_pct; mem_pct; vsz; rss; tty; stat; start; _time; cmd] =>
      match Py.split 1 cmd with
      | [] =>
          Raise (NotImplementedError
            (Fmt "oopss.. something wrong happened when trying to get the cmd from this line: {line!r}"
                 [line]))
      | chunk :: _ => Ok chunk
      end
  | l =>
      Raise (ValueError
        (Fmt "not enough values to unpack (expected 11, got {})"
             [pretty (length l)]))
  end.

(** The [for] loop of [_is_process_running] over the lines of [ps aux]
    after the header; [Ok false] is the loop running to its end. *)
Fixpoint find_binary (target_binary_name : string) (lines : list string)
  : Result bool :=
  match lines with
  | [] => Ok false
  | line :: rest =>
      match _get_command_without_arguments_from_ps_aux_line line with
      | Ok binary_name =>
          if String.eqb binary_name target_binary_name then Ok true
          else find_binary target_binary_name rest
      | Raise e => Raise e
      | Diverge => Diverge
      end
  end.

Definition ps_aux : list string := ["ps"; "aux"].

Definition _is_process_running (target_binary_name : string) : M bool :=
  log DEBUG
    (Fmt "looking for {target_binary_name!r} binary name in the output of `ps aux`"
         [target_binary_name]) ;;
  process_stdout <- subprocess_run ps_aux ;;
  found <- lift (find_binary target_binary_name
                   (tail (Py.splitlines process_stdout))) ;;
  if found : bool then
    log DEBUG (Fmt "{target_binary_name!r} binary name found"
                   [target_binary_name]) ;;
    ret true
  else
    log DEBUG (Fmt "{target_binary_name!r} binary name not found"
                   [target_binary_name]) ;;
    ret false.

Definition max_attempts : nat := 5.
Definition wait_between_attempts : nat := 1.

Definition is_running_msg (binary_name : string) : fstring :=
  Fmt "{binary_name} is running" [binary_name].
Definition is_not_running_msg (binary_name : string) : fstring :=
  Fmt "{binary_name} is not running" [binary_name].

(** The body of the [for] loop of [_are_processes_running]. *)
Definition check_running (binary_name : string) (not_running : gset string)
  : M (gset string) :=
  b <- _is_process_running binary_name ;;
  if b : bool then
    not_running' <- set_remove binary_name not_running ;;
    log DEBUG (is_running_msg binary_name) ;;
    ret not_running'
  else
    log DEBUG (is_not_running_msg binary_name) ;;
    ret not_running.

(** The [while] loop of [_are_processes_running]; each iteration takes one
    unit of [fuel]. *)
Fixpoint _are_processes_running_while (fuel : nat)
    (not_running : gset string) (attempts : nat) : M bool :=
  if bool_decide (not_running ≠ ∅) && (attempts <? max_attempts)%nat then
    match fuel with
    | 0 => diverge
    | S fuel' =>
        snapshot <- list_of_set not_running ;;
        not_running <- for_each snapshot check_running not_running ;;
        if bool_decide (not_running ≠ ∅) then
          log INFO
            (Fmt "{len(not_running)} processes are still is not running, waiting {wait_between_attempts}s before retrying..."
                 [pretty (size not_running); pretty wait_between_attempts]) ;;
          sleep wait_between_attempts ;;
          _are_processes_running_while fuel' not_running (attempts + 1)%nat
        else ret true
    end
  else ret false.

Definition _are_processes_running (patterns : list string) : M bool :=
  _are_processes_running_while max_attempts (list_to_set patterns) 0.

(** The body of the [for] loop of [_are_processes_not_running]. *)
Definition check_not_running (binary_name : string) (running : gset string)
  : M (gset string) :=
  b <- _is_process_running binary_name ;;
  if negb b then
    running' <- set_remove binary_name running ;;
    log DEBUG (is_not_running_msg binary_name) ;;
    ret running'
  else
    log DEBUG (is_running_msg binary_name) ;;
    ret running.

Fixpoint _are_processes_not_running_while (fuel : nat)
    (running : gset string) (attempts : nat) : M bool :=
  if bool_decide (running ≠ ∅) && (attempts <? max_attempts)%nat then
    match fuel with
    | 0 => diverge
    | S fuel' =>
        snapshot <- list_of_set running ;;
        running <- for_each snapshot check_not_running running ;;
        if bool_decide (running ≠ ∅) then
          log INFO
            (Fmt "{len(running)} processes are still is running, waiting {wait_between_attempts}s before retrying..."
                 [pretty (size running); pretty wait_between_attempts]) ;;
          sleep wait_between_attempts ;;
          _are_processes_not_running_while fuel' running (attempts + 1)%nat
        else ret true
    end
  else ret false.

Definition _are_processes_not_running (patterns : list string) : M bool :=
  _are_processes_not_running_while max_attempts (list_to_set patterns) 0.

(** ** src/domain.py: the unit supervisor client *)

Definition systemctl_status (unit_name : string) : list string :=
  ["systemctl"; "status"; unit_name].

Definition expected_prefix : string := "Loaded: ".

(** [process.stdout.splitlines()[1].strip()] and the check of its prefix,
    shared by the two status queries. *)
Definition loaded_line (cmd : list string) (process_stdout : string)
  : Result string :=
  match Py.splitlines process_stdout !! 1%nat with
  | None => Raise (IndexError (Fmt "list index out of range" []))
  | Some line =>
      let second_line := Py.strip line in
      if negb (Py.startswith second_line expected_prefix) then
        Raise (ValueError
          (Fmt "expected the second line to start with {expected_prefix!r} when executing `{' '.join(cmd)}`, but got this output instead:\n\n{process.stdout}"
               [expected_prefix; Py.join " " cmd; process_stdout]))
      else Ok second_line
  end.

Definition _is_systemd_unit_enabled (unit_name : string) : M bool :=
  log DEBUG (Fmt "checking if the unit {unit_name!r} is enabled" [unit_name]) ;;
  let cmd := systemctl_status unit_name in
  process_stdout <- subprocess_run cmd ;;
  second_line <- lift (loaded_line cmd process_stdout) ;;
  let is_enabled := Py.contains "; enabled; preset: disabled)" second_line in
  log DEBUG (Fmt "the unit {unit_name!r} is enabled" [unit_name]) ;;
  ret is_enabled.

Definition _is_systemd_unit_disabled (unit_name : string) : M bool :=
  log DEBUG (Fmt "checking if the unit {unit_name!r} is disabled" [unit_name]) ;;
  let cmd := systemctl_status unit_name in
  process_stdout <- subprocess_run cmd ;;
  second_line <- lift (loaded_line cmd process_stdout) ;;
  let is_disabled := Py.contains "; disabled; preset: disabled)" second_line in
  log DEBUG (Fmt "the unit {unit_name!r} is disabled" [unit_name]) ;;
  ret is_disabled.

Definition _did_gui_start_correctly : M bool :=
  _are_processes_running ["/opt/zscaler/bin/ZSTray"].

Definition _did_gui_stop_correctly : M bool :=
  _are_processes_not_running ["/opt/zscaler/bin/ZSTray"].

Definition _was_daemon_enabled_correctly (service : string) : M bool :=
  _is_systemd_unit_enabled service.

Definition _did_daemon_start_correctly : M bool :=
  _are_processes_running
    ["/opt/zscaler/bin/zsaservice"; "/opt/zscaler/bin/zstunnel"].

Definition _did_daemon_stop_correctly : M bool :=
  _are_processes_not_running
    ["/opt/zscaler/bin/zsaservice"; "/opt/zscaler/bin/zstunnel"].

Definition _was_daemon_disabled_correctly (service : string) : M bool :=
  _is_systemd_unit_disabled service.

Definition _run_as_sudo (cmd : list string) : M unit :=
  log DEBUG (Fmt "executing as root cmd='{' '.join(cmd)}'" [Py.join " " cmd]) ;;
  subprocess_run ("sudo" :: cmd) ;;
  log DEBUG (Fmt "waiting" []).

Definition _run_as_user (cmd : list string) : M unit :=
  log DEBUG (Fmt "executing as user cmd='{' '.join(cmd)}'" [Py.join " " cmd]) ;;
  subprocess_run cmd ;;
  ret tt.

Definition _enable_systemd_service_as_root (service : string) : M unit :=
  _run_as_sudo ["systemctl"; "enable"; service].

Definition _start_systemd_service_as_root (service : string) : M unit :=
  _run_as_sudo ["systemctl"; "start"; service].

Definition _stop_systemd_service_as_root (service : string) : M unit :=
  _run_as_sudo ["systemctl"; "stop"; service].

Definition _disable_systemd_service_as_root (service : string) : M unit :=
  _run_as_sudo ["systemctl"; "disable"; service].

Definition _start_systemd_service_as_user (service : string) : M unit :=
  _run_as_user ["systemctl"; "--user"; "start"; service].

Definition _stop_systemd_service_as_user (service : string) : M unit :=
  _run_as_user ["systemctl"; "--user"; "stop"; service].

(** The builtin [exit(msg)]. *)
Definition exit {A} (msg : fstring) : M A := raise (SystemExit msg).

(** [if not cond: exit(msg)] *)
Definition unless_exit (cond : bool) (msg : fstring) : M unit :=
  if negb cond then exit msg else ret tt.

(** ** src/domain.py: the start and stop sequences *)

Definition gui_service : string := "ZSTray.service".
Definition daemon_service : string := "zsaservice.service".

Definition start_zscaler : M unit :=
  log INFO (Fmt "enabling {daemon_service!r} systemd service as root"
                [daemon_service]) ;;
  _enable_systemd_service_as_root daemon_service ;;
  ok <- _was_daemon_enabled_correctly daemon_service ;;
  unless_exit ok (Fmt "failed to enable {daemon_service}" [daemon_service]) ;;

  log INFO (Fmt "starting {daemon_service!r} systemd service as root"
                [daemon_service]) ;;
  _start_systemd_service_as_root daemon_service ;;
  ok <- _did_daemon_start_correctly ;;
  unless_exit ok (Fmt "failed to start {daemon_service}" [daemon_service]) ;;

  log INFO (Fmt "enabling {gui_service!r} systemd service as user"
                [gui_service]) ;;
  _start_systemd_service_as_user gui_service ;;
  ok <- _did_gui_start_correctly ;;
  unless_exit ok (Fmt "failed to start {gui_service}" [gui_service]) ;;

  log INFO (Fmt "zscaler correctly started" []).

Definition stop_zscaler : M unit :=
  _stop_systemd_service_as_user gui_service ;;
  ok <- _did_gui_stop_correctly ;;
  unless_exit ok (Fmt "failed to stop {gui_service}" [gui_service]) ;;

  _stop_systemd_service_as_root daemon_service ;;
  ok <- _did_daemon_stop_correctly ;;
  unless_exit ok (Fmt "failed to stop {daemon_service}" [daemon_service]) ;;

  _disable_systemd_service_as_root daemon_service ;;
  ok <- _was_daemon_disabled_correctly daemon_service ;;
  unless_exit ok (Fmt "failed to disable {daemon_service}" [daemon_service]) ;;

  log INFO (Fmt "zscaler correctly stopped" []).

(** ** src/domain.py: the status classifier and the transition function *)

Inductive ZScalerVpnStatus :=
| all_processes_running
| some_processes_running
| no_processes_running.

Global Instance ZScalerVpnStatus_eq_dec : EqDecision ZScalerVpnStatus.
Proof. solve_decision. Defined.

(** The [.value] of a member of the enum. *)
Definition value (st : ZScalerVpnStatus) : string :=
  match st with
  | all_processes_running => "all_processes_running"
  | some_processes_running => "some_processes_running"
  | no_processes_running => "no_processes_running"
  end.

Definition binaries : list string :=
  [ "/opt/zscaler/bin/ZSTray";
    "/opt/zscaler/bin/zsaservice";
    "/opt/zscaler/bin/zstunnel" ].

Definition repr_bool (b : bool) : string := if b then "True" else "False".

Definition is_zscaler_running : M ZScalerVpnStatus :=
  observed <- map_M _is_process_running binaries ;;
  let are_running : gset bool := list_to_set observed in
  emit (SetEnv "PYTHONBREAKPOINT" "pdb.set_trace") ;;
  if bool_decide (are_running = {[ true ]}) then
    ret all_processes_running
  else if bool_decide (are_running = {[ false ]}) then
    ret no_processes_running
  else if bool_decide (are_running = {[ true; false ]}) then
    ret some_processes_running
  else
    raise (NotImplementedError
             (Fmt "unsupported scenario: {are_running=}"
                  (repr_bool <$> elements are_running))).

(** [Literal["nothing-to-reconcile", "shutdown", "startup"]] *)
Inductive Action := nothing_to_reconcile | shutdown | startup.

Definition decide_action (current desired : ZScalerVpnStatus)
  : Result Action :=
  if String.eqb (value current) (value desired) then Ok nothing_to_reconcile
  else if bool_decide (desired = all_processes_running)
          && (bool_decide (current = no_processes_running)
              || bool_decide (current = some_processes_running)) then
    Ok startup
  else if bool_decide (desired = no_processes_running)
          && (bool_decide (current = all_processes_running)
              || bool_decide (current = some_processes_running)) then
    Ok shutdown
  else
    Raise (UnsupportedScenario
      (Fmt "unable to determine the action to take:\ncurrent: {current.value}\ndesired: {desired.value}"
           [value current; value desired])).

(** ** [datetime.strptime] for the one format the program uses, and
       [datetime.isoformat] *)

Module Datetime.

Record datetime := {
  year : nat; month : nat; day : nat;
  hour : nat; minute : nat; second : nat
}.

Definition is_digit (c : ascii) : bool :=
  match c with
  | "0" | "1" | "2" | "3" | "4" | "5" | "6" | "7" | "8" | "9" => true
  | _ => false
  end%char.

Definition digit_value (c : ascii) : nat := nat_of_ascii c - 48.

(** The ASCII lower case of a character; the format's regular expression
    is compiled with IGNORECASE. *)
Definition ascii_lower (c : ascii) : ascii :=
  let n := nat_of_ascii c in
  if (65 <=? n)%nat && (n <=? 90)%nat then ascii_of_nat (n + 32) else c.

Fixpoint lower (s : string) : string :=
  match s with
  | "" => ""
  | String c s' => String (ascii_lower c) (lower s')
  end.

(** The longest prefix of digits, and the rest. *)
Fixpoint span_digits (s : string) : string * string :=
  match s with
  | String c s' =>
      if is_digit c then let '(ds, r) := span_digits s' in (String c ds, r)
      else ("", s)
  | "" => ("", "")
  end.

(** [int(ds)] for a string of digits. *)
Definition number (ds : string) : nat :=
  fold_left (fun acc c => (10 * acc + digit_value c)%nat)
            (list_ascii_of_string ds) 0%nat.

(** [\s+]: one or more whitespace characters. *)
Definition spaces (s : string) : option string :=
  match s with
  | String c s' => if Py.isspace c then Some (Py.lstrip s') else None
  | "" => None
  end.

(** A literal character of the format. *)
Definition literal (c : ascii) (s : string) : option string :=
  match s with
  | String c' s' => if Ascii.eqb c c' then Some s' else None
  | "" => None
  end.

Fixpoint index_of (x : string) (l : list string) : option nat :=
  match l with
  | [] => None
  | y :: l' => if String.eqb x y then Some 0%nat else S <$> index_of x l'
  end.

(** The first [n] characters, and the rest. *)
Fixpoint split_at (n : nat) (s : string) : option (string * string) :=
  match n, s with
  | 0%nat, _ => Some ("", s)
  | S n', String c s' =>
      '(w, r) ← split_at n' s'; Some (String c w, r)
  | S _, "" => None
  end.

(** A name out of [names], all of [n] letters, in any case; its index. *)
Definition name_of (n : nat) (names : list string) (s : string)
  : option (nat * string) :=
  '(w, r) ← split_at n s;
  i ← index_of (lower w) names;
  Some (i, r).

(** A run of digits, [lo] to [hi] of them, not followed by a digit;
    its value. *)
Definition digits (lo hi : nat) (s : string) : option (nat * string) :=
  let '(ds, r) := span_digits s in
  let n := String.length ds in
  if (lo <=? n)%nat && (n <=? hi)%nat then Some (number ds, r) else None.

Definition in_range (lo hi v : nat) : option unit :=
  if (lo <=? v)%nat && (v <=? hi)%nat then Some tt else None.

Definition a_weekday : list string :=
  ["mon"; "tue"; "wed"; "thu"; "fri"; "sat"; "sun"].
Definition a_month : list string :=
  ["jan"; "feb"; "mar"; "apr"; "may"; "jun";
   "jul"; "aug"; "sep"; "oct"; "nov"; "dec"].
Definition am_pm : list string := ["am"; "pm"].

(** The fields matched by the regular expression of the format
    ["%a, %b %d %Y %H:%M:%S %p"], and the text left after the match:
    %a and %b a name, %d [3[0-1]|[1-2]\d|0[1-9]|[1-9]| [1-9]],
    %Y [\d\d\d\d], %H [2[0-3]|[0-1]\d|\d], %M [[0-5]\d|\d],
    %S [6[0-1]|[0-5]\d|\d], %p [am|pm]; a run of whitespace in the
    format is [\s+].  The weekday and %p (with %H) do not enter the
    result. *)
Definition match_format (s : string) : option (datetime * string) :=
  '(_, s) ← name_of 3 a_weekday s;
  s ← literal "," s;
  s ← spaces s;
  '(b, s) ← name_of 3 a_month s;
  s ← spaces s;
  '(d, s) ← digits 1 2 s;
  _ ← in_range 1 31 d;
  s ← spaces s;
  '(y, s) ← digits 4 4 s;
  s ← spaces s;
  '(hh, s) ← digits 1 2 s;
  _ ← in_range 0 23 hh;
  s ← literal ":" s;
  '(mm, s) ← digits 1 2 s;
  _ ← in_range 0 59 mm;
  s ← literal ":" s;
  '(ss, s) ← digits 1 2 s;
  _ ← in_range 0 61 ss;
  s ← spaces s;
  '(_, s) ← name_of 2 am_pm s;
  Some ({| year := y; month := S b; day := d;
           hour := hh; minute := mm; second := ss |}, s).

Definition is_leap (y : nat) : bool :=
  ((y mod 4 =? 0) && negb (y mod 100 =? 0) || (y mod 400 =? 0))%nat.

Definition days_in_month (y m : nat) : nat :=
  match m with
  | 2 => if is_leap y then 29 else 28
  | 4 | 6 | 9 | 11 => 30
  | _ => 31
  end%nat.

Definition format : string := "%a, %b %d %Y %H:%M:%S %p".

(** [datetime.datetime.strptime(data_string, "%a, %b %d %Y %H:%M:%S %p")] *)
Definition strptime (data_string : string) : Result datetime :=
  match match_format data_string with
  | None =>
      Raise (ValueError
        (Fmt "time data {!r} does not match format {!r}"
             [data_string; format]))
  | Some (t, "") =>
      if (year t =? 0)%nat then
        Raise (ValueError (Fmt "year {} is out of range" [pretty (year t)]))
      else if (days_in_month (year t) (month t) <? day t)%nat then
        Raise (ValueError (Fmt "day is out of range for month" []))
      else if (59 <? second t)%nat then
        Raise (ValueError (Fmt "second must be in 0..59" []))
      else Ok t
  | Some (_, rest) =>
      Raise (ValueError (Fmt "unconverted data remains: {}" [rest]))
  end.

(** [n] in decimal, padded with zeros to [width] characters. *)
Definition zero_padded (width n : nat) : string :=
  let ds := pretty n in
  String.string_of_list_ascii
    (replicate (width - String.length ds) "0"%char) +:+ ds.

(** [t.isoformat()] of a datetime without microseconds or time zone *)
Definition isoformat (t : datetime) : string :=
  zero_padded 4 (year t) +:+ "-" +:+ zero_padded 2 (month t) +:+ "-"
    +:+ zero_padded 2 (day t) +:+ "T" +:+ zero_padded 2 (hour t) +:+ ":"
    +:+ zero_padded 2 (minute t) +:+ ":" +:+ zero_padded 2 (second t).

End Datetime.

(** ** src/domain.py: the security feature monitor *)

Inductive InternetSecurityStatus := on | off | unknown.

(** An event after [_parse]: the row and its key ["t"]. *)
Record ParsedEvent := { row : Notification; t : string }.

Definition _parse (event : Notification) : Result ParsedEvent :=
  match Datetime.strptime (Time event) with
  | Ok time => Ok {| row := event; t := Datetime.isoformat time |}
  | Raise e => Raise e
  | Diverge => Diverge
  end.

(** [map(_parse, events)], consumed from left to right. *)
Fixpoint parse_all (events : list Notification) : Result (list ParsedEvent) :=
  match events with
  | [] => Ok []
  | e :: rest =>
      match _parse e with
      | Ok p =>
          match parse_all rest with
          | Ok ps => Ok (p :: ps)
          | Raise x => Raise x
          | Diverge => Diverge
          end
      | Raise x => Raise x
      | Diverge => Diverge
      end
  end.

(** [sorted(l, key=lambda x: x["t"])]: a stable sort on the strings [t],
    compared character by character. *)
Fixpoint insert_by_t (x : ParsedEvent) (l : list ParsedEvent)
  : list ParsedEvent :=
  match l with
  | [] => [x]
  | y :: l' => if String.ltb (t x) (t y) then x :: l else y :: insert_by_t x l'
  end.

Definition sorted_by_t (l : list ParsedEvent) : list ParsedEvent :=
  fold_left (fun acc x => insert_by_t x acc) l [].

Definition _prefix : string := "Internet Security".

(** SQLite's [X LIKE 'p%'] for a pattern [p] without wildcards: [p] is a
    prefix of [X], upper and lower case ASCII letters taken as equal. *)
Definition sql_like_prefix (p x : string) : bool :=
  String.prefix (Datetime.lower p) (Datetime.lower x).

(** [SELECT Time, NotificationName FROM ZAppNotifications
     WHERE NotificationName LIKE 'Internet Security %'] *)
Definition select_events (table : list Notification) : list Notification :=
  filter (fun e => sql_like_prefix (_prefix +:+ " ") (NotificationName e) = true)
         table.

Definition DB_PATH : string := "~/.Zscaler/DB/ZscalerApp.db".

Definition is_internet_security_on : M InternetSecurityStatus :=
  fun env =>
  match zscaler_db env with
  | None =>
      (log WARNING (Fmt "ZScaler DB not found at '{DB_PATH}'" [DB_PATH]) ;;
       ret unknown) env
  | Some table =>
      (let events := select_events table in
       match events with
       | [] =>
           log WARNING
             (Fmt "no notifications found in ZScaler DB ({DB_PATH}) that start with {_prefix!r}"
                  [DB_PATH; _prefix]) ;;
           ret unknown
       | _ =>
           parsed_events <- lift (parse_all events) ;;
           let parsed := sorted_by_t parsed_events in
           match last parsed with
           | None => raise (IndexError (Fmt "list index out of range" []))
           | Some last_event =>
               log INFO
                 (Fmt "last event found in DB: {json.dumps(last_event)!r}"
                      [Time (row last_event);
                       NotificationName (row last_event); t last_event]) ;;
               let name := NotificationName (row last_event) in
               if String.eqb name "Internet Security Up" then ret on
               else if String.eqb name "Internet Security Disabled" then ret on
               else if String.eqb name "Internet Security Enabled" then ret on
               else if String.eqb name "Internet Security On" then ret on
               else if String.eqb name "Internet Security Off" then ret off
               else
                 raise (UnsupportedScenario
                          (Fmt "unsupported notification name: {name!r}"
                               [name]))
           end
       end) env
  end.

(** ** src/cli/vpn.py *)

(** [main()], with the global [args.subcommand] and [sys.argv] as
    parameters; its result is the value returned, always [None]. *)
Definition main (sys_argv : list string) (subcommand : option string)
  : M (option string) :=
  log DEBUG (Fmt "{sys.argv=}" sys_argv) ;;
  current_status <- is_zscaler_running ;;
  match subcommand with
  | Some sub =>
      if String.eqb sub "up" then
        if bool_decide (current_status = all_processes_running) then
          log INFO (Fmt "ZSCaler is already up" []) ;; ret None
        else start_zscaler ;; ret None
      else if String.eqb sub "down" then
        if bool_decide (current_status = no_processes_running) then
          log INFO (Fmt "ZSCaler is already down" []) ;; ret None
        else stop_zscaler ;; ret None
      else
        raise (NotImplementedError
                 (Fmt "unexpected subcommand found: {args.subcommand}" [sub]))
  | None =>
      if bool_decide (current_status = all_processes_running) then
        log INFO (Fmt "ZSCaler is running" []) ;; ret None
      else if bool_decide (current_status = some_processes_running) then
        log INFO (Fmt "ZSCaler is half-running" []) ;; ret None
      else if bool_decide (current_status = no_processes_running) then
        log INFO (Fmt "ZSCaler is not running" []) ;; ret None
      else
        raise (NotImplementedError
                 (Fmt "unsupported {ZScalerVpnStatus.__name__} value: {current_status}"
                      ["ZScalerVpnStatus"; value current_status]))
  end.

(** ** What a trace shows *)

(** The command lines of the subprocesses run, in order. *)
Definition commands (evs : list Event) : list (list string) :=
  omap (fun ev => match ev with Run argv => Some argv | _ => None end) evs.

(** The durations of the sleeps, in order. *)
Definition sleeps (evs : list Event) : list nat :=
  omap (fun ev => match ev with Sleep secs => Some secs | _ => None end) evs.

(** The checks the retry loops report: the identity checked and whether it
    was found running. *)
Definition check_of (ev : Event) : option (string * bool) :=
  match ev with
  | Log DEBUG (Fmt tpl [binary_name]) =>
      if String.eqb tpl "{binary_name} is running"
      then Some (binary_name, true)
      else if String.eqb tpl "{binary_name} is not running"
      then Some (binary_name, false)
      else None
  | _ => None
  end.

Definition checks (evs : list Event) : list (string * bool) :=
  omap check_of evs.

(** What [_is_process_running] answers for [p] when called after [h]. *)
Definition observed (env : Env) (h : list Event) (p : string) : Result bool :=
  fst (_is_process_running p env h).

(** ** Test doubles *)

Definition nl : string := String Py.LF "".

Definition ps_header : string :=
  "USER PID %CPU %MEM VSZ RSS TTY STAT START TIME COMMAND" +:+ nl.

Definition ps_line (command : string) : string :=
  "root 812 0.0 0.1 1234 567 ? Ssl 10:00 0:01 " +:+ command +:+ nl.

(** A world whose every subprocess prints [out], with the event-log store
    [db]; every program can be started. *)
Definition constant_env (out : string) (db : option (list Notification))
  : Env :=
  {| stdout := fun _ _ => out;
     set_order := elements;
     set_order_perm := fun _ => reflexivity _;
     zscaler_db := db;
     cannot_start := fun _ _ => None |}.

(** ** The vocabulary of the properties *)

Definition statuses : list ZScalerVpnStatus :=
  [all_processes_running; some_processes_running; no_processes_running].

(** The pairs of statuses on which [decide_action] returns an action. *)
Definition decided : list (ZScalerVpnStatus * ZScalerVpnStatus) :=
  filter (fun p => is_Ok (decide_action p.1 p.2))
         (current ← statuses; desired ← statuses; [(current, desired)]).

Definition starts_with_non_space (s : string) : Prop :=
  match s with
  | String c _ => Py.isspace c = false
  | "" => False
  end.

(** A line of [ps aux] meets the interface when it has the ten leading
    columns and a command. *)
Definition well_formed_line (line : string) : Prop :=
  length (Py.split 10 line) = 11%nat.

Global Instance well_formed_line_dec line : Decision (well_formed_line line).
Proof. unfold well_formed_line. apply _. Defined.

Definition looking_for (p : string) : Event :=
  Log DEBUG
    (Fmt "looking for {target_binary_name!r} binary name in the output of `ps aux`"
         [p]).

Definition found_or_not (p : string) (b : bool) : Event :=
  Log DEBUG
    (Fmt (if b then "{target_binary_name!r} binary name found"
          else "{target_binary_name!r} binary name not found") [p]).


(** The tracked identities reported running, given the three answers of the
    observer in the order of [binaries]. *)
Definition reported_running (answers : list bool) : gset string :=
  list_to_set (fst <$> filter (fun pb => pb.2 = true) (zip binaries answers)).

Definition breakpoint_set : Event := SetEnv "PYTHONBREAKPOINT" "pdb.set_trace".

(** The listing of exactly the tracked processes chosen. *)
Definition listing_env (tray daemon tunnel : bool) : Env :=
  constant_env
    (ps_header
     +:+ (if tray then ps_line "/opt/zscaler/bin/ZSTray" else "")
     +:+ (if daemon then ps_line "/opt/zscaler/bin/zsaservice" else "")
     +:+ (if tunnel then ps_line "/opt/zscaler/bin/zstunnel" else ""))
    None.

(** The listing in which exactly the tray process runs. *)
Definition only_tray_env : Env :=
  constant_env (ps_header +:+ ps_line "/opt/zscaler/bin/ZSTray --hidden") None.


(** The marker line is absent from a status text: it has no second line, or
    its second line, trimmed, does not start with ["Loaded: "]. *)
Definition marker_line_absent (text : string) : Prop :=
  match Py.splitlines text !! 1%nat with
  | None => True
  | Some line => ~ exists rest, Py.strip line = "Loaded: " +:+ rest
  end.

(** The errors of the two status queries: the [IndexError] of the missing
    second line and the [ValueError] of the wrong prefix. *)
Inductive ParseError : exn -> Prop :=
| missing_second_line msg : ParseError (IndexError msg)
| unexpected_prefix msg : ParseError (ValueError msg).

(** [run] is a wait, from the history [h], for every identity of
    [identities] to be found running ([found] is true), or to be found not
    running ([found] is false).  It ends.  When it answers true, each
    identity was so found by a check; when it answers false, it has slept
    five times one second and one identity was never so found.  Each
    check is of an identity waited for and is what an observation gave at
    that point of the run, and an exception is that of an observation of
    an identity waited for. *)
Definition waited_for (env : Env) (h : list Event) (identities : list string)
    (found : bool) (run : Result bool * list Event) : Prop :=
  run.1 <> Diverge
  /\ (run.1 = Ok true ->
      forall q, q ∈ identities -> (q, found) ∈ checks run.2)
  /\ (run.1 = Ok false ->
      sleeps run.2 = replicate 5 1%nat
      /\ exists q, q ∈ identities /\ (q, found) ∉ checks run.2)
  /\ (forall q b,
        (q, b) ∈ checks run.2 ->
        q ∈ identities
        /\ exists pre post,
             run.2 = pre ++ post /\ observed env (h ++ pre) q = Ok b)
  /\ (forall e,
        run.1 = Raise e ->
        exists pre q,
          q ∈ identities /\ observed env (h ++ pre) q = Raise e).

(** What a status query makes of the text [text] it reads, [marker] being
    the text it looks for in the marker line. *)
Definition status_query (marker text : string) (r : Result bool) : Prop :=
  ((exists e, r = Raise e) <-> marker_line_absent text)
  /\ (forall e, r = Raise e -> ParseError e)
  /\ (forall line,
        Py.splitlines text !! 1%nat = Some line ->
        (exists rest, Py.strip line = "Loaded: " +:+ rest) ->
        exists b, r = Ok b
                  /\ (b = true <->
                      exists before after,
                        Py.strip line = before +:+ marker +:+ after)).

Definition checking_enabled (unit_name : string) : Event :=
  Log DEBUG (Fmt "checking if the unit {unit_name!r} is enabled" [unit_name]).
Definition checking_disabled (unit_name : string) : Event :=
  Log DEBUG (Fmt "checking if the unit {unit_name!r} is disabled" [unit_name]).

(** No row of the store has a name that the query's pattern matches, that
    is one starting with ["Internet Security "], letter case aside. *)
Definition no_matching_event (table : list Notification) : Prop :=
  forall e, e ∈ table ->
    ~ exists rest,
        Datetime.lower (NotificationName e) = "internet security " +:+ rest.

Definition off_at_10 : Notification :=
  {| Time := "Mon, Jan 01 2024 10:00:00 AM";
     NotificationName := "Internet Security Off" |}.

Definition on_at_11 : Notification :=
  {| Time := "Mon, Jan 01 2024 11:00:00 AM";
     NotificationName := "Internet Security On" |}.

(** The events of one check of the loop, the observation included. *)
Definition check_events (p : string) (b : bool) : list Event :=
  [ looking_for p; Run ps_aux; found_or_not p b;
    Log DEBUG (if b then is_running_msg p else is_not_running_msg p) ].

(** What a pass that leaves [not_running] unsatisfied is followed by. *)
Definition still_waiting (not_running : gset string) : list Event :=
  [ Log INFO
      (Fmt "{len(not_running)} processes are still is not running, waiting {wait_between_attempts}s before retrying..."
           [pretty (size not_running); pretty wait_between_attempts]);
    Sleep wait_between_attempts ].

(** In a list of checks, an identity found running is not checked again. *)
Fixpoint no_recheck (cs : list (string * bool)) : Prop :=
  match cs with
  | [] => True
  | (p, b) :: rest => (b = true -> forall b', (p, b') ∉ rest) /\ no_recheck rest
  end.

(** The listing in which the daemon runs and the tunnel does not. *)
Definition only_daemon_env : Env :=
  constant_env (ps_header +:+ ps_line "/opt/zscaler/bin/zsaservice") None.

Definition sudo_events (cmd : list string) : list Event :=
  [ Log DEBUG (Fmt "executing as root cmd='{' '.join(cmd)}'" [Py.join " " cmd]);
    Run ("sudo" :: cmd);
    Log DEBUG (Fmt "waiting" []) ].

Definition user_events (cmd : list string) : list Event :=
  [ Log DEBUG (Fmt "executing as user cmd='{' '.join(cmd)}'" [Py.join " " cmd]);
    Run cmd ].

Definition enable_daemon : list string :=
  ["systemctl"; "enable"; daemon_service].
Definition start_daemon : list string :=
  ["systemctl"; "start"; daemon_service].
Definition start_gui : list string :=
  ["systemctl"; "--user"; "start"; gui_service].

(** Step 1, before its verification: the daemon unit is enabled. *)
Definition enable_events : list Event :=
  Log INFO (Fmt "enabling {daemon_service!r} systemd service as root"
                [daemon_service])
  :: sudo_events enable_daemon.

(** Step 2, before its verification: the daemon unit is started. *)
Definition start_daemon_events : list Event :=
  Log INFO (Fmt "starting {daemon_service!r} systemd service as root"
                [daemon_service])
  :: sudo_events start_daemon.

(** Step 3, before its verification: the GUI unit is started. *)
Definition start_gui_events : list Event :=
  Log INFO (Fmt "enabling {gui_service!r} systemd service as user"
                [gui_service])
  :: user_events start_gui.

Definition started_events : list Event :=
  [Log INFO (Fmt "zscaler correctly started" [])].

Definition failed_to_enable : exn :=
  SystemExit (Fmt "failed to enable {daemon_service}" [daemon_service]).
Definition failed_to_start_daemon : exn :=
  SystemExit (Fmt "failed to start {daemon_service}" [daemon_service]).
Definition failed_to_start_gui : exn :=
  SystemExit (Fmt "failed to start {gui_service}" [gui_service]).

(** What a verification that answered [v] makes of the rest of the
    sequence: it goes on with [next] when [v] is true, exits with [error]
    when it is false, and lets an exception of the verification through. *)
Definition gate {A} (v : Result bool) (error : exn)
    (next : Result A * list Event) : Result A * list Event :=
  match v with
  | Ok true => next
  | Ok false => (Raise error, [])
  | Raise x => (Raise x, [])
  | Diverge => (Diverge, [])
  end.

Definition after {A} (evs : list Event) (next : Result A * list Event)
  : Result A * list Event :=
  (next.1, evs ++ next.2).

Definition argv_log (sys_argv : list string) : Event :=
  Log DEBUG (Fmt "{sys.argv=}" sys_argv).

(** A supervisor that does what it is told: a unit is enabled once its
    enable command was run, and the processes of a unit are listed once its
    start command was run. *)
Definition ran (cmd : list string) (h : list Event) : bool :=
  bool_decide (cmd ∈ commands h).

Definition obedient_stdout (h : list Event) (argv : list string) : string :=
  if bool_decide (argv = ps_aux) then
    ps_header
    +:+ (if ran ("sudo" :: start_daemon) h
         then ps_line "/opt/zscaler/bin/zsaservice"
              +:+ ps_line "/opt/zscaler/bin/zstunnel --mode route"
         else "")
    +:+ (if ran start_gui h then ps_line "/opt/zscaler/bin/ZSTray" else "")
  else if bool_decide (argv = systemctl_status daemon_service) then
    "* zsaservice.service - Zscaler Service" +:+ nl
    +:+ "     Loaded: loaded (/etc/systemd/system/zsaservice.service; "
    +:+ (if ran ("sudo" :: enable_daemon) h then "enabled" else "disabled")
    +:+ "; preset: disabled)" +:+ nl
    +:+ "     Active: inactive (dead)" +:+ nl
  else "".

Definition obedient_env : Env :=
  {| stdout := obedient_stdout;
     set_order := elements;
     set_order_perm := fun _ => reflexivity _;
     zscaler_db := None;
     cannot_start := fun _ _ => None |}.

(** The events are in the order of their key [t]. *)
Definition in_order (l : list ParsedEvent) : Prop :=
  StronglySorted (fun a b => (t a ≤ t b)%string) l.

(** What the monitor makes of the name of the last event. *)
Definition status_of_name (name : string) : Result InternetSecurityStatus :=
  if String.eqb name "Internet Security Up" then Ok on
  else if String.eqb name "Internet Security Disabled" then Ok on
  else if String.eqb name "Internet Security Enabled" then Ok on
  else if String.eqb name "Internet Security On" then Ok on
  else if String.eqb name "Internet Security Off" then Ok off
  else Raise (UnsupportedScenario
                (Fmt "unsupported notification name: {name!r}" [name])).

(** * Further code *)

(** ** src/domain.py: the active executables *)

(** [s.endswith(suffix)] *)
Fixpoint endswith (s suffix : string) : bool :=
  String.eqb s suffix ||
  match s with
  | "" => false
  | String _ s' => endswith s' suffix
  end.

(** The body of the [for] loop of [_get_active_processes] on one line of
    [ps aux]: [Ok None] is the [continue], [Ok (Some binary)] what is added
    to the set.  The [ValueError] of unpacking a split that has not two
    parts is caught by the code, which then takes the whole command. *)
Definition active_binary (process : string) : Result (option string) :=
  match last (Py.split 10 process) with
  | None => Raise (IndexError (Fmt "list index out of range" []))
  | Some command =>
      if Py.startswith command "[" || Py.startswith command "-" then Ok None
      else
        match Py.split 1 command with
        | [binary; _] => Ok (Some binary)
        | _ => Ok (Some command)
        end
  end.

(** The [for] loop of [_get_active_processes]. *)
Fixpoint collect_active (lines : list string) (processes : gset string)
  : Result (gset string) :=
  match lines with
  | [] => Ok processes
  | process :: rest =>
      match active_binary process with
      | Ok None => collect_active rest processes
      | Ok (Some binary) => collect_active rest (processes ∪ {[ binary ]})
      | Raise e => Raise e
      | Diverge => Diverge
      end
  end.

Definition _get_active_processes : M (gset string) :=
  proc_stdout <- subprocess_run ps_aux ;;
  lift (collect_active (tail (Py.splitlines proc_stdout)) ∅).

(** The loop of [in_a_call] returns at the first binary that ends with
    zoom; it has no effect, so it is the test of whether there is one. *)
Definition in_a_call : M bool :=
  processes <- _get_active_processes ;;
  order <- list_of_set processes ;;
  ret (existsb (fun binary => endswith binary "zoom") order).

(** ** src/config.py, src/notification.py and src/daemon.py *)






(** ** The vocabulary of the further properties *)

(** No character of [s] is whitespace. *)
Definition no_space (s : string) : Prop :=
  Forall (fun c => Py.isspace c = false) (list_ascii_of_string s).

(** A line of [ps aux] whose command is another one than [p]. *)
Definition other_command (p line : string) : Prop :=
  exists c, _get_command_without_arguments_from_ps_aux_line line = Ok c
            /\ c <> p.

(** Every character of [s] is whitespace. *)
Definition all_space (s : string) : Prop :=
  Forall (fun c => Py.isspace c = true) (list_ascii_of_string s).

(** What a pass that leaves [running] unsatisfied is followed by. *)
Definition still_running (running : gset string) : list Event :=
  [ Log INFO
      (Fmt "{len(running)} processes are still is running, waiting {wait_between_attempts}s before retrying..."
           [pretty (size running); pretty wait_between_attempts]);
    Sleep wait_between_attempts ].

(** In a list of checks, an identity found not running is not checked
    again. *)
Fixpoint no_recheck_stopped (cs : list (string * bool)) : Prop :=
  match cs with
  | [] => True
  | (p, b) :: rest =>
      (b = false -> forall b', (p, b') ∉ rest) /\ no_recheck_stopped rest
  end.

Definition stop_gui : list string :=
  ["systemctl"; "--user"; "stop"; gui_service].
Definition stop_daemon : list string :=
  ["systemctl"; "stop"; daemon_service].
Definition disable_daemon : list string :=
  ["systemctl"; "disable"; daemon_service].

Definition stopped_events : list Event :=
  [Log INFO (Fmt "zscaler correctly stopped" [])].

Definition failed_to_stop_gui : exn :=
  SystemExit (Fmt "failed to stop {gui_service}" [gui_service]).
Definition failed_to_stop_daemon : exn :=
  SystemExit (Fmt "failed to stop {daemon_service}" [daemon_service]).
Definition failed_to_disable : exn :=
  SystemExit (Fmt "failed to disable {daemon_service}" [daemon_service]).

(** [main] turns the result of a sequence into its own. *)
Definition finish (run : Result unit * list Event)
  : Result (option string) * list Event :=
  match run with
  | (Ok _, e) => (Ok None, e)
  | (Raise x, e) => (Raise x, e)
  | (Diverge, e) => (Diverge, e)
  end.

(** A supervisor that does what it is told, to the end: a unit is enabled
    until its disable command is run, and the processes of a unit are
    listed until its stop command is run. *)
Definition winding_down_stdout (h : list Event) (argv : list string)
  : string :=
  if bool_decide (argv = ps_aux) then
    ps_header
    +:+ (if ran ("sudo" :: stop_daemon) h then ""
         else ps_line "/opt/zscaler/bin/zsaservice"
              +:+ ps_line "/opt/zscaler/bin/zstunnel --mode route")
    +:+ (if ran stop_gui h then "" else ps_line "/opt/zscaler/bin/ZSTray")
  else if bool_decide (argv = systemctl_status daemon_service) then
    "* zsaservice.service - Zscaler Service" +:+ nl
    +:+ "     Loaded: loaded (/etc/systemd/system/zsaservice.service; "
    +:+ (if ran ("sudo" :: disable_daemon) h then "disabled" else "enabled")
    +:+ "; preset: disabled)" +:+ nl
  else "".

Definition winding_down_env : Env :=
  {| stdout := winding_down_stdout;
     set_order := elements;
     set_order_perm := fun _ => reflexivity _;
     zscaler_db := None;
     cannot_start := fun _ _ => None |}.

(** What [main] logs for a status, when no subcommand is given. *)
Definition status_report (st : ZScalerVpnStatus) : fstring :=
  match st with
  | all_processes_running => Fmt "ZSCaler is running" []
  | some_processes_running => Fmt "ZSCaler is half-running" []
  | no_processes_running => Fmt "ZSCaler is not running" []
  end.

Definition unexpected_subcommand (sub : string) : exn :=
  NotImplementedError
    (Fmt "unexpected subcommand found: {args.subcommand}" [sub]).




(** The event [x] of [parsed] that no event before it is later than, and
    that every event after it is earlier than: the last, in the order of
    the list, of the events with the latest key. *)
Definition decides (parsed : list ParsedEvent) (x : ParsedEvent) : Prop :=
  exists pre post,
    parsed = pre ++ x :: post
    /\ (forall y, y ∈ pre -> (t y ≤ t x)%string)
    /\ (forall y, y ∈ post -> ~ (t x ≤ t y)%string).

(** The events that parse, each with the row it was made of. *)
Definition parsed_from (events : list Notification)
    (parsed : list ParsedEvent) : Prop :=
  Forall2 (fun e p => _parse e = Ok p) events parsed.

Definition last_event_log (x : ParsedEvent) : Event :=
  Log INFO
    (Fmt "last event found in DB: {json.dumps(last_event)!r}"
         [Time (row x); NotificationName (row x); t x]).

(** Two comparisons, the first one first. *)
Definition lex (c1 c2 : comparison) : comparison :=
  match c1 with
  | Eq => c2
  | _ => c1
  end.

(** The order of the dates and times that [strptime] returns. *)
Definition chronological (d1 d2 : Datetime.datetime) : comparison :=
  lex (Nat.compare (Datetime.year d1) (Datetime.year d2))
    (lex (Nat.compare (Datetime.month d1) (Datetime.month d2))
       (lex (Nat.compare (Datetime.day d1) (Datetime.day d2))
          (lex (Nat.compare (Datetime.hour d1) (Datetime.hour d2))
             (lex (Nat.compare (Datetime.minute d1) (Datetime.minute d2))
                (Nat.compare (Datetime.second d1) (Datetime.second d2)))))).

(** A date and time of the calendar. *)
Definition valid (d : Datetime.datetime) : Prop :=
  (1 <= Datetime.year d < 100 * 100
   /\ 1 <= Datetime.month d <= 12
   /\ 1 <= Datetime.day d
           <= Datetime.days_in_month (Datetime.year d) (Datetime.month d)
   /\ Datetime.hour d <= 23
   /\ Datetime.minute d <= 59
   /\ Datetime.second d <= 59)%nat.

(** The numbers below a hundred, padded to two characters, are in the
    order of the numbers. *)
Definition two_digits_in_order : bool :=
  forallb (fun n =>
    forallb (fun m =>
      (String.length (Datetime.zero_padded 2 n) =? 2)%nat
      && match (Datetime.zero_padded 2 n ?= Datetime.zero_padded 2 m)%string,
               Nat.compare n m with
         | Eq, Eq | Lt, Lt | Gt, Gt => true
         | _, _ => false
         end)
      (seq 0 100))
    (seq 0 100).

(** A number below ten thousand, padded to four characters, is its
    hundreds and its rest, each padded to two. *)
Definition four_digits_are_two_and_two : bool :=
  forallb (fun n =>
    String.eqb (Datetime.zero_padded 4 n)
      (Datetime.zero_padded 2 (n / 100)
         +:+ Datetime.zero_padded 2 (n mod 100)))
    (seq 0 (100 * 100)).

(** * Properties *)

(** ** The interaction monad *)

Section Monad.
Context {A B : Type} (m : M A) (f : A -> M B) (env : Env) (h : list Event).

Lemma bind_Ok a e1 :
  m env h = (Ok a, e1) ->
  bind m f env h = (fst (f a env (h ++ e1)), e1 ++ snd (f a env (h ++ e1))).
Proof. intros Hm. unfold bind. rewrite Hm. by destruct (f a env (h ++ e1)). Qed.

Lemma bind_Raise x e1 :
  m env h = (Raise x, e1) -> bind m f env h = (Raise x, e1).
Proof. intros Hm. unfold bind. by rewrite Hm. Qed.

Lemma bind_Diverge e1 :
  m env h = (Diverge, e1) -> bind m f env h = (Diverge, e1).
Proof. intros Hm. unfold bind. by rewrite Hm. Qed.

Lemma bind_inv r evs :
  bind m f env h = (r, evs) ->
  (exists a e1 e2, m env h = (Ok a, e1) /\ f a env (h ++ e1) = (r, e2)
                   /\ evs = e1 ++ e2)
  \/ (m env h = (failure r, evs) /\ forall b, r <> Ok b).
Proof.
  unfold bind. destruct (m env h) as [[a|x|] e1] eqn:Hm.
  - destruct (f a env (h ++ e1)) as [r' e2] eqn:Hf. intros [= <- <-].
    left. by exists a, e1, e2.
  - intros [= <- <-]. by right.
  - intros [= <- <-]. by right.
Qed.
End Monad.

(** ** The model on concrete inputs *)

Example splitlines_mixed :
  Py.splitlines ("a" +:+ String Py.CR (String Py.LF "") +:+ String Py.LF "b")
  = ["a"; ""; "b"].
Proof. reflexivity. Qed.

Example splitlines_trailing_newline : Py.splitlines ("a" +:+ nl) = ["a"].
Proof. reflexivity. Qed.

Example split_keeps_rest : Py.split 1 "  a   b c  " = ["a"; "b c  "].
Proof. reflexivity. Qed.

Example split_drops_blank_rest : Py.split 10 "a b  " = ["a"; "b"].
Proof. reflexivity. Qed.

Example strip_both_sides : Py.strip "   Loaded: x  " = "Loaded: x".
Proof. reflexivity. Qed.

Example command_of_ps_line :
  _get_command_without_arguments_from_ps_aux_line
    "root 812 0.0 0.1 1234 567 ? Ssl 10:00 0:01 /opt/zscaler/bin/zstunnel --mode route"
  = Ok "/opt/zscaler/bin/zstunnel".
Proof. reflexivity. Qed.

Example short_ps_line_raises :
  _get_command_without_arguments_from_ps_aux_line "  812 root 0:01 sh"
  = Raise (ValueError
             (Fmt "not enough values to unpack (expected 11, got {})" ["4"])).
Proof. reflexivity. Qed.

Example strptime_morning :
  Datetime.isoformat
    {| Datetime.year := 2024; Datetime.month := 1; Datetime.day := 1;
       Datetime.hour := 10; Datetime.minute := 0; Datetime.second := 0 |}
  = "2024-01-01T10:00:00"
  /\ Datetime.match_format "Mon, Jan 01 2024 10:00:00 am"
     = Some ({| Datetime.year := 2024; Datetime.month := 1; Datetime.day := 1;
                Datetime.hour := 10; Datetime.minute := 0;
                Datetime.second := 0 |}, "").
Proof. split; reflexivity. Qed.

(** With [%H] in the format, [%p] is matched and then not used. *)
Example strptime_ignores_pm :
  _parse {| Time := "Mon, Jan 01 2024 01:00:00 PM"; NotificationName := "" |}
  = Ok {| row := {| Time := "Mon, Jan 01 2024 01:00:00 PM";
                    NotificationName := "" |};
          t := "2024-01-01T01:00:00" |}.
Proof. reflexivity. Qed.

Example strptime_rejects_february_30 :
  Datetime.strptime "Fri, Feb 30 2024 10:00:00 AM"
  = Raise (ValueError (Fmt "day is out of range for month" [])).
Proof. reflexivity. Qed.

Example status_text_enabled :
  loaded_line (systemctl_status daemon_service)
    (obedient_stdout [Run ("sudo" :: enable_daemon)]
       (systemctl_status daemon_service))
  = Ok "Loaded: loaded (/etc/systemd/system/zsaservice.service; enabled; preset: disabled)".
Proof. reflexivity. Qed.

Example unit_enabled_after_enable :
  (_is_systemd_unit_enabled daemon_service obedient_env
     [Run ("sudo" :: enable_daemon)]).1 = Ok true
  /\ (_is_systemd_unit_disabled daemon_service obedient_env
        [Run ("sudo" :: enable_daemon)]).1 = Ok false
  /\ (_is_systemd_unit_disabled daemon_service obedient_env []).1 = Ok true.
Proof. split_and!; reflexivity. Qed.

Example unit_status_without_second_line :
  (_is_systemd_unit_enabled daemon_service
     (constant_env "Unit zsaservice.service could not be found." None) []).1
  = Raise (IndexError (Fmt "list index out of range" [])).
Proof. reflexivity. Qed.

Example unit_status_without_marker :
  exists msg,
    (_is_systemd_unit_enabled daemon_service
       (constant_env ("* zsaservice.service" +:+ nl +:+ "  Active: x" +:+ nl)
          None) []).1
    = Raise (ValueError msg).
Proof. eexists. reflexivity. Qed.

(** ** The transition function *)


Lemma value_inj : Inj (=) (=) value.
Proof. intros [] [] E; (done || discriminate E). Qed.

(** C1. [decide_action] answers nothing-to-reconcile when the two statuses
    are equal, startup when all processes are wanted and none or some run,
    shutdown when none is wanted and all or some run, and raises
    [UnsupportedScenario] for every other pair, that is exactly when some
    processes are wanted and the current status is another one. *)
Theorem decide_action_spec (current desired : ZScalerVpnStatus) :
  (current = desired ->
   decide_action current desired = Ok nothing_to_reconcile)
  /\ (desired = all_processes_running ->
      current = no_processes_running \/ current = some_processes_running ->
      decide_action current desired = Ok startup)
  /\ (desired = no_processes_running ->
      current = all_processes_running \/ current = some_processes_running ->
      decide_action current desired = Ok shutdown)
  /\ ((exists msg,
         decide_action current desired = Raise (UnsupportedScenario msg))
      <-> desired = some_processes_running /\ current <> desired)
  /\ ((forall a, decide_action current desired <> Ok a)
      <-> desired = some_processes_running /\ current <> desired).
Proof.
  split; [|split; [|split; [|split]]].
  - intros <-. by destruct current.
  - intros -> [-> | ->]; reflexivity.
  - intros -> [-> | ->]; reflexivity.
  - split.
    + destruct current, desired; intros [msg E]; by vm_compute in E.
    + intros [-> Hne]. destruct current; try done; by eexists.
  - split.
    + destruct current, desired; intros E; try done;
        by (exfalso; eapply E; vm_compute).
    + intros [-> Hne] a. by destruct current.
Qed.

(** C2, as the code has it: [decide_action] answers with one action on
    the seven pairs whose wanted status is all or none running, or whose two
    statuses are both some running; on the two other pairs it raises. *)
Theorem decide_action_partial (current desired : ZScalerVpnStatus) :
  ((exists a, decide_action current desired = Ok a)
   <-> desired <> some_processes_running \/ current = some_processes_running)
  /\ (forall a a',
        decide_action current desired = Ok a ->
        decide_action current desired = Ok a' -> a = a')
  /\ decided =
       [ (all_processes_running, all_processes_running);
         (all_processes_running, no_processes_running);
         (some_processes_running, all_processes_running);
         (some_processes_running, some_processes_running);
         (some_processes_running, no_processes_running);
         (no_processes_running, all_processes_running);
         (no_processes_running, no_processes_running) ].
Proof.
  split; [|split].
  - split.
    + destruct current, desired; intros [a E]; vm_compute in E;
        (discriminate E || (by left) || by right).
    + destruct current, desired; intros [E | E]; try done; by eexists.
  - congruence.
  - reflexivity.
Qed.

(** C2, as stated, fails: with all processes running and some wanted running,
    [decide_action] raises. *)
Lemma decide_action_raises_on_all_some :
  decide_action all_processes_running some_processes_running
  = Raise (UnsupportedScenario
      (Fmt "unable to determine the action to take:\ncurrent: {current.value}\ndesired: {desired.value}"
           ["all_processes_running"; "some_processes_running"])).
Proof. reflexivity. Qed.

(** ** The retry loops *)

(** C9. With no identity to wait for, both retry loops answer false at
    once: no subprocess is run, nothing is slept, nothing is logged; the
    [while] loops do so for the empty set whatever the fuel and the count
    of attempts. *)
Theorem wait_on_empty_set (env : Env) (h : list Event) :
  _are_processes_running [] env h = (Ok false, [])
  /\ _are_processes_not_running [] env h = (Ok false, [])
  /\ (forall fuel attempts,
        _are_processes_running_while fuel ∅ attempts env h = (Ok false, [])
        /\ _are_processes_not_running_while fuel ∅ attempts env h
           = (Ok false, [])).
Proof.
  split_and!; [reflexivity..|].
  intros fuel attempts. split; by destruct fuel.
Qed.

(** ** The process observer *)

Lemma split_go_word n w s : Py.split_go n (Some w) s <> [].
Proof.
  revert w. induction s as [|c s IH]; intros w; simpl; [done|].
  destruct (Py.isspace c); [done | apply IH].
Qed.

(** A split with a read word pending yields at most [n + 2] elements, one
    with none pending at most [n + 1]; when the bound is reached the last
    element is the rest of the string, which starts with a character that
    is not whitespace. *)
Lemma split_go_bound (n : nat) (cur : option string) (s : string) :
  let bound := (n + 1 + match cur with Some _ => 1 | None => 0 end)%nat in
  (length (Py.split_go n cur s) <= bound)%nat
  /\ (length (Py.split_go n cur s) = bound ->
      exists x, last (Py.split_go n cur s) = Some x /\ starts_with_non_space x).
Proof.
  revert n cur. induction s as [|c s IH]; intros n cur; simpl.
  - destruct cur; simpl; split; (lia || intros; lia).
  - destruct cur as [w|].
    + destruct (Py.isspace c) eqn:Hc.
      * destruct (IH n None) as [Hle Hlast]. simpl in *. split; [lia|].
        intros Hlen. destruct Hlast as (x & Hx & Hns); [lia|].
        exists x. split; [|done].
        destruct (Py.split_go n None s); [done | by rewrite last_cons, Hx].
      * apply (IH n (Some (String c w))).
    + destruct (Py.isspace c) eqn:Hc.
      * apply (IH n None).
      * destruct n as [|k].
        -- simpl. split; [lia|]. intros _. eexists. split; [done|]. exact Hc.
        -- destruct (IH k (Some (String c ""))) as [Hle Hlast]. simpl in *.
           split; [lia|]. intros Hlen. apply Hlast. lia.
Qed.

Lemma split_non_space n x : starts_with_non_space x -> Py.split n x <> [].
Proof.
  destruct x as [|c x]; [done|]. unfold Py.split. simpl. intros ->.
  destruct n; [done | apply split_go_word].
Qed.

Lemma get_command_never_not_implemented line msg :
  _get_command_without_arguments_from_ps_aux_line line
  <> Raise (NotImplementedError msg).
Proof.
  unfold _get_command_without_arguments_from_ps_aux_line.
  destruct (split_go_bound 10 None line) as [_ Hlast]. simpl in Hlast.
  fold (Py.split 10 line) in Hlast.
  destruct (Py.split 10 line) as [|? [|? [|? [|? [|? [|? [|? [|? [|? [|?
    [|cmd [|? ?]]]]]]]]]]]]; try done.
  destruct Hlast as (x & [= <-] & Hns); [done|].
  pose proof (split_non_space 1 cmd Hns). by destruct (Py.split 1 cmd).
Qed.

Lemma get_command_well_formed line :
  well_formed_line line <->
  exists chunk, _get_command_without_arguments_from_ps_aux_line line = Ok chunk.
Proof.
  unfold well_formed_line.
  pose proof (get_command_never_not_implemented line) as Hnie.
  unfold _get_command_without_arguments_from_ps_aux_line in *.
  destruct (Py.split 10 line) as [|? [|? [|? [|? [|? [|? [|? [|? [|? [|?
    [|cmd [|? ?]]]]]]]]]]]]; simpl;
    try (split; [intros [=] | intros [? [=]]]; fail).
  destruct (Py.split 1 cmd) as [|chunk ?]; [exfalso; by eapply Hnie|].
  split; [intros _; by eexists | done].
Qed.

Lemma get_command_raises line e :
  _get_command_without_arguments_from_ps_aux_line line = Raise e ->
  ~ well_formed_line line
  /\ e = ValueError (Fmt "not enough values to unpack (expected 11, got {})"
                         [pretty (length (Py.split 10 line))]).
Proof.
  intros He. split.
  - intros [chunk Hc]%get_command_well_formed. congruence.
  - pose proof (get_command_never_not_implemented line) as Hnie.
    unfold _get_command_without_arguments_from_ps_aux_line in *.
    destruct (Py.split 10 line) as [|? [|? [|? [|? [|? [|? [|? [|? [|? [|?
      [|cmd [|? ?]]]]]]]]]]]]; simpl; try by injection He as <-.
    destruct (Py.split 1 cmd); [exfalso; by eapply Hnie | done].
Qed.

Lemma get_command_not_Diverge line :
  _get_command_without_arguments_from_ps_aux_line line <> Diverge.
Proof.
  unfold _get_command_without_arguments_from_ps_aux_line.
  destruct (Py.split 10 line) as [|? [|? [|? [|? [|? [|? [|? [|? [|? [|?
    [|cmd [|? ?]]]]]]]]]]]]; try done.
  by destruct (Py.split 1 cmd).
Qed.

Lemma find_binary_not_Diverge p lines : find_binary p lines <> Diverge.
Proof.
  induction lines as [|line lines IH]; simpl; [done|].
  pose proof (get_command_not_Diverge line).
  destruct (_get_command_without_arguments_from_ps_aux_line line); try done.
  by destruct (String.eqb a p).
Qed.


Lemma find_binary_raises p lines e :
  find_binary p lines = Raise e ->
  exists n, e = ValueError
                  (Fmt "not enough values to unpack (expected 11, got {})" [n]).
Proof.
  induction lines as [|line lines IH]; simpl; [done|].
  destruct (_get_command_without_arguments_from_ps_aux_line line) eqn:Hc.
  - destruct (String.eqb a p); [done | apply IH].
  - intros [= <-]. apply get_command_raises in Hc as [_ ->]. by eexists.
  - done.
Qed.

(** One observation: the log line, [ps aux], and the scan of what it
    printed after the header. *)
Lemma is_process_running_run p env h :
  _is_process_running p env h =
  match find_binary p
          (tail (Py.splitlines (stdout env (h ++ [looking_for p]) ps_aux))) with
  | Ok b => (Ok b, [looking_for p; Run ps_aux; found_or_not p b])
  | Raise e => (Raise e, [looking_for p; Run ps_aux])
  | Diverge => (Diverge, [looking_for p; Run ps_aux])
  end.
Proof.
  unfold _is_process_running, bind, log, emit, subprocess_run, lift. simpl.
  by destruct (find_binary _ _) as [[]| |].
Qed.

Lemma is_process_running_events p env h r evs :
  _is_process_running p env h = (r, evs) ->
  commands evs = [ps_aux] /\ sleeps evs = [] /\ checks evs = []
  /\ r <> Diverge /\ r = observed env h p.
Proof.
  unfold observed. rewrite is_process_running_run.
  pose proof (find_binary_not_Diverge p
    (tail (Py.splitlines (stdout env (h ++ [looking_for p]) ps_aux)))).
  destruct (find_binary _ _) as [[]| |]; by intros [= <- <-].
Qed.



Lemma map_M_length {A B} (f : A -> M B) l env h ys evs :
  map_M f l env h = (Ok ys, evs) -> length ys = length l.
Proof.
  revert h ys evs. induction l as [|x l IH]; intros h ys evs; simpl.
  - by intros [= <- <-].
  - intros [(y & e1 & e2 & Hy & Hrest & ->) | [_ Hno]]%bind_inv;
      [|by destruct (Hno ys)].
    apply bind_inv in Hrest
      as [(ys' & e3 & e4 & Hys & [= <- <-] & ->) | [_ Hno]];
      [|by destruct (Hno ys)].
    simpl. f_equal. eauto.
Qed.



(** ** The status classifier *)

Lemma three_answers env h answers evs :
  map_M _is_process_running binaries env h = (Ok answers, evs) ->
  exists b1 b2 b3, answers = [b1; b2; b3].
Proof.
  intros Hlen%map_M_length.
  destruct answers as [|b1 [|b2 [|b3 [|? ?]]]]; try done. by exists b1, b2, b3.
Qed.

(** C3. Whatever subset of the three tracked identities the observer
    reports running, [is_zscaler_running] answers all running exactly when
    the subset is all three, none running exactly when it is empty, and some
    running in every other case. *)
Theorem is_zscaler_running_classifies env h answers evs :
  map_M _is_process_running binaries env h = (Ok answers, evs) ->
  exists st,
    is_zscaler_running env h = (Ok st, evs ++ [breakpoint_set])
    /\ (st = all_processes_running
        <-> reported_running answers = list_to_set binaries)
    /\ (st = no_processes_running <-> reported_running answers = ∅)
    /\ (st = some_processes_running
        <-> reported_running answers <> list_to_set binaries
            /\ reported_running answers <> ∅).
Proof.
  intros Hobs. destruct (three_answers _ _ _ _ Hobs) as (b1 & b2 & b3 & ->).
  unfold is_zscaler_running. rewrite (bind_Ok _ _ _ _ _ _ Hobs).
  destruct b1, b2, b3; eexists; (split; [reflexivity | compute_done]).
Qed.

(** Every subset of the three identities is reported by some listing. *)
Lemma every_subset_is_reported (b1 b2 b3 : bool) :
  (map_M _is_process_running binaries (listing_env b1 b2 b3) []).1
  = Ok [b1; b2; b3].
Proof. by destruct b1, b2, b3. Qed.

Lemma is_zscaler_running_classifies_witness :
  exists evs,
    is_zscaler_running only_tray_env [] = (Ok some_processes_running, evs).
Proof.
  destruct (is_zscaler_running_classifies only_tray_env []
              [true; false; false]
              (snd (map_M _is_process_running binaries only_tray_env [])))
    as (st & Hrun & _ & _ & Hsome).
  - vm_compute. reflexivity.
  - eexists. rewrite Hrun. f_equal. f_equal. apply Hsome. compute_done.
Defined.





(** ** The unit supervisor client *)

Lemma append_cons c s1 s2 : String c s1 +:+ s2 = String c (s1 +:+ s2).
Proof. reflexivity. Qed.

Lemma prefix_spec p s : String.prefix p s = true <-> exists rest, s = p +:+ rest.
Proof.
  revert s. induction p as [|c p IH]; intros s.
  - destruct s; (split; [by eexists | done]).
  - destruct s as [|c' s]; simpl; [split; [done | by intros [? [=]]]|].
    destruct (ascii_dec c c') as [<-|Hne].
    + rewrite IH. split; intros [rest E]; exists rest.
      * by rewrite append_cons, E.
      * rewrite append_cons in E. congruence.
    + split; [done | intros [rest E]; rewrite append_cons in E; congruence].
Qed.

Lemma contains_spec sub s :
  Py.contains sub s = true <-> exists a b, s = a +:+ sub +:+ b.
Proof.
  induction s as [|c s IH]; cbn [Py.contains].
  - rewrite orb_false_r, prefix_spec. split.
    + intros [rest E]. by exists "", rest.
    + intros (a & b & E). destruct a as [|c a]; [by exists b|].
      by rewrite append_cons in E.
  - rewrite orb_true_iff, prefix_spec, IH. split.
    + intros [[rest E] | (a & b & E)].
      * by exists "", rest.
      * exists (String c a), b. by rewrite append_cons, E.
    + intros (a & b & E). destruct a as [|c' a].
      * left. by exists b.
      * right. exists a, b. rewrite append_cons in E. congruence.
Qed.

Lemma loaded_line_status_query marker cmd text :
  status_query marker text
    (match loaded_line cmd text with
     | Ok second_line => Ok (Py.contains marker second_line)
     | Raise e => Raise e
     | Diverge => Diverge
     end).
Proof.
  unfold status_query, marker_line_absent, loaded_line, Py.startswith,
    expected_prefix.
  destruct (Py.splitlines text !! 1%nat) as [line|]; simpl.
  - destruct (String.prefix "Loaded: " (Py.strip line)) eqn:Hp; simpl.
    + apply prefix_spec in Hp. split; [|split].
      * split; [by intros [? [=]] | by intros []].
      * by intros ? [=].
      * intros ? [= <-] _. eexists. split; [done|]. apply contains_spec.
    + assert (~ exists rest, Py.strip line = "Loaded: " +:+ rest) as Hno.
      { intros Hp'%prefix_spec. congruence. }
      split; [|split].
      * split; [done | by eexists].
      * intros ? [= <-]. constructor.
      * intros ? [= <-] ?. done.
  - split; [|split].
    + split; [done | by eexists].
    + intros ? [= <-]. constructor.
    + done.
Qed.

Lemma is_systemd_unit_enabled_run unit_name env h :
  let cmd := systemctl_status unit_name in
  let text := stdout env (h ++ [checking_enabled unit_name]) cmd in
  _is_systemd_unit_enabled unit_name env h =
  match loaded_line cmd text with
  | Ok second_line =>
      (Ok (Py.contains "; enabled; preset: disabled)" second_line),
       [checking_enabled unit_name; Run cmd;
        Log DEBUG (Fmt "the unit {unit_name!r} is enabled" [unit_name])])
  | Raise e => (Raise e, [checking_enabled unit_name; Run cmd])
  | Diverge => (Diverge, [checking_enabled unit_name; Run cmd])
  end.
Proof.
  unfold _is_systemd_unit_enabled, bind, log, emit, subprocess_run, lift.
  simpl. by destruct (loaded_line _ _).
Qed.

Lemma is_systemd_unit_disabled_run unit_name env h :
  let cmd := systemctl_status unit_name in
  let text := stdout env (h ++ [checking_disabled unit_name]) cmd in
  _is_systemd_unit_disabled unit_name env h =
  match loaded_line cmd text with
  | Ok second_line =>
      (Ok (Py.contains "; disabled; preset: disabled)" second_line),
       [checking_disabled unit_name; Run cmd;
        Log DEBUG (Fmt "the unit {unit_name!r} is disabled" [unit_name])])
  | Raise e => (Raise e, [checking_disabled unit_name; Run cmd])
  | Diverge => (Diverge, [checking_disabled unit_name; Run cmd])
  end.
Proof.
  unfold _is_systemd_unit_disabled, bind, log, emit, subprocess_run, lift.
  simpl. by destruct (loaded_line _ _).
Qed.

(** C6. Each of the two status queries runs [systemctl status] once and
    raises exactly when the marker line is absent from the text it reads:
    an [IndexError] when there is no second line, a [ValueError] when the
    trimmed second line does not start with ["Loaded: "].  Otherwise it
    answers whether that line contains the enabled (respectively disabled)
    text with the preset marker. *)
Theorem unit_status_queries (env : Env) (h : list Event) (unit_name : string) :
  let cmd := systemctl_status unit_name in
  status_query "; enabled; preset: disabled)"
    (stdout env (h ++ [checking_enabled unit_name]) cmd)
    (fst (_is_systemd_unit_enabled unit_name env h))
  /\ status_query "; disabled; preset: disabled)"
       (stdout env (h ++ [checking_disabled unit_name]) cmd)
       (fst (_is_systemd_unit_disabled unit_name env h))
  /\ commands (snd (_is_systemd_unit_enabled unit_name env h)) = [cmd]
  /\ commands (snd (_is_systemd_unit_disabled unit_name env h)) = [cmd].
Proof.
  intros cmd.
  rewrite is_systemd_unit_enabled_run, is_systemd_unit_disabled_run.
  fold cmd.
  pose proof (loaded_line_status_query "; enabled; preset: disabled)" cmd
    (stdout env (h ++ [checking_enabled unit_name]) cmd)) as He.
  pose proof (loaded_line_status_query "; disabled; preset: disabled)" cmd
    (stdout env (h ++ [checking_disabled unit_name]) cmd)) as Hd.
  destruct (loaded_line cmd (stdout env (h ++ [checking_enabled unit_name]) cmd));
  destruct (loaded_line cmd (stdout env (h ++ [checking_disabled unit_name]) cmd));
    done.
Qed.

(** ** The security feature monitor *)

Lemma sql_like_prefix_spec p x :
  sql_like_prefix p x = true
  <-> exists rest, Datetime.lower x = Datetime.lower p +:+ rest.
Proof. apply prefix_spec. Qed.

Lemma select_events_nil table :
  no_matching_event table -> select_events table = [].
Proof.
  intros Hno. unfold select_events.
  induction table as [|e table IH]; [done|].
  rewrite filter_cons_False.
  - apply IH. intros e' He'. apply Hno. by right.
  - intros Hm%sql_like_prefix_spec. apply (Hno e); [by left | done].
Qed.

(** C8. When the event-log store is absent, and when it is there but none
    of its events has a name matching the prefix, the monitor answers
    unknown and raises nothing; it only logs a warning. *)
Theorem security_status_unknown (env : Env) (h : list Event) :
  match zscaler_db env with
  | None => True
  | Some table => no_matching_event table
  end ->
  exists msg, is_internet_security_on env h = (Ok unknown, [Log WARNING msg]).
Proof.
  unfold is_internet_security_on.
  destruct (zscaler_db env) as [table|].
  - intros Hno%select_events_nil. rewrite Hno. by eexists.
  - intros _. by eexists.
Qed.

Lemma security_status_unknown_witness :
  (exists msg,
     is_internet_security_on (constant_env "" None) []
     = (Ok unknown, [Log WARNING msg]))
  /\ (exists msg,
        is_internet_security_on
          (constant_env ""
             (Some [ {| Time := "Mon, Jan 01 2024 10:00:00 AM";
                        NotificationName := "Tunnel Up" |} ])) []
        = (Ok unknown, [Log WARNING msg])).
Proof.
  split.
  - apply (security_status_unknown (constant_env "" None) []). exact I.
  - apply (security_status_unknown
             (constant_env ""
                (Some [ {| Time := "Mon, Jan 01 2024 10:00:00 AM";
                           NotificationName := "Tunnel Up" |} ])) []).
    simpl. intros e ->%list_elem_of_singleton. intros [rest E].
    vm_compute in E. discriminate E.
Defined.

Lemma two_rows_orders (table : list Notification) a b :
  table ≡ₚ [a; b] -> table = [a; b] \/ table = [b; a].
Proof. intros Hp. symmetry in Hp. by apply Permutation_length_2_inv. Qed.

(** C7. With exactly the row of 10:00 named Internet Security Off and the
    row of 11:00 named Internet Security On in the store, in either order,
    the monitor answers on: the event with the latest parsed time
    decides. *)
Theorem security_status_latest (env : Env) (h : list Event)
    (table : list Notification) :
  zscaler_db env = Some table ->
  table ≡ₚ [off_at_10; on_at_11] ->
  is_internet_security_on env h
  = (Ok on,
     [Log INFO
        (Fmt "last event found in DB: {json.dumps(last_event)!r}"
             [Time on_at_11; NotificationName on_at_11;
              "2024-01-01T11:00:00"])]).
Proof.
  intros Hdb [-> | ->]%two_rows_orders;
    unfold is_internet_security_on; rewrite Hdb; reflexivity.
Qed.

Lemma security_status_latest_witness :
  fst (is_internet_security_on
         (constant_env "" (Some [on_at_11; off_at_10])) []) = Ok on.
Proof.
  rewrite (security_status_latest
             (constant_env "" (Some [on_at_11; off_at_10])) []
             [on_at_11; off_at_10]).
  - reflexivity.
  - reflexivity.
  - apply Permutation_swap.
Defined.

(** ** The retry loop of [_are_processes_running] *)

Lemma commands_app e1 e2 : commands (e1 ++ e2) = commands e1 ++ commands e2.
Proof. apply omap_app. Qed.

Lemma sleeps_app e1 e2 : sleeps (e1 ++ e2) = sleeps e1 ++ sleeps e2.
Proof. apply omap_app. Qed.

Lemma checks_app e1 e2 : checks (e1 ++ e2) = checks e1 ++ checks e2.
Proof. apply omap_app. Qed.

Lemma check_events_shows p b :
  commands (check_events p b) = [ps_aux]
  /\ sleeps (check_events p b) = []
  /\ checks (check_events p b) = [(p, b)].
Proof. by destruct b. Qed.

(** One check of an identity that is in the set. *)
Lemma check_running_run p (s : gset string) env h :
  p ∈ s ->
  check_running p s env h =
  match observed env h p with
  | Ok b => (Ok (if b then s ∖ {[ p ]} else s), check_events p b)
  | Raise e => (Raise e, [looking_for p; Run ps_aux])
  | Diverge => (Diverge, [looking_for p; Run ps_aux])
  end.
Proof.
  intros Hin. unfold check_running, observed.
  pose proof (is_process_running_run p env h) as Hrun.
  destruct (find_binary _ _) as [b| |] eqn:Hf.
  - rewrite (bind_Ok _ _ _ _ _ _ Hrun), Hrun. simpl.
    destruct b; simpl; [|done].
    unfold set_remove, bind, log, emit, ret. simpl.
    by rewrite bool_decide_eq_true_2.
  - by rewrite (bind_Raise _ _ _ _ _ _ Hrun), Hrun.
  - by rewrite (bind_Diverge _ _ _ _ _ Hrun), Hrun.
Qed.

Lemma observed_fails env h p :
  observed env h p <> Diverge
  /\ forall e, observed env h p = Raise e ->
       exists n, e = ValueError
         (Fmt "not enough values to unpack (expected 11, got {})" [n]).
Proof.
  unfold observed. rewrite is_process_running_run.
  pose proof (find_binary_not_Diverge p
    (tail (Py.splitlines (stdout env (h ++ [looking_for p]) ps_aux)))).
  destruct (find_binary _ _) eqn:Hf; simpl; split; try done.
  intros ? [= <-]. by eapply find_binary_raises.
Qed.

(** One pass of the [for] loop over a snapshot [l] of the set [s]: it runs
    [ps aux] once for each identity it checks, in the order of [l], never
    sleeps, and leaves in the set exactly the identities not found
    running. *)
Lemma pass_spec l : forall (s : gset string) env h r evs,
  NoDup l -> (forall q, q ∈ l -> q ∈ s) ->
  for_each l check_running s env h = (r, evs) ->
  r <> Diverge
  /\ (forall key, r <> Raise (KeyError key))
  /\ sleeps evs = []
  /\ Forall (eq ps_aux) (commands evs)
  /\ (length (commands evs) <= length l)%nat
  /\ (fst <$> checks evs) `prefix_of` l
  /\ (forall q b, (q, b) ∈ checks evs ->
        exists pre post, evs = pre ++ post /\ sleeps pre = []
                         /\ observed env (h ++ pre) q = Ok b)
  /\ (forall s', r = Ok s' ->
        fst <$> checks evs = l
        /\ length (commands evs) = length l
        /\ forall q, q ∈ s' <-> q ∈ s /\ (q, true) ∉ checks evs)
  /\ (forall e, r = Raise e ->
        exists pre q, q ∈ l /\ sleeps pre = []
                      /\ observed env (h ++ pre) q = Raise e).
Proof.
  induction l as [|p l IH]; intros s env h r evs Hnd Hsub; simpl.
  - intros [= <- <-]. split_and!; try done.
    + intros ? ? []%elem_of_nil.
    + intros s' [= <-]. split_and!; try done.
      intros q. split; [|by intros []].
      intros Hq. split; [done | apply not_elem_of_nil].
  - apply NoDup_cons in Hnd as [Hpl Hnd].
    assert (p ∈ s) as Hp by (apply Hsub; left).
    pose proof (check_running_run p s env h Hp) as Hcheck.
    destruct (observed_fails env h p) as [Hdiv Hraise].
    destruct (observed env h p) as [b|e|] eqn:Hobs; [| |done].
    + rewrite (bind_Ok _ _ _ _ _ _ Hcheck).
      destruct (check_events_shows p b) as (Hc & Hs & Hk).
      remember (check_events p b) as e1 eqn:He1.
      destruct (for_each l check_running (if b then s ∖ {[p]} else s) env
                  (h ++ e1)) as [r2 e2] eqn:Hrest.
      cbn [fst snd]. intros [= <- <-].
      apply IH in Hrest as (H1 & H2 & H3 & H4 & H5 & H6 & H7 & H8 & H9);
        [|done|].
      2:{ intros q Hq. assert (q <> p) by (intros ->; done).
          assert (q ∈ s) by (apply Hsub; by right).
          destruct b; [|done]. apply elem_of_difference.
          split; [done | by intros ->%elem_of_singleton]. }
      rewrite commands_app, sleeps_app, checks_app, Hc, Hs, Hk, H3.
      cbn [app length fmap list_fmap fst]. split_and!; try done.
      * by constructor.
      * lia.
      * by apply prefix_cons.
      * intros q b' [[= -> ->] | Hq]%elem_of_cons.
        -- exists [], (e1 ++ e2). by rewrite app_nil_r.
        -- destruct (H7 q b' Hq) as (pre & post & -> & Hsl & Ho).
           exists (e1 ++ pre), post.
           rewrite sleeps_app, Hs, Hsl, !app_assoc. done.
      * intros s' Hs'. destruct (H8 s' Hs') as (Hl & Hn & Hq).
        split_and!; [by rewrite Hl | by rewrite Hn |].
        intros q. rewrite Hq, not_elem_of_cons. split.
        -- intros [Hqs Hno]. destruct b.
           ++ apply elem_of_difference in Hqs as [Hqs Hqp].
              split_and!; [done | | done].
              intros [= ->]. apply Hqp. by apply elem_of_singleton.
           ++ by split_and!.
        -- intros [Hqs [Hne Hno]]. split; [|done].
           destruct b; [|done]. apply elem_of_difference.
           split; [done | by intros ->%elem_of_singleton].
      * intros e Hr. destruct (H9 e Hr) as (pre & q & Hq & Hsl & Ho).
        exists (e1 ++ pre), q. rewrite sleeps_app, Hs, Hsl, app_assoc.
        split_and!; [by right | done..].
    + rewrite (bind_Raise _ _ _ _ _ _ Hcheck). intros [= <- <-].
      destruct (Hraise e eq_refl) as [n ->].
      split_and!; try done.
      * simpl. by repeat constructor.
      * simpl. lia.
      * apply prefix_nil.
      * intros ? ? []%elem_of_nil.
      * intros ? [= <-]. exists [], p. rewrite app_nil_r.
        split_and!; [by left | done..].
Qed.

Lemma while_done fuel (s : gset string) attempts env h :
  s = ∅ \/ (max_attempts <= attempts)%nat ->
  _are_processes_running_while fuel s attempts env h = (Ok false, []).
Proof.
  intros Hstop.
  assert (bool_decide (s ≠ ∅) && (attempts <? max_attempts)%nat = false)
    as Hcond.
  { destruct Hstop as [-> | Hle].
    - by rewrite bool_decide_eq_false_2 by (intros ?; done).
    - apply andb_false_iff. right. by apply Nat.ltb_ge. }
  destruct fuel; simpl; by rewrite Hcond.
Qed.

(** One iteration of the [while] loop. *)
Lemma while_step fuel (s : gset string) attempts env h :
  s <> ∅ -> (attempts < max_attempts)%nat ->
  _are_processes_running_while (S fuel) s attempts env h =
  match for_each (set_order env s) check_running s env h with
  | (Ok s', e1) =>
      if bool_decide (s' ≠ ∅) then
        (fst (_are_processes_running_while fuel s' (attempts + 1) env
                (h ++ e1 ++ still_waiting s')),
         e1 ++ still_waiting s'
         ++ snd (_are_processes_running_while fuel s' (attempts + 1) env
                   (h ++ e1 ++ still_waiting s')))
      else (Ok true, e1)
  | (Raise x, e1) => (Raise x, e1)
  | (Diverge, e1) => (Diverge, e1)
  end.
Proof.
  intros Hs Hlt. cbn [_are_processes_running_while].
  rewrite bool_decide_eq_true_2 by done.
  apply Nat.ltb_lt in Hlt as ->. cbn [andb].
  unfold bind at 1. unfold list_of_set at 1. cbn [app]. rewrite app_nil_r.
  unfold bind at 1.
  destruct (for_each (set_order env s) check_running s env h)
    as [[s'|x|] e1]; [|done..].
  destruct (bool_decide (s' ≠ ∅)).
  - unfold bind, log, sleep, emit. cbn [app fst snd].
    rewrite <- !app_assoc. cbn [app].
    by destruct (_are_processes_running_while fuel s' (attempts + 1) env _).
  - unfold ret. by rewrite app_nil_r.
Qed.

Lemma no_recheck_NoDup cs : NoDup (fst <$> cs) -> no_recheck cs.
Proof.
  induction cs as [|[p b] cs IH]; [done|].
  cbn [fmap list_fmap fst no_recheck]. intros [Hp Hnd]%NoDup_cons.
  split; [|by apply IH]. intros _ b' Hin. apply Hp.
  apply list_elem_of_fmap. by exists (p, b').
Qed.

Lemma no_recheck_app cs1 cs2 :
  no_recheck cs1 -> no_recheck cs2 ->
  (forall q b, (q, true) ∈ cs1 -> (q, b) ∉ cs2) ->
  no_recheck (cs1 ++ cs2).
Proof.
  induction cs1 as [|[p b] cs1 IH]; [done|].
  cbn [app no_recheck]. intros [Hp Hrest] H2 Hcross. split.
  - intros -> b'. rewrite elem_of_app. intros [Hin | Hin].
    + by apply (Hp eq_refl b').
    + apply (Hcross p b'); [by left | done].
  - apply IH; [done..|]. intros q b' Hq. apply Hcross. by right.
Qed.

Lemma still_waiting_shows (s : gset string) :
  commands (still_waiting s) = [] /\ sleeps (still_waiting s) = [1%nat]
  /\ checks (still_waiting s) = [].
Proof. done. Qed.

Lemma set_order_spec env (s : gset string) :
  NoDup (set_order env s)
  /\ (forall q, q ∈ set_order env s <-> q ∈ s)
  /\ length (set_order env s) = size s.
Proof.
  pose proof (set_order_perm env s) as Hp. split_and!.
  - rewrite Hp. apply NoDup_elements.
  - intros q. rewrite Hp. apply elem_of_elements.
  - by rewrite Hp.
Qed.

Lemma attempts_budget (a n m c1 c2 : nat) :
  (a < max_attempts -> m <= n -> c1 <= n ->
   c2 <= (max_attempts - (a + 1)) * m ->
   c1 + c2 <= (max_attempts - a) * n)%nat.
Proof.
  unfold max_attempts. intros Ha Hm Hc1 Hc2.
  replace (5 - a)%nat with (S (5 - (a + 1))) by lia.
  pose proof (Nat.mul_le_mono_l m n (5 - (a + 1)) Hm). simpl. lia.
Qed.

(** The loop, whatever the world: with fuel for the attempts left it ends,
    sleeps one second at most once for each attempt left, runs nothing but
    [ps aux], at most once for each identity in each attempt, checks only
    identities of the set, and never again one it found running. *)
Lemma while_spec fuel : forall (s : gset string) attempts env h r evs,
  (max_attempts - attempts <= fuel)%nat ->
  _are_processes_running_while fuel s attempts env h = (r, evs) ->
  r <> Diverge
  /\ (forall key, r <> Raise (KeyError key))
  /\ Forall (eq 1%nat) (sleeps evs)
  /\ (length (sleeps evs) <= max_attempts - attempts)%nat
  /\ Forall (eq ps_aux) (commands evs)
  /\ (length (commands evs) <= (max_attempts - attempts) * size s)%nat
  /\ (forall q b, (q, b) ∈ checks evs -> q ∈ s)
  /\ no_recheck (checks evs).
Proof.
  induction fuel as [|fuel IH]; intros s attempts env h r evs Hfuel.
  - rewrite while_done by (right; lia). intros [= <- <-].
    split_and!; try done; try apply Nat.le_0_l; try (intros ? ? []%elem_of_nil).
  - destruct (decide (s = ∅ \/ (max_attempts <= attempts)%nat)) as [Hstop|Hgo].
    { rewrite while_done by done. intros [= <- <-].
      split_and!; try done; try apply Nat.le_0_l; try (intros ? ? []%elem_of_nil). }
    assert (s <> ∅) as Hs by (intros ->; apply Hgo; by left).
    assert (attempts < max_attempts)%nat as Hlt
      by (apply Nat.nle_gt; intros ?; apply Hgo; by right).
    rewrite while_step by done.
    destruct (set_order_spec env s) as (Hnd & Hmem & Hlen).
    destruct (for_each (set_order env s) check_running s env h)
      as [rp e1] eqn:Hpass.
    apply pass_spec in Hpass
      as (P1 & P2 & P3 & P4 & P5 & P6 & P7 & P8 & P9);
      [|done|by apply Hmem].
    assert (forall q b, (q, b) ∈ checks e1 -> q ∈ s) as Hin1.
    { intros q b Hq. apply Hmem. destruct P6 as [k ->].
      apply elem_of_app. left. apply list_elem_of_fmap. by exists (q, b). }
    assert (no_recheck (checks e1)) as Hnr1.
    { apply no_recheck_NoDup. destruct P6 as [k Hk].
      rewrite Hk in Hnd. by apply NoDup_app in Hnd as [? _]. }
    rewrite Hlen in P5.
    destruct rp as [s'|x|]; [| |done].
    + destruct (P8 s' eq_refl) as (_ & _ & Hs').
      assert (s' ⊆ s) as Hsub by (intros q [? _]%Hs'; done).
      pose proof (subseteq_size _ _ Hsub) as Hsize.
      destruct (bool_decide (s' ≠ ∅)).
      * destruct (still_waiting_shows s') as (Wc & Ws & Wk).
        remember (still_waiting s') as w eqn:Hw.
        destruct (_are_processes_running_while fuel s' (attempts + 1) env
                    (h ++ e1 ++ w)) as [r3 e3] eqn:Hrec.
        cbn [fst snd]. intros [= <- <-].
        apply IH in Hrec as (R1 & R2 & R3 & R4 & R5 & R6 & R7 & R8); [|lia].
        rewrite !sleeps_app, !commands_app, !checks_app, P3, Ws, Wc, Wk.
        cbn [app]. rewrite length_app. split_and!; try done.
        -- by constructor.
        -- simpl. unfold max_attempts in *. lia.
        -- by apply Forall_app.
        -- by eapply attempts_budget.
        -- intros q b [Hq | Hq]%elem_of_app; [by eapply Hin1|].
           apply Hsub. by eapply R7.
        -- apply no_recheck_app; [done..|].
           intros q b Htrue Hq. apply R7, Hs' in Hq as [_ Hno]. done.
      * intros [= <- <-]. rewrite P3.
        split_and!; try done; try apply Nat.le_0_l;
        try (intros key [= ->]; by apply (P2 key));
        rewrite <- (Nat.add_0_r (length _));
        eapply (attempts_budget _ _ (size s));
        first [done | apply Nat.le_0_l | lia].
    + intros [= <- <-]. rewrite P3.
      split_and!; try done; try apply Nat.le_0_l;
        try (intros key [= ->]; by apply (P2 key));
        rewrite <- (Nat.add_0_r (length _));
        eapply (attempts_budget _ _ (size s));
        first [done | apply Nat.le_0_l | lia].
Qed.

Lemma checks_all_true (cs : list (string * bool)) :
  (forall q b, (q, b) ∈ cs -> b = true) ->
  cs = (fun q => (q, true)) <$> (fst <$> cs).
Proof.
  induction cs as [|[q b] cs IH]; [done|]. intros Hall.
  cbn [fmap list_fmap fst]. f_equal.
  - f_equal. apply (Hall q). by left.
  - apply IH. intros q' b' Hin. apply (Hall q'). by right.
Qed.

Lemma filter_none {A} (P : A -> Prop) `{forall x, Decision (P x)} (l : list A) :
  (forall x, x ∈ l -> ~ P x) -> filter P l = [].
Proof.
  induction l as [|x l IH]; [done|]. intros Hno.
  rewrite filter_cons_False by (apply Hno; by left).
  apply IH. intros y Hy. apply Hno. by right.
Qed.

Lemma checks_of_identity (cs : list (string * bool)) p b :
  NoDup (fst <$> cs) -> (p, b) ∈ cs -> filter (fun c => c.1 = p) cs = [(p, b)].
Proof.
  induction cs as [|[q b'] cs IH]; [by intros _ []%elem_of_nil|].
  cbn [fmap list_fmap fst]. intros [Hq Hnd]%NoDup_cons Hin.
  apply elem_of_cons in Hin as [[= <- <-] | Hin].
  - rewrite filter_cons_True by done. f_equal.
    apply filter_none. intros [q' b''] Hin' Heq.
    simpl in Heq. subst q'. apply Hq, list_elem_of_fmap. by exists (p, b'').
  - rewrite filter_cons_False; [by apply IH|].
    simpl. intros ->. apply Hq, list_elem_of_fmap. by exists (p, b).
Qed.

Lemma Forall_eq_replicate {A} (x : A) l : Forall (eq x) l -> l = replicate (length l) x.
Proof. induction 1 as [|y l <- _ IH]; simpl; [done | by f_equal]. Qed.

(** All identities are found running in the first attempt: the loop
    answers true after one check of each, without sleeping. *)
Lemma while_all_running fuel (s : gset string) attempts env h :
  s <> ∅ -> (attempts < max_attempts)%nat ->
  (forall q pre, q ∈ s -> sleeps pre = [] ->
     observed env (h ++ pre) q = Ok true) ->
  exists evs,
    _are_processes_running_while (S fuel) s attempts env h = (Ok true, evs)
    /\ sleeps evs = []
    /\ commands evs = replicate (size s) ps_aux
    /\ checks evs = (fun q => (q, true)) <$> set_order env s.
Proof.
  intros Hs Hlt Hobs. rewrite while_step by done.
  destruct (set_order_spec env s) as (Hnd & Hmem & Hlen).
  destruct (for_each (set_order env s) check_running s env h)
    as [rp e1] eqn:Hpass.
  apply pass_spec in Hpass
    as (P1 & P2 & P3 & P4 & P5 & P6 & P7 & P8 & P9);
    [|done|by apply Hmem].
  destruct rp as [s'|x|]; [| |done].
  - destruct (P8 s' eq_refl) as (Hl & Hn & Hs').
    assert (checks e1 = (fun q => (q, true)) <$> set_order env s) as Hchecks.
    { rewrite <- Hl. apply checks_all_true. intros q b Hq.
      destruct (P7 q b Hq) as (pre & post & _ & Hsl & Ho).
      rewrite Hobs in Ho; [congruence | | done].
      apply Hmem. rewrite <- Hl. apply list_elem_of_fmap. by exists (q, b). }
    assert (s' = ∅) as ->.
    { apply elem_of_equiv_empty_L. intros q [Hq Hno]%Hs'. apply Hno.
      rewrite Hchecks. apply list_elem_of_fmap. exists q.
      split; [done | by apply Hmem]. }
    rewrite bool_decide_eq_false_2 by (intros ?; done).
    exists e1. split_and!; try done.
    rewrite (Forall_eq_replicate _ _ P4). by rewrite Hn, Hlen.
  - destruct (P9 x eq_refl) as (pre & q & Hq & Hsl & Ho).
    rewrite Hobs in Ho; [done | by apply Hmem | done].
Qed.

(** One identity is never found running, and no observation raises: the
    loop answers false after checking that identity once in each of the
    attempts left and sleeping one second after each. *)
Lemma while_never_running p fuel :
  forall (s : gset string) attempts env h,
  (max_attempts - attempts <= fuel)%nat ->
  p ∈ s ->
  (forall pre, observed env (h ++ pre) p = Ok false) ->
  (forall q pre, q ∈ s -> exists b, observed env (h ++ pre) q = Ok b) ->
  exists evs,
    _are_processes_running_while fuel s attempts env h = (Ok false, evs)
    /\ sleeps evs = replicate (max_attempts - attempts) 1%nat
    /\ filter (fun c => c.1 = p) (checks evs)
       = replicate (max_attempts - attempts) (p, false).
Proof.
  induction fuel as [|fuel IH]; intros s attempts env h Hfuel Hp Hnever Hok.
  - rewrite while_done by (right; lia).
    replace (max_attempts - attempts)%nat with 0%nat by lia. by exists [].
  - destruct (decide (max_attempts <= attempts)%nat) as [Hstop|Hlt].
    { rewrite while_done by (by right).
      replace (max_attempts - attempts)%nat with 0%nat by lia. by exists []. }
    apply Nat.nle_gt in Hlt.
    assert (s <> ∅) as Hs by set_solver.
    rewrite while_step by done.
    destruct (set_order_spec env s) as (Hnd & Hmem & Hlen).
    destruct (for_each (set_order env s) check_running s env h)
      as [rp e1] eqn:Hpass.
    apply pass_spec in Hpass
      as (P1 & P2 & P3 & P4 & P5 & P6 & P7 & P8 & P9);
      [|done|by apply Hmem].
    destruct rp as [s'|x|]; [| |done].
    + destruct (P8 s' eq_refl) as (Hl & Hn & Hs').
      assert (exists b, (p, b) ∈ checks e1) as [b Hb].
      { assert (p ∈ fst <$> checks e1) as Hin by (rewrite Hl; by apply Hmem).
        apply list_elem_of_fmap in Hin as ([q b] & -> & Hin). by exists b. }
      assert (b = false) as ->.
      { destruct (P7 p b Hb) as (pre & post & _ & _ & Ho).
        rewrite Hnever in Ho. congruence. }
      assert (p ∈ s') as Hp'.
      { apply Hs'. split; [done|]. intros Htrue.
        destruct (P7 p true Htrue) as (pre & post & _ & _ & Ho).
        rewrite Hnever in Ho. congruence. }
      rewrite bool_decide_eq_true_2 by set_solver.
      destruct (still_waiting_shows s') as (Wc & Ws & Wk).
      remember (still_waiting s') as w eqn:Hw.
      assert (forall pre, observed env ((h ++ e1 ++ w) ++ pre) p = Ok false)
        as Hnever'.
      { intros pre. rewrite <- !app_assoc. apply Hnever. }
      assert (forall q pre, q ∈ s' ->
                exists b, observed env ((h ++ e1 ++ w) ++ pre) q = Ok b)
        as Hok'.
      { intros q pre Hq. rewrite <- !app_assoc. apply Hok. by apply Hs'. }
      assert (max_attempts - (attempts + 1) <= fuel)%nat as Hfuel' by lia.
      destruct (IH s' (attempts + 1)%nat env (h ++ e1 ++ w)
                  Hfuel' Hp' Hnever' Hok') as (e3 & Hrec & Hsl3 & Hch3).
      rewrite Hrec. cbn [fst snd]. eexists. split; [done|].
      rewrite !sleeps_app, !checks_app, !filter_app, P3, Ws, Wk, Hsl3, Hch3.
      rewrite (checks_of_identity (checks e1) p false);
        [|by rewrite Hl | done].
      replace (max_attempts - attempts)%nat
        with (S (max_attempts - (attempts + 1))) by lia.
      done.
    + destruct (P9 x eq_refl) as (pre & q & Hq & Hsl & Ho).
      destruct (Hok q pre) as [b Hb]; [by apply Hmem | congruence].
Qed.

(** More fuel than the attempts left changes nothing. *)
Lemma while_fuel fuel : forall (s : gset string) attempts env h,
  (max_attempts - attempts <= fuel)%nat ->
  _are_processes_running_while fuel s attempts env h
  = _are_processes_running_while (max_attempts - attempts) s attempts env h.
Proof.
  induction fuel as [|fuel IH]; intros s attempts env h Hfuel.
  - by replace (max_attempts - attempts)%nat with 0%nat by lia.
  - destruct (decide (s = ∅ \/ (max_attempts <= attempts)%nat)) as [Hstop|Hgo].
    { by rewrite !while_done. }
    assert (s <> ∅) as Hs by (intros ->; apply Hgo; by left).
    assert (attempts < max_attempts)%nat as Hlt
      by (apply Nat.nle_gt; intros ?; apply Hgo; by right).
    replace (max_attempts - attempts)%nat
      with (S (max_attempts - (attempts + 1))) by lia.
    rewrite !while_step by done.
    destruct (for_each (set_order env s) check_running s env h)
      as [[s'|x|] e1]; [|done..].
    destruct (bool_decide (s' ≠ ∅)); [|done].
    by rewrite IH by lia.
Qed.

(** C4. For a set of identities that is not empty,
    [_are_processes_running]
    - answers true after one check of each identity and no sleep, when all
      are found running in the first attempt;
    - answers false, raising nothing, after five attempts and five sleeps
      of one second, when one identity is never found running (and no
      observation raises): that identity is checked once in each attempt;
    - ends in any world with the fuel of five attempts (more fuel changes
      nothing), sleeping at most five times and running [ps aux] at most
      once for each identity in each attempt;
    - checks only identities of the set, and never again one it found
      running. *)
Theorem wait_until_all_running (env : Env) (h : list Event)
    (patterns : list string) :
  patterns <> [] ->
  let identities : gset string := list_to_set patterns in
  ((forall q pre, q ∈ identities -> sleeps pre = [] ->
      observed env (h ++ pre) q = Ok true) ->
   exists evs,
     _are_processes_running patterns env h = (Ok true, evs)
     /\ sleeps evs = []
     /\ commands evs = replicate (size identities) ps_aux
     /\ checks evs = (fun q => (q, true)) <$> set_order env identities)
  /\ (forall p,
        p ∈ identities ->
        (forall pre, observed env (h ++ pre) p = Ok false) ->
        (forall q pre, q ∈ identities ->
           exists b, observed env (h ++ pre) q = Ok b) ->
        exists evs,
          _are_processes_running patterns env h = (Ok false, evs)
          /\ sleeps evs = replicate 5 1%nat
          /\ filter (fun c => c.1 = p) (checks evs) = replicate 5 (p, false))
  /\ (forall r evs,
        _are_processes_running patterns env h = (r, evs) ->
        r <> Diverge
        /\ (length (sleeps evs) <= max_attempts)%nat
        /\ Forall (eq 1%nat) (sleeps evs)
        /\ Forall (eq ps_aux) (commands evs)
        /\ (length (commands evs) <= max_attempts * size identities)%nat
        /\ (forall fuel, (max_attempts <= fuel)%nat ->
              _are_processes_running_while fuel identities 0 env h = (r, evs))
        /\ (forall q b, (q, b) ∈ checks evs -> q ∈ identities)
        /\ no_recheck (checks evs)).
Proof.
  intros Hne identities. unfold _are_processes_running. fold identities.
  assert (identities <> ∅) as Hs.
  { destruct patterns as [|p ?]; [done|]. unfold identities. set_solver. }
  split_and!.
  - intros Hobs. by apply while_all_running; [|unfold max_attempts; lia|].
  - intros p Hp Hnever Hok.
    by apply (while_never_running p max_attempts identities 0%nat).
  - intros r evs Hrun.
    pose proof (while_spec max_attempts identities 0%nat env h r evs
                  ltac:(lia) Hrun)
      as (R1 & R2 & R3 & R4 & R5 & R6 & R7 & R8).
    rewrite Nat.sub_0_r in R4, R6. split_and!; try done.
    intros fuel Hfuel. rewrite while_fuel by lia.
    by rewrite Nat.sub_0_r.
Qed.

Lemma only_daemon_observed h p :
  observed only_daemon_env h p
  = Ok (String.eqb "/opt/zscaler/bin/zsaservice" p).
Proof.
  unfold observed. rewrite is_process_running_run.
  cbn [stdout only_daemon_env constant_env].
  set (lines := tail (Py.splitlines _)). vm_compute in lines. subst lines.
  cbn [find_binary].
  set (c := _get_command_without_arguments_from_ps_aux_line _).
  vm_compute in c. subst c. cbn beta iota.
  by destruct (String.eqb _ p).
Qed.

Lemma wait_until_all_running_witness :
  (exists evs,
     _are_processes_running ["/opt/zscaler/bin/zsaservice"] only_daemon_env []
     = (Ok true, evs) /\ sleeps evs = [])
  /\ (exists evs,
        _are_processes_running
          ["/opt/zscaler/bin/zsaservice"; "/opt/zscaler/bin/zstunnel"]
          only_daemon_env []
        = (Ok false, evs) /\ sleeps evs = replicate 5 1%nat).
Proof.
  split.
  - destruct (wait_until_all_running only_daemon_env []
                ["/opt/zscaler/bin/zsaservice"]) as (Hfirst & _);
      [discriminate|].
    destruct Hfirst as (evs & Hrun & Hsl & _).
    + intros q pre Hq _. rewrite only_daemon_observed.
      apply elem_of_list_to_set, list_elem_of_singleton in Hq as ->.
      reflexivity.
    + exists evs. split; assumption.
  - destruct (wait_until_all_running only_daemon_env []
                ["/opt/zscaler/bin/zsaservice"; "/opt/zscaler/bin/zstunnel"])
      as (_ & Hnever & _); [discriminate|].
    destruct (Hnever "/opt/zscaler/bin/zstunnel") as (evs & Hrun & Hsl & _).
    + apply elem_of_list_to_set. right. left.
    + intros pre. rewrite only_daemon_observed. reflexivity.
    + intros q pre _. rewrite only_daemon_observed. eexists. reflexivity.
    + exists evs. split; assumption.
Defined.

(** ** What the answer of a wait is worth *)

(** The answers of the loop of [_are_processes_running], by what the
    trace shows. *)
Lemma while_sound fuel : forall (s : gset string) attempts env h r evs,
  (max_attempts - attempts <= fuel)%nat ->
  _are_processes_running_while fuel s attempts env h = (r, evs) ->
  (r = Ok true -> forall q, q ∈ s -> (q, true) ∈ checks evs)
  /\ (r = Ok false -> s <> ∅ ->
      length (sleeps evs) = (max_attempts - attempts)%nat
      /\ exists q, q ∈ s /\ (q, true) ∉ checks evs)
  /\ (forall e, r = Raise e ->
        exists pre q, q ∈ s /\ observed env (h ++ pre) q = Raise e)
  /\ (forall q b, (q, b) ∈ checks evs ->
        exists pre post, evs = pre ++ post
                         /\ observed env (h ++ pre) q = Ok b).
Proof.
  assert (forall (s : gset string) attempts env h r evs,
    (s = ∅ \/ (max_attempts <= attempts)%nat) ->
    (Ok false, []) = (r, evs) ->
    (r = Ok true -> forall q, q ∈ s -> (q, true) ∈ checks evs)
    /\ (r = Ok false -> s <> ∅ ->
        length (sleeps evs) = (max_attempts - attempts)%nat
        /\ exists q, q ∈ s /\ (q, true) ∉ checks evs)
    /\ (forall e, r = Raise e ->
          exists pre q, q ∈ s /\ observed env (h ++ pre) q = Raise e)
    /\ (forall q b, (q, b) ∈ checks evs ->
          exists pre post, evs = pre ++ post
                           /\ observed env (h ++ pre) q = Ok b)) as Hstop.
  { intros s attempts env h r evs Hstop [= <- <-]. split_and!; try done.
    - intros _ Hs. destruct Hstop as [-> | Hle]; [done|].
      split; [simpl; lia|].
      apply set_choose_L in Hs as [q Hq]. exists q.
      split; [done | apply not_elem_of_nil].
    - intros ? ? []%elem_of_nil. }
  induction fuel as [|fuel IH]; intros s attempts env h r evs Hfuel.
  - rewrite while_done by (right; lia). by apply Hstop; right; lia.
  - destruct (decide (s = ∅ \/ (max_attempts <= attempts)%nat)) as [Hs|Hgo].
    { rewrite while_done by done. by apply Hstop. }
    assert (s <> ∅) as Hs by (intros ->; apply Hgo; by left).
    assert (attempts < max_attempts)%nat as Hlt
      by (apply Nat.nle_gt; intros ?; apply Hgo; by right).
    rewrite while_step by done.
    destruct (set_order_spec env s) as (Hnd & Hmem & Hlen).
    destruct (for_each (set_order env s) check_running s env h)
      as [rp e1] eqn:Hpass.
    apply pass_spec in Hpass
      as (P1 & P2 & P3 & P4 & P5 & P6 & P7 & P8 & P9);
      [|done|by apply Hmem].
    assert (forall q b, (q, b) ∈ checks e1 ->
      forall rest, exists pre post,
        e1 ++ rest = pre ++ post /\ observed env (h ++ pre) q = Ok b) as Hobs1.
    { intros q b Hq rest.
      destruct (P7 q b Hq) as (pre & post & -> & _ & Ho).
      exists pre, (post ++ rest). by rewrite app_assoc. }
    destruct rp as [s'|x|]; [| |done].
    + destruct (P8 s' eq_refl) as (_ & _ & Hs').
      destruct (bool_decide (s' ≠ ∅)) eqn:Hleft.
      * apply bool_decide_eq_true in Hleft.
        destruct (still_waiting_shows s') as (Wc & Ws & Wk).
        remember (still_waiting s') as w eqn:Hw.
        destruct (_are_processes_running_while fuel s' (attempts + 1) env
                    (h ++ e1 ++ w)) as [r3 e3] eqn:Hrec.
        cbn [fst snd]. intros [= <- <-].
        apply IH in Hrec as (R1 & R2 & R3 & R4); [|lia].
        rewrite !sleeps_app, !checks_app, P3, Ws, Wk. cbn [app].
        split_and!.
        -- intros Hr q Hq.
           destruct (decide ((q, true) ∈ checks e1)) as [Hin|Hout].
           ++ apply elem_of_app. by left.
           ++ apply elem_of_app. right. apply (R1 Hr), Hs'. by split.
        -- intros Hr _. destruct (R2 Hr Hleft) as (Hlen3 & q & Hq & Hout).
           split; [simpl; lia|]. apply Hs' in Hq as [Hq Hout1].
           exists q. split; [done|]. by intros [?|?]%elem_of_app.
        -- intros e Hr. destruct (R3 e Hr) as (pre & q & Hq & Ho).
           exists (e1 ++ w ++ pre), q. apply Hs' in Hq as [Hq _].
           split; [done|]. by rewrite !app_assoc in *.
        -- intros q b [Hq | Hq]%elem_of_app; [by apply Hobs1|].
           destruct (R4 q b Hq) as (pre & post & -> & Ho).
           exists (e1 ++ w ++ pre), post. split.
           ++ by rewrite <- !app_assoc.
           ++ by rewrite !app_assoc in *.
      * apply bool_decide_eq_false in Hleft.
        assert (s' = ∅) as -> by (by destruct (decide (s' = ∅))).
        intros [= <- <-]. split_and!; try done.
        -- intros _ q Hq.
           destruct (decide ((q, true) ∈ checks e1)) as [Hin|Hout]; [done|].
           exfalso. eapply (not_elem_of_empty (C:=gset string) q).
           apply Hs'. by split.
        -- intros q b Hq. destruct (Hobs1 q b Hq []) as (pre & post & E & Ho).
           exists pre, post. by rewrite app_nil_r in E.
    + intros [= <- <-]. split_and!; try done.
      * intros e [= <-]. destruct (P9 x eq_refl) as (pre & q & Hq & _ & Ho).
        exists pre, q. split; [by apply Hmem | done].
      * intros q b Hq. destruct (Hobs1 q b Hq []) as (pre & post & E & Ho).
        exists pre, post. by rewrite app_nil_r in E.
Qed.

(** [_are_processes_running] is a wait for its identities to be found
    running. *)
Lemma are_processes_running_waited_for patterns env h :
  patterns <> [] ->
  waited_for env h patterns true (_are_processes_running patterns env h).
Proof.
  intros Hne.
  destruct (_are_processes_running patterns env h) as [r evs] eqn:Hrun.
  unfold _are_processes_running in Hrun.
  pose proof (while_spec max_attempts (list_to_set patterns) 0%nat env h r evs
                (Nat.le_sub_l _ _) Hrun) as (Hd & _ & Hone & _ & _ & _ & Hin & _).
  apply while_sound in Hrun as (S1 & S2 & S3 & S4); [|apply Nat.le_sub_l].
  assert ((list_to_set patterns : gset string) <> ∅) as Hs.
  { destruct patterns as [|p ?]; [done|]. set_solver. }
  unfold waited_for. cbn [fst snd]. split_and!.
  - done.
  - intros Hr q Hq. apply (S1 Hr). by apply elem_of_list_to_set.
  - intros Hr. destruct (S2 Hr Hs) as (Hlen & q & Hq & Hno). split.
    + by rewrite (Forall_eq_replicate _ _ Hone), Hlen.
    + exists q. split; [by apply elem_of_list_to_set in Hq | done].
  - intros q b Hq. split; [|by apply S4].
    by apply Hin, elem_of_list_to_set in Hq.
  - intros e Hr. destruct (S3 e Hr) as (pre & q & Hq & Ho).
    exists pre, q. split; [by apply elem_of_list_to_set in Hq | done].
Qed.

(** ** The startup sequence *)

Lemma bind_emit {B} ev (f : unit -> M B) env h :
  bind (emit ev) f env h = after [ev] (f tt env (h ++ [ev])).
Proof. unfold bind, emit, after. by destruct (f tt env (h ++ [ev])). Qed.

Lemma bind_run {A B} (m : M A) (f : A -> M B) env h :
  bind m f env h =
  after (m env h).2
    (match (m env h).1 with
     | Ok a => f a env (h ++ (m env h).2)
     | Raise x => (Raise x, [])
     | Diverge => (Diverge, [])
     end).
Proof.
  unfold bind, after. destruct (m env h) as [[a|x|] e1]; cbn [fst snd].
  - by destruct (f a env (h ++ e1)).
  - by rewrite app_nil_r.
  - by rewrite app_nil_r.
Qed.

Lemma run_as_sudo_run cmd env h : _run_as_sudo cmd env h = (Ok tt, sudo_events cmd).
Proof. reflexivity. Qed.

Lemma run_as_user_run cmd env h : _run_as_user cmd env h = (Ok tt, user_events cmd).
Proof. reflexivity. Qed.

Lemma unless_exit_gate {B} ok msg (f : unit -> M B) env h :
  bind (unless_exit ok msg) f env h
  = gate (Ok ok) (SystemExit msg) (f tt env (h ++ [])).
Proof.
  unfold unless_exit, gate. destruct ok; cbn [negb].
  - unfold bind, ret. by destruct (f tt env (h ++ [])).
  - reflexivity.
Qed.

Lemma after_after {A} e1 e2 (x : Result A * list Event) :
  after e1 (after e2 x) = after (e1 ++ e2) x.
Proof. unfold after. cbn [fst snd]. by rewrite app_assoc. Qed.

(** The startup sequence, step by step: each verification is run after
    the events of its step, and decides whether the next step runs. *)
Lemma start_zscaler_run env h v1 e1 v2 e2 v3 e3 :
  _was_daemon_enabled_correctly daemon_service env (h ++ enable_events)
  = (v1, e1) ->
  _did_daemon_start_correctly env
    (h ++ enable_events ++ e1 ++ start_daemon_events) = (v2, e2) ->
  _did_gui_start_correctly env
    (h ++ enable_events ++ e1 ++ start_daemon_events ++ e2
       ++ start_gui_events) = (v3, e3) ->
  start_zscaler env h =
  after (enable_events ++ e1)
    (gate v1 failed_to_enable
       (after (start_daemon_events ++ e2)
          (gate v2 failed_to_start_daemon
             (after (start_gui_events ++ e3)
                (gate v3 failed_to_start_gui
                   (Ok tt, started_events)))))).
Proof.
  intros Hv1 Hv2 Hv3. unfold start_zscaler.
  unfold log at 1. rewrite bind_emit, bind_run.
  unfold _enable_systemd_service_as_root. rewrite run_as_sudo_run.
  cbn [fst snd]. rewrite bind_run.
  replace ((h ++ [_]) ++ sudo_events _) with (h ++ enable_events)
    by (by rewrite <- app_assoc).
  rewrite Hv1. cbn [fst snd]. rewrite !after_after.
  change ([_] ++ sudo_events _) with enable_events.
  f_equal. destruct v1 as [[|]| |]; cbn [gate]; try reflexivity.
  rewrite unless_exit_gate. cbn [gate].
  unfold log at 1. rewrite bind_emit, bind_run.
  unfold _start_systemd_service_as_root. rewrite run_as_sudo_run.
  cbn [fst snd]. rewrite bind_run.
  replace (((((h ++ enable_events) ++ e1) ++ []) ++ [_]) ++ sudo_events _)
    with (h ++ enable_events ++ e1 ++ start_daemon_events)
    by (by rewrite app_nil_r, <- !app_assoc).
  rewrite Hv2. cbn [fst snd]. rewrite !after_after.
  change ([_] ++ sudo_events _) with start_daemon_events.
  f_equal. destruct v2 as [[|]| |]; cbn [gate]; try reflexivity.
  rewrite unless_exit_gate. cbn [gate].
  unfold log at 1. rewrite bind_emit, bind_run.
  unfold _start_systemd_service_as_user. rewrite run_as_user_run.
  cbn [fst snd]. rewrite bind_run.
  replace (((((h ++ enable_events ++ e1 ++ start_daemon_events) ++ e2) ++ [])
              ++ [_]) ++ user_events _)
    with (h ++ enable_events ++ e1 ++ start_daemon_events ++ e2
            ++ start_gui_events)
    by (by rewrite app_nil_r, <- !app_assoc).
  rewrite Hv3. cbn [fst snd]. rewrite !after_after.
  change ([_] ++ user_events _) with start_gui_events.
  f_equal. destruct v3 as [[|]| |]; cbn [gate]; try reflexivity.
Qed.

Lemma enabled_commands unit_name env h :
  commands (_is_systemd_unit_enabled unit_name env h).2
  = [systemctl_status unit_name].
Proof.
  rewrite is_systemd_unit_enabled_run. by destruct (loaded_line _ _).
Qed.

Lemma are_processes_running_commands patterns env h :
  commands (_are_processes_running patterns env h).2
  = replicate (length (commands (_are_processes_running patterns env h).2))
              ps_aux.
Proof.
  destruct (_are_processes_running patterns env h) as [r evs] eqn:Hrun.
  apply while_spec in Hrun as (_ & _ & _ & _ & Hc & _); [|done].
  by apply Forall_eq_replicate.
Qed.

Lemma map_M_observe_commands l env h bs evs :
  map_M _is_process_running l env h = (Ok bs, evs) ->
  commands evs = replicate (length l) ps_aux.
Proof.
  revert h bs evs. induction l as [|p l IH]; intros h bs evs; simpl.
  - by intros [= <- <-].
  - intros [(b & e1 & e2 & Hb & Hrest & ->) | [_ Hno]]%bind_inv;
      [|by destruct (Hno bs)].
    apply bind_inv in Hrest
      as [(bs' & e3 & e4 & Hbs & [= <- <-] & ->) | [_ Hno]];
      [|by destruct (Hno bs)].
    apply is_process_running_events in Hb as (Hc & _).
    rewrite !commands_app, Hc, (IH _ _ _ Hbs). by rewrite app_nil_r.
Qed.

Lemma is_zscaler_running_commands env h st evs :
  is_zscaler_running env h = (Ok st, evs) ->
  commands evs = replicate 3 ps_aux.
Proof.
  unfold is_zscaler_running.
  intros [(bs & e1 & e2 & Hbs & Hrest & ->) | [_ Hno]]%bind_inv;
    [|by destruct (Hno st)].
  apply map_M_observe_commands in Hbs. rewrite commands_app, Hbs.
  unfold bind at 1 in Hrest. unfold emit at 1 in Hrest.
  destruct (_ env ((h ++ e1) ++ [breakpoint_set])) as [r e3] eqn:Hcls.
  injection Hrest as -> <-.
  assert (e3 = []) as ->; [|done].
  revert Hcls. repeat case_bool_decide; by intros [= <-].
Qed.

(** [main] for the subcommand up, when the status found is not all
    running: the startup sequence runs after the classification. *)
Lemma main_up env h sys_argv st e0 :
  is_zscaler_running env (h ++ [argv_log sys_argv]) = (Ok st, e0) ->
  st <> all_processes_running ->
  main sys_argv (Some "up") env h =
  after (argv_log sys_argv :: e0)
    (match start_zscaler env (h ++ argv_log sys_argv :: e0) with
     | (Ok _, e) => (Ok None, e)
     | (Raise x, e) => (Raise x, e)
     | (Diverge, e) => (Diverge, e)
     end).
Proof.
  intros Hcur Hst. unfold main. unfold log at 1. rewrite bind_emit.
  rewrite bind_run. fold (argv_log sys_argv). rewrite Hcur. cbn [fst snd].
  rewrite after_after. cbn [String.eqb Ascii.eqb Bool.eqb].
  rewrite bool_decide_eq_false_2 by done.
  replace ((h ++ [argv_log sys_argv]) ++ e0)
    with (h ++ argv_log sys_argv :: e0) by (by rewrite <- app_assoc).
  cbn [app]. f_equal. unfold bind, ret.
  destruct (start_zscaler env _) as [[[]|x|] e]; by rewrite ?app_nil_r.
Qed.

(** C5. [main] for the subcommand up, with no process found running.  The
    three verifications are taken as they answer in the course of the run.
    When all three succeed the commands run are, after the three
    observations of the classifier and in this order: enable the daemon
    unit, query its status, start the daemon unit, [ps aux] while the
    daemon and tunnel processes are waited for, start the GUI unit,
    [ps aux] while the tray process is waited for.  When a verification
    fails, the run exits with the message of that step and no later step
    is run.  No run ever stops or disables a unit.  The first verification
    is the status query of the daemon unit, answering whether the status
    text it reads reports the unit enabled; the second is a wait for the
    daemon and tunnel processes to be found running, the third a wait for
    the tray process to be. *)
Theorem startup_sequence (env : Env) (h0 : list Event)
    (sys_argv : list string) (e0 : list Event) :
  is_zscaler_running env (h0 ++ [argv_log sys_argv])
  = (Ok no_processes_running, e0) ->
  let h := h0 ++ argv_log sys_argv :: e0 in
  let verify1 :=
    _was_daemon_enabled_correctly daemon_service env (h ++ enable_events) in
  let verify2 :=
    _did_daemon_start_correctly env
      (h ++ enable_events ++ verify1.2 ++ start_daemon_events) in
  let verify3 :=
    _did_gui_start_correctly env
      (h ++ enable_events ++ verify1.2 ++ start_daemon_events ++ verify2.2
         ++ start_gui_events) in
  let run := main sys_argv (Some "up") env h0 in
  let k2 := length (commands verify2.2) in
  let k3 := length (commands verify3.2) in
  let status := systemctl_status daemon_service in
  (verify1.1 = Ok true -> verify2.1 = Ok true -> verify3.1 = Ok true ->
   run.1 = Ok None
   /\ run.2 = argv_log sys_argv :: e0 ++ enable_events ++ verify1.2
              ++ start_daemon_events ++ verify2.2
              ++ start_gui_events ++ verify3.2 ++ started_events
   /\ commands run.2
      = replicate 3 ps_aux
        ++ ["sudo" :: enable_daemon; status; "sudo" :: start_daemon]
        ++ replicate k2 ps_aux ++ [start_gui] ++ replicate k3 ps_aux)
  /\ (verify1.1 = Ok false ->
      run.1 = Raise failed_to_enable
      /\ commands run.2
         = replicate 3 ps_aux ++ ["sudo" :: enable_daemon; status])
  /\ (verify1.1 = Ok true -> verify2.1 = Ok false ->
      run.1 = Raise failed_to_start_daemon
      /\ commands run.2
         = replicate 3 ps_aux
           ++ ["sudo" :: enable_daemon; status; "sudo" :: start_daemon]
           ++ replicate k2 ps_aux)
  /\ (verify1.1 = Ok true -> verify2.1 = Ok true -> verify3.1 = Ok false ->
      run.1 = Raise failed_to_start_gui
      /\ commands run.2
         = replicate 3 ps_aux
           ++ ["sudo" :: enable_daemon; status; "sudo" :: start_daemon]
           ++ replicate k2 ps_aux ++ [start_gui] ++ replicate k3 ps_aux)
  /\ (forall cmd,
        cmd ∈ commands run.2 ->
        cmd ∈ [ps_aux; "sudo" :: enable_daemon; status;
               "sudo" :: start_daemon; start_gui])
  /\ status_query "; enabled; preset: disabled)"
       (stdout env ((h ++ enable_events) ++ [checking_enabled daemon_service])
          status)
       verify1.1
  /\ waited_for env
       (h ++ enable_events ++ verify1.2 ++ start_daemon_events)
       ["/opt/zscaler/bin/zsaservice"; "/opt/zscaler/bin/zstunnel"] true
       verify2
  /\ waited_for env
       (h ++ enable_events ++ verify1.2 ++ start_daemon_events ++ verify2.2
          ++ start_gui_events)
       ["/opt/zscaler/bin/ZSTray"] true verify3.
Proof.
  intros Hcur h verify1 verify2 verify3 run k2 k3 status.
  assert (status_query "; enabled; preset: disabled)"
            (stdout env
               ((h ++ enable_events) ++ [checking_enabled daemon_service])
               status)
            verify1.1) as Hv1.
  { unfold verify1, _was_daemon_enabled_correctly.
    rewrite is_systemd_unit_enabled_run. fold status.
    pose proof (loaded_line_status_query "; enabled; preset: disabled)"
      status
      (stdout env
         ((h ++ enable_events) ++ [checking_enabled daemon_service]) status))
      as Hq.
    by destruct (loaded_line status _). }
  assert (waited_for env
            (h ++ enable_events ++ verify1.2 ++ start_daemon_events)
            ["/opt/zscaler/bin/zsaservice"; "/opt/zscaler/bin/zstunnel"] true
            verify2) as Hv2
    by (by apply are_processes_running_waited_for).
  assert (waited_for env
            (h ++ enable_events ++ verify1.2 ++ start_daemon_events
               ++ verify2.2 ++ start_gui_events)
            ["/opt/zscaler/bin/ZSTray"] true verify3) as Hv3
    by (by apply are_processes_running_waited_for).
  assert (commands e0 = replicate 3 ps_aux) as Hc0
    by (by eapply is_zscaler_running_commands).
  assert (commands verify1.2 = [status]) as Hc1 by apply enabled_commands.
  assert (commands verify2.2 = replicate k2 ps_aux) as Hc2
    by apply are_processes_running_commands.
  assert (commands verify3.2 = replicate k3 ps_aux) as Hc3
    by apply are_processes_running_commands.
  assert (run =
    after (argv_log sys_argv :: e0)
      (match
         after (enable_events ++ verify1.2)
           (gate verify1.1 failed_to_enable
              (after (start_daemon_events ++ verify2.2)
                 (gate verify2.1 failed_to_start_daemon
                    (after (start_gui_events ++ verify3.2)
                       (gate verify3.1 failed_to_start_gui
                          (Ok tt, started_events))))))
       with
       | (Ok _, e) => (Ok None, e)
       | (Raise x, e) => (Raise x, e)
       | (Diverge, e) => (Diverge, e)
       end)) as ->.
  { unfold run. rewrite (main_up _ _ _ _ _ Hcur) by done. fold h.
    by rewrite (start_zscaler_run env h verify1.1 verify1.2 verify2.1
                  verify2.2 verify3.1 verify3.2)
      by apply surjective_pairing. }
  clearbody k2 k3 verify1 verify2 verify3.
  destruct verify1 as [v1 e1], verify2 as [v2 e2], verify3 as [v3 e3].
  cbn [fst snd] in *.
  assert (commands enable_events = ["sudo" :: enable_daemon]) as Hce by done.
  assert (commands start_daemon_events = ["sudo" :: start_daemon]) as Hcd
    by done.
  assert (commands start_gui_events = [start_gui]) as Hcg by done.
  assert (commands started_events = []) as Hcs by done.
  assert (forall evs, commands (argv_log sys_argv :: evs) = commands evs)
    as Hca by done.
  split_and!.
  - intros -> -> ->. unfold after. cbn [gate fst snd].
    split_and!; [done | by rewrite <- !app_assoc |].
    rewrite !commands_app, Hca, Hc0, Hce, Hc1, Hcd, Hc2, Hcg, Hc3, Hcs.
    by rewrite ?app_nil_r, <- ?app_assoc.
  - intros ->. unfold after. cbn [gate fst snd]. split; [done|].
    rewrite !commands_app, Hca, Hc0, Hce, Hc1.
    by rewrite ?app_nil_r, <- ?app_assoc.
  - intros -> ->. unfold after. cbn [gate fst snd]. split; [done|].
    rewrite !commands_app, Hca, Hc0, Hce, Hc1, Hcd, Hc2.
    by rewrite ?app_nil_r, <- ?app_assoc.
  - intros -> -> ->. unfold after. cbn [gate fst snd]. split; [done|].
    rewrite !commands_app, Hca, Hc0, Hce, Hc1, Hcd, Hc2, Hcg, Hc3.
    by rewrite ?app_nil_r, <- ?app_assoc.
  - intros cmd. unfold after.
    destruct v1 as [[|]| |]; cbn [gate fst snd];
      [destruct v2 as [[|]| |]; cbn [gate fst snd];
         [destruct v3 as [[|]| |]; cbn [gate fst snd] |..] |..];
      rewrite !commands_app, Hca, ?Hc0, ?Hce, ?Hc1, ?Hcd, ?Hc2, ?Hcg, ?Hc3,
        ?Hcs;
      rewrite !elem_of_app, ?elem_of_replicate, !elem_of_cons, !elem_of_nil;
      naive_solver.
  - exact Hv1.
  - exact Hv2.
  - exact Hv3.
Qed.

Lemma startup_sequence_witness :
  (main ["vpn"; "up"] (Some "up") obedient_env []).1 = Ok None
  /\ commands (main ["vpn"; "up"] (Some "up") obedient_env []).2
     = [ ps_aux; ps_aux; ps_aux;
         "sudo" :: enable_daemon; systemctl_status daemon_service;
         "sudo" :: start_daemon; ps_aux; ps_aux;
         start_gui; ps_aux ].
Proof.
  destruct (startup_sequence obedient_env [] ["vpn"; "up"]
              (is_zscaler_running obedient_env [argv_log ["vpn"; "up"]]).2)
    as (Hsuccess & _).
  - vm_compute. reflexivity.
  - destruct Hsuccess as (Hresult & _ & Hcommands).
    + vm_compute. reflexivity.
    + vm_compute. reflexivity.
    + vm_compute. reflexivity.
    + split; [exact Hresult|]. rewrite Hcommands. vm_compute. reflexivity.
Defined.

(** ** The latest event decides *)

Lemma ltb_false_le (a b : string) : String.ltb a b = false -> (b ≤ a)%string.
Proof.
  unfold String.le, String.ltb, String.leb.
  rewrite (String.compare_antisym a b).
  by destruct (b ?= a)%string.
Qed.

Lemma ltb_true_le (a b : string) : String.ltb a b = true -> (a ≤ b)%string.
Proof.
  unfold String.le, String.ltb, String.leb. by destruct (a ?= b)%string.
Qed.

Lemma insert_by_t_perm x l : insert_by_t x l ≡ₚ x :: l.
Proof.
  induction l as [|y l IH]; simpl; [done|].
  destruct (String.ltb (t x) (t y)); [done|].
  by rewrite IH, Permutation_swap.
Qed.

Lemma insert_by_t_in_order x l : in_order l -> in_order (insert_by_t x l).
Proof.
  unfold in_order. induction 1 as [|y l Hl IH Hy]; simpl.
  - by repeat constructor.
  - destruct (String.ltb (t x) (t y)) eqn:Hxy.
    + apply ltb_true_le in Hxy. constructor; [by constructor|].
      constructor; [done|]. eapply Forall_impl; [exact Hy|].
      intros z Hz. by etrans.
    + apply ltb_false_le in Hxy. constructor; [done|].
      rewrite insert_by_t_perm. by constructor.
Qed.

Lemma sorted_by_t_spec l : sorted_by_t l ≡ₚ l /\ in_order (sorted_by_t l).
Proof.
  unfold sorted_by_t.
  assert (forall acc, in_order acc ->
            fold_left (fun acc x => insert_by_t x acc) l acc ≡ₚ acc ++ l
            /\ in_order (fold_left (fun acc x => insert_by_t x acc) l acc))
    as Hgen.
  { induction l as [|x l IH]; intros acc Hacc; simpl.
    - by rewrite app_nil_r.
    - destruct (IH (insert_by_t x acc)) as [Hp Hs];
        [by apply insert_by_t_in_order|].
      split; [|done]. rewrite Hp, insert_by_t_perm.
      apply Permutation_middle. }
  apply (Hgen []). constructor.
Qed.

Lemma in_order_last l x :
  in_order l -> last l = Some x -> forall y, y ∈ l -> (t y ≤ t x)%string.
Proof.
  unfold in_order. induction 1 as [|z l Hl IH Hz]; [done|].
  intros Hlast y Hy. destruct l as [|z' l'].
  - injection Hlast as <-. by apply list_elem_of_singleton in Hy as ->.
  - rewrite last_cons_cons in Hlast.
    apply elem_of_cons in Hy as [-> | Hy]; [|by apply IH].
    rewrite Forall_forall in Hz. apply Hz. by eapply last_Some_elem_of.
Qed.

(** The event the monitor takes after sorting is one of the parsed events,
    and none of them has a later key. *)
Lemma last_event_is_latest parsed last_event :
  last (sorted_by_t parsed) = Some last_event ->
  last_event ∈ parsed
  /\ forall y, y ∈ parsed -> (t y ≤ t last_event)%string.
Proof.
  destruct (sorted_by_t_spec parsed) as [Hp Hs]. intros Hlast. split.
  - rewrite <- Hp. by eapply last_Some_elem_of.
  - intros y Hy. eapply in_order_last; [done..|]. by rewrite Hp.
Qed.

Lemma parse_all_length events parsed :
  parse_all events = Ok parsed -> length parsed = length events.
Proof.
  revert parsed. induction events as [|e events IH]; intros parsed; simpl.
  - by intros [= <-].
  - destruct (_parse e); [|done..].
    destruct (parse_all events) as [ps| |]; [|done..].
    intros [= <-]. simpl. f_equal. by apply IH.
Qed.

(** With matching events in the store that all parse, the status is that
    of the name of an event none of the others is later than. *)
Lemma latest_event_decides env h table parsed :
  zscaler_db env = Some table ->
  select_events table <> [] ->
  parse_all (select_events table) = Ok parsed ->
  exists last_event,
    last_event ∈ parsed
    /\ (forall y, y ∈ parsed -> (t y ≤ t last_event)%string)
    /\ (is_internet_security_on env h).1
       = status_of_name (NotificationName (row last_event)).
Proof.
  intros Hdb Hne Hparse. unfold is_internet_security_on. rewrite Hdb.
  pose proof (parse_all_length _ _ Hparse) as Hlen.
  destruct (select_events table) as [|e events] eqn:Hsel; [done|].
  rewrite bind_run. unfold lift at 1 2 3. cbn [fst snd]. rewrite Hparse.
  destruct (last (sorted_by_t parsed)) as [last_event|] eqn:Hlast.
  - exists last_event.
    destruct (last_event_is_latest _ _ Hlast) as [Hin Hmax].
    split_and!; [done..|].
    unfold status_of_name, after, bind, log, emit, ret, raise.
    cbn [fst snd].
    repeat (destruct (String.eqb (NotificationName (row last_event)) _);
            [done|]).
    done.
  - apply last_None in Hlast.
    destruct (sorted_by_t_spec parsed) as [Hp _]. rewrite Hlast in Hp.
    apply Permutation_nil_l in Hp. by subst parsed.
Qed.

(** * Further properties *)

(** ** The command of a line of [ps aux] *)

Lemma rev_app_chars s1 s2 :
  list_ascii_of_string (String.rev_app s1 s2)
  = reverse (list_ascii_of_string s1) ++ list_ascii_of_string s2.
Proof.
  revert s2. induction s1 as [|c s1 IH]; intros s2; simpl; [done|].
  rewrite IH, reverse_cons, <- app_assoc. done.
Qed.

Lemma no_space_rev w : no_space w -> no_space (String.rev w).
Proof.
  unfold no_space, String.rev. rewrite rev_app_chars, app_nil_r.
  intros Hw. by apply Forall_reverse.
Qed.

Lemma rev_not_empty w : w <> "" -> String.rev w <> "".
Proof.
  intros Hw Hrev. apply (f_equal list_ascii_of_string) in Hrev.
  unfold String.rev in Hrev. rewrite rev_app_chars, app_nil_r in Hrev.
  destruct w as [|c w]; [done|]. simpl in Hrev.
  rewrite reverse_cons in Hrev. by destruct (reverse _).
Qed.

(** The first element of a split with a word pending is that word, read
    to its end. *)
Lemma split_go_pending_head n w s x rest :
  no_space w -> w <> "" ->
  Py.split_go n (Some w) s = x :: rest -> no_space x /\ x <> "".
Proof.
  revert w. induction s as [|c s IH]; intros w Hw Hne; simpl.
  - intros [= <- <-]. split; [by apply no_space_rev | by apply rev_not_empty].
  - destruct (Py.isspace c) eqn:Hc.
    + intros [= <- <-].
      split; [by apply no_space_rev | by apply rev_not_empty].
    + apply IH; [|done]. by constructor.
Qed.

(** X1. [_get_command_without_arguments_from_ps_aux_line] returns a
    command exactly for the lines with eleven fields; the command has no
    whitespace and is not empty.  On any other line it raises the
    [ValueError] of the unpacking.  Its [NotImplementedError] is never
    raised. *)
Theorem get_command_outcomes (line : string) :
  match _get_command_without_arguments_from_ps_aux_line line with
  | Ok chunk =>
      length (Py.split 10 line) = 11%nat /\ no_space chunk /\ chunk <> ""
  | Raise e =>
      (length (Py.split 10 line) < 11)%nat
      /\ e = ValueError
               (Fmt "not enough values to unpack (expected 11, got {})"
                    [pretty (length (Py.split 10 line))])
  | Diverge => False
  end.
Proof.
  pose proof (get_command_never_not_implemented line) as Hnie.
  pose proof (split_go_bound 10 None line) as [Hle Hlast].
  simpl in Hle, Hlast. fold (Py.split 10 line) in Hle, Hlast.
  unfold _get_command_without_arguments_from_ps_aux_line in *.
  destruct (Py.split 10 line) as [|? [|? [|? [|? [|? [|? [|? [|? [|? [|?
    [|cmd [|? ?]]]]]]]]]]]] eqn:Hsplit;
    try (split; [simpl; lia | done]); [|simpl in Hle; lia].
  destruct (Py.split 1 cmd) as [|chunk rest] eqn:Hcmd;
    [exfalso; by eapply Hnie|].
  split; [done|].
  destruct Hlast as (x & [= <-] & Hns); [done|].
  destruct cmd as [|c cmd]; [done|]. simpl in Hns.
  unfold Py.split in Hcmd. simpl in Hcmd. rewrite Hns in Hcmd.
  eapply split_go_pending_head; [| |exact Hcmd]; [|done].
  by repeat constructor.
Qed.

(** ** One observation *)

Lemma find_binary_spec p lines :
  (find_binary p lines = Ok true <->
   exists before line after,
     lines = before ++ line :: after /\ Forall (other_command p) before
     /\ _get_command_without_arguments_from_ps_aux_line line = Ok p)
  /\ (find_binary p lines = Ok false <-> Forall (other_command p) lines)
  /\ (forall e, find_binary p lines = Raise e <->
        exists before line after,
          lines = before ++ line :: after /\ Forall (other_command p) before
          /\ _get_command_without_arguments_from_ps_aux_line line = Raise e).
Proof.
  induction lines as [|l lines (IHt & IHf & IHr)]; simpl.
  - split_and!.
    + split; [done|]. by intros ([|??] & ? & ? & ? & _).
    + done.
    + intros e. split; [done|]. by intros ([|??] & ? & ? & ? & _).
  - destruct (_get_command_without_arguments_from_ps_aux_line l)
      as [c|x|] eqn:Hc.
    + destruct (String.eqb_spec c p) as [->|Hne].
      * split_and!.
        -- split; [|done]. intros _. by exists [], l, lines.
        -- split; [done|]. intros [(c' & Hc' & Hne) _]%Forall_cons.
           congruence.
        -- intros e. split; [done|].
           intros ([|l' before] & line & after & [= -> ->] & Hb & Hr);
             [congruence|].
           apply Forall_cons in Hb as [(c' & Hc' & Hne) _]. congruence.
      * assert (other_command p l) as Hl by (by exists c).
        split_and!.
        -- rewrite IHt. split.
           ++ intros (before & line & after & -> & Hb & Hp).
              exists (l :: before), line, after. split_and!; [done| |done].
              by constructor.
           ++ intros ([|l' before] & line & after & [= -> ->] & Hb & Hp);
                [congruence|].
              apply Forall_cons in Hb as [_ Hb]. by exists before, line, after.
        -- rewrite IHf. split; [by constructor | by intros [_ ?]%Forall_cons].
        -- intros e. rewrite IHr. split.
           ++ intros (before & line & after & -> & Hb & Hp).
              exists (l :: before), line, after. split_and!; [done| |done].
              by constructor.
           ++ intros ([|l' before] & line & after & [= -> ->] & Hb & Hp);
                [congruence|].
              apply Forall_cons in Hb as [_ Hb]. by exists before, line, after.
    + split_and!.
      * split; [done|].
        intros ([|l' before] & line & after & [= -> ->] & Hb & Hp);
          [congruence|].
        apply Forall_cons in Hb as [(c' & Hc' & _) _]. congruence.
      * split; [done|]. intros [(c' & Hc' & _) _]%Forall_cons. congruence.
      * intros e. split.
        -- intros [= <-]. by exists [], l, lines.
        -- intros ([|l' before] & line & after & [= -> ->] & Hb & Hp);
             [congruence|].
           apply Forall_cons in Hb as [(c' & Hc' & _) _]. congruence.
    + by destruct (get_command_not_Diverge l).
Qed.

(** X2. One observation runs [ps aux] once and never sleeps.  It answers
    true exactly when some line after the header has the identity as its
    command and every line before it has eleven fields and another
    command; false exactly when every line is such; and it raises what the
    first line with too few fields raises, when no line before it has the
    identity as its command. *)
Theorem is_process_running_spec (env : Env) (h : list Event) (p : string) :
  let lines :=
    tail (Py.splitlines (stdout env (h ++ [looking_for p]) ps_aux)) in
  let run := _is_process_running p env h in
  (run.1 = Ok true <->
   exists before line after,
     lines = before ++ line :: after /\ Forall (other_command p) before
     /\ _get_command_without_arguments_from_ps_aux_line line = Ok p)
  /\ (run.1 = Ok false <-> Forall (other_command p) lines)
  /\ (forall e, run.1 = Raise e <->
        exists before line after,
          lines = before ++ line :: after /\ Forall (other_command p) before
          /\ _get_command_without_arguments_from_ps_aux_line line = Raise e)
  /\ commands run.2 = [ps_aux] /\ sleeps run.2 = [].
Proof.
  intros lines run. subst run. rewrite is_process_running_run. fold lines.
  destruct (find_binary_spec p lines) as (Ht & Hf & Hr).
  pose proof (find_binary_not_Diverge p lines) as Hdiv.
  destruct (find_binary p lines) as [[|]|e|]; cbn [fst snd]; [..|done];
    split_and!; first [exact Ht | exact Hf | exact Hr | done].
Qed.

(** ** The active executables *)

Lemma endswith_spec s suffix :
  endswith s suffix = true <-> exists before, s = before +:+ suffix.
Proof.
  induction s as [|c s IH]; cbn [endswith].
  - rewrite orb_false_r, String.eqb_eq. split.
    + intros <-. by exists "".
    + intros ([|??] & E); [done|]. by rewrite append_cons in E.
  - rewrite orb_true_iff, String.eqb_eq, IH. split.
    + intros [<- | [before ->]]; [by exists ""|].
      exists (String c before). by rewrite append_cons.
    + intros ([|c' before] & E); [by left|].
      rewrite append_cons in E. injection E as -> ->. right. by exists before.
Qed.

Lemma split_go_none_nil n s : Py.split_go n None s = [] -> all_space s.
Proof.
  induction s as [|c s IH]; simpl; [by constructor|].
  destruct (Py.isspace c) eqn:Hc.
  - intros Hs. constructor; [done | by apply IH].
  - destruct n; [done|]. intros Hs. by apply split_go_word in Hs.
Qed.

Lemma append_assoc_cons a c s : (a +:+ String c "") +:+ s = a +:+ String c s.
Proof. induction a as [|c' a IH]; [done|]. by rewrite !append_cons, IH. Qed.

Lemma rev_app_append w s : String.rev_app w s = String.rev_app w "" +:+ s.
Proof.
  revert s. induction w as [|c w IH]; intros s; simpl; [done|].
  by rewrite (IH (String c s)), (IH (String c "")), append_assoc_cons.
Qed.

Lemma rev_cons c w : String.rev (String c w) = String.rev w +:+ String c "".
Proof. unfold String.rev. simpl. apply rev_app_append. Qed.

(** A split with a word pending that yields one element: the text is that
    element followed by whitespace only. *)
Lemma split_go_single n w s x :
  Py.split_go n (Some w) s = [x] ->
  exists ws, String.rev w +:+ s = x +:+ ws /\ all_space ws.
Proof.
  revert w. induction s as [|c s IH]; intros w; simpl.
  - intros [= <-]. exists "". split; [done | constructor].
  - destruct (Py.isspace c) eqn:Hc.
    + intros [= <- Hrest]. exists (String c s). split; [done|].
      constructor; [done | by eapply split_go_none_nil].
    + intros (ws & E & Hws)%IH. exists ws. split; [|done].
      by rewrite <- E, rev_cons, append_assoc_cons.
Qed.

Lemma no_space_starts x : no_space x -> x <> "" -> starts_with_non_space x.
Proof. destruct x as [|c x]; [done|]. by intros [? _]%Forall_cons. Qed.

(** Every element of a split starts with a character that is not
    whitespace. *)
Lemma split_go_elements n cur s x :
  match cur with Some w => no_space w /\ w <> "" | None => True end ->
  x ∈ Py.split_go n cur s -> starts_with_non_space x.
Proof.
  revert n cur. induction s as [|c s IH]; intros n cur Hcur; simpl.
  - destruct cur as [w|]; [|by intros []%elem_of_nil].
    intros ->%list_elem_of_singleton. destruct Hcur.
    apply no_space_starts; [by apply no_space_rev | by apply rev_not_empty].
  - destruct cur as [w|].
    + destruct Hcur as [Hw Hne]. destruct (Py.isspace c) eqn:Hc.
      * intros [-> | Hx]%elem_of_cons; [|by apply (IH n None)].
        apply no_space_starts; [by apply no_space_rev | by apply rev_not_empty].
      * apply IH. split; [by constructor | done].
    + destruct (Py.isspace c) eqn:Hc; [by apply (IH n None)|].
      destruct n as [|k].
      * by intros ->%list_elem_of_singleton.
      * apply IH. split; [by repeat constructor | done].
Qed.

Lemma append_empty s : s +:+ "" = s.
Proof. induction s as [|c s IH]; [done|]. by rewrite append_cons, IH. Qed.

Lemma split_go_pending_prefix n w s x rest :
  Py.split_go n (Some w) s = x :: rest ->
  exists tail, x = String.rev w +:+ tail.
Proof.
  revert w. induction s as [|c s IH]; intros w; simpl.
  - intros [= <- <-]. exists "". by rewrite append_empty.
  - destruct (Py.isspace c).
    + intros [= <- <-]. exists "". by rewrite append_empty.
    + intros [tail ->]%IH. exists (String c tail).
      by rewrite rev_cons, append_assoc_cons.
Qed.

(** The split of a command in at most two parts. *)
Lemma split_command c command :
  Py.isspace c = false ->
  (exists x ws, Py.split 1 (String c command) = [x]
                /\ String c command = x +:+ ws /\ all_space ws)
  \/ (exists tail y, Py.split 1 (String c command) = [String c tail; y]
                     /\ no_space (String c tail)).
Proof.
  intros Hc. unfold Py.split. simpl. rewrite Hc.
  destruct (split_go_bound 0 (Some (String c "")) command) as [Hle _].
  simpl in Hle.
  destruct (Py.split_go 0 (Some (String c "")) command)
    as [|x [|y [|? ?]]] eqn:Hsplit; [|left|right|simpl in Hle; lia].
  - by apply split_go_word in Hsplit.
  - apply split_go_single in Hsplit as (ws & E & Hws). by exists x, ws.
  - pose proof Hsplit as [tail ->]%split_go_pending_prefix.
    apply split_go_pending_head in Hsplit as [Hns _];
      [|by repeat constructor|done].
    by exists tail, y.
Qed.

Lemma get_command_of_last line chunk :
  _get_command_without_arguments_from_ps_aux_line line = Ok chunk ->
  exists command,
    last (Py.split 10 line) = Some command
    /\ head (Py.split 1 command) = Some chunk.
Proof.
  unfold _get_command_without_arguments_from_ps_aux_line.
  destruct (Py.split 10 line) as [|? [|? [|? [|? [|? [|? [|? [|? [|? [|?
    [|cmd [|? ?]]]]]]]]]]]]; try done.
  destruct (Py.split 1 cmd) as [|c ?] eqn:Hcmd; [done|].
  intros [= <-]. exists cmd. by rewrite Hcmd.
Qed.

Lemma startswith_first_char c s1 s2 m :
  Py.startswith (String c s1) (String m "")
  = Py.startswith (String c s2) (String m "").
Proof.
  unfold Py.startswith. cbn [String.prefix].
  destruct (ascii_dec m c); [by destruct s1, s2 | done].
Qed.

(** X3. The body of the loop of [_get_active_processes] on one line: it
    raises only on a line without any field, the [IndexError] of taking
    the last field; it skips the line when the last field starts with a
    bracket or a dash; otherwise it yields a binary that is not empty and
    starts with neither.  On a line with eleven fields the binary is the
    command that [_get_command_without_arguments_from_ps_aux_line] returns,
    followed by whitespace only, and by none when the command has
    arguments. *)
Theorem active_binary_outcomes (line : string) :
  match active_binary line with
  | Raise e =>
      Py.split 10 line = []
      /\ e = IndexError (Fmt "list index out of range" [])
  | Ok None =>
      exists command,
        last (Py.split 10 line) = Some command
        /\ (Py.startswith command "[" = true
            \/ Py.startswith command "-" = true)
  | Ok (Some binary) =>
      exists command,
        last (Py.split 10 line) = Some command
        /\ binary <> ""
        /\ Py.startswith binary "[" = false
        /\ Py.startswith binary "-" = false
        /\ forall chunk,
             _get_command_without_arguments_from_ps_aux_line line = Ok chunk ->
             exists ws, binary = chunk +:+ ws /\ all_space ws
                        /\ (length (Py.split 1 command) = 2%nat -> ws = "")
  | Diverge => False
  end.
Proof.
  unfold active_binary.
  destruct (last (Py.split 10 line)) as [command|] eqn:Hlast.
  2:{ apply last_None in Hlast. done. }
  destruct (Py.startswith command "[" || Py.startswith command "-") eqn:Hskip.
  { exists command. split; [done|]. by apply orb_true_iff. }
  apply orb_false_iff in Hskip as [Hb Hd].
  assert (starts_with_non_space command) as Hns.
  { eapply (split_go_elements 10 None line); [done|].
    by eapply last_Some_elem_of. }
  destruct command as [|c command]; [done|]. simpl in Hns.
  destruct (split_command c command Hns)
    as [(x & ws & Hsplit & E & Hws) | (tail & y & Hsplit & Hx)];
    rewrite Hsplit; exists (String c command).
  - split_and!; [done..|].
    intros chunk (cmd & Hcmd & Hhead)%get_command_of_last.
    rewrite Hlast in Hcmd. injection Hcmd as <-. rewrite Hsplit in Hhead.
    injection Hhead as <-. exists ws.
    split_and!; [done | done | by rewrite Hsplit].
  - split_and!;
      [done | done
      | by rewrite (startswith_first_char c tail command)
      | by rewrite (startswith_first_char c tail command) |].
    intros chunk (cmd & Hcmd & Hhead)%get_command_of_last.
    rewrite Hlast in Hcmd. injection Hcmd as <-. rewrite Hsplit in Hhead.
    injection Hhead as <-. exists "".
    split_and!; [by rewrite append_empty | constructor | done].
Qed.

Example trailing_space_kept :
  active_binary "root 812 0.0 0.1 1234 567 ? Ssl 10:00 0:01 zoom  "
  = Ok (Some "zoom  ")
  /\ _get_command_without_arguments_from_ps_aux_line
       "root 812 0.0 0.1 1234 567 ? Ssl 10:00 0:01 zoom  " = Ok "zoom"
  /\ active_binary "root 812 0.0 0.1 1234 567 ? Ssl 10:00 0:01 [kworker/0:1]"
     = Ok None
  /\ active_binary "812 root 0:01 /usr/bin/zoom" = Ok (Some "/usr/bin/zoom").
Proof. split_and!; reflexivity. Qed.

Lemma active_binary_raises line :
  match active_binary line with
  | Ok _ => Py.split 10 line <> []
  | Raise e =>
      Py.split 10 line = []
      /\ e = IndexError (Fmt "list index out of range" [])
  | Diverge => False
  end.
Proof.
  unfold active_binary.
  destruct (last (Py.split 10 line)) as [command|] eqn:Hlast.
  - assert (Py.split 10 line <> []) by (intros Hnil; by rewrite Hnil in Hlast).
    destruct (_ || _); [done|]. by destruct (Py.split 1 command) as [|? [|? []]].
  - by apply last_None in Hlast.
Qed.

Lemma collect_active_spec lines : forall acc,
  match collect_active lines acc with
  | Ok processes =>
      Forall (fun line => Py.split 10 line <> []) lines
      /\ forall binary,
           binary ∈ processes <->
           binary ∈ acc
           \/ exists line, line ∈ lines /\ active_binary line = Ok (Some binary)
  | Raise e =>
      e = IndexError (Fmt "list index out of range" [])
      /\ Exists (fun line => Py.split 10 line = []) lines
  | Diverge => False
  end.
Proof.
  induction lines as [|line lines IH]; intros acc; simpl.
  - split; [done|]. intros binary. split; [by left|].
    by intros [? | (? & []%elem_of_nil & _)].
  - pose proof (active_binary_raises line) as Hline.
    destruct (active_binary line) as [[binary|]|e|] eqn:Hactive; [| | |done].
    + specialize (IH (acc ∪ {[binary]})).
      destruct (collect_active lines (acc ∪ {[binary]})) as [processes|e|];
        [| |done].
      * destruct IH as [Hall Hin]. split.
        -- by constructor.
        -- intros b. rewrite Hin, elem_of_union, elem_of_singleton. split.
           ++ intros [[? | ->] | (l & Hl & Hb)].
              ** by left.
              ** right. exists line. split; [by left | done].
              ** right. exists l. split; [by right | done].
           ++ intros [? | (l & [-> | Hl]%elem_of_cons & Hb)].
              ** by left; left.
              ** left; right. congruence.
              ** right. by exists l.
      * destruct IH as [-> Hex]. split; [done | by right].
    + specialize (IH acc).
      destruct (collect_active lines acc) as [processes|e|]; [| |done].
      * destruct IH as [Hall Hin]. split.
        -- by constructor.
        -- intros b. rewrite Hin. split.
           ++ intros [? | (l & Hl & Hb)]; [by left|].
              right. exists l. split; [by right | done].
           ++ intros [? | (l & [-> | Hl]%elem_of_cons & Hb)];
                [by left | congruence |].
              right. by exists l.
      * destruct IH as [-> Hex]. split; [done | by right].
    + destruct Hline as [Hnil ->]. split; [done | by left].
Qed.

Lemma get_active_processes_run env h :
  _get_active_processes env h
  = (collect_active (tail (Py.splitlines (stdout env h ps_aux))) ∅,
     [Run ps_aux]).
Proof.
  unfold _get_active_processes, bind, subprocess_run, lift. cbn [app].
  by destruct (collect_active _ _).
Qed.

(** X4. [_get_active_processes] runs [ps aux] once.  It returns the set of
    the binaries that the lines after the header yield, and raises, an
    [IndexError], exactly when one of these lines has no field at all; a
    line with fewer than eleven fields is taken as it is. *)
Theorem get_active_processes_spec (env : Env) (h : list Event) :
  let lines := tail (Py.splitlines (stdout env h ps_aux)) in
  let run := _get_active_processes env h in
  run.2 = [Run ps_aux]
  /\ match run.1 with
     | Ok processes =>
         Forall (fun line => Py.split 10 line <> []) lines
         /\ forall binary,
              binary ∈ processes <->
              exists line,
                line ∈ lines /\ active_binary line = Ok (Some binary)
     | Raise e =>
         e = IndexError (Fmt "list index out of range" [])
         /\ Exists (fun line => Py.split 10 line = []) lines
     | Diverge => False
     end.
Proof.
  intros lines run. subst run. rewrite get_active_processes_run.
  fold lines. pose proof (collect_active_spec lines ∅) as Hspec.
  destruct (collect_active lines ∅) as [processes|e|]; cbn [fst snd];
    [|done..].
  split; [done|]. destruct Hspec as [Hall Hin]. split; [done|].
  intros binary. rewrite Hin. set_solver.
Qed.

(** X5. [in_a_call] runs [ps aux] once and answers true exactly when a
    line after the header yields a binary that ends with zoom, whatever the
    order in which the set is iterated; it raises exactly when
    [_get_active_processes] does. *)
Theorem in_a_call_spec (env : Env) (h : list Event) :
  let lines := tail (Py.splitlines (stdout env h ps_aux)) in
  let run := in_a_call env h in
  run.2 = [Run ps_aux]
  /\ match run.1 with
     | Ok answer =>
         (_get_active_processes env h).1 <> Diverge
         /\ (answer = true <->
             exists line binary before,
               line ∈ lines /\ active_binary line = Ok (Some binary)
               /\ binary = before +:+ "zoom")
     | Raise e => (_get_active_processes env h).1 = Raise e
     | Diverge => False
     end.
Proof.
  intros lines run. subst run.
  pose proof (collect_active_spec lines ∅) as Hspec.
  unfold in_a_call. rewrite bind_run, get_active_processes_run.
  fold lines. cbn [fst snd].
  destruct (collect_active lines ∅) as [processes|e|];
    cbn [after fst snd app]; [|done..].
  unfold bind, list_of_set, ret. cbn [app fst snd].
  split; [done|]. split; [done|].
  assert (forall binary,
    binary ∈ processes <->
    exists line, line ∈ lines /\ active_binary line = Ok (Some binary))
    as Hin.
  { intros binary. destruct Hspec as [_ Hin]. rewrite Hin. set_solver. }
  rewrite existsb_exists. split.
  - intros (binary & Hb%list_elem_of_In & [before ->]%endswith_spec).
    apply set_order_spec, Hin in Hb as (line & Hline & Hactive).
    by exists line, (before +:+ "zoom"), before.
  - intros (line & binary & before & Hline & Hactive & ->).
    exists (before +:+ "zoom"). split.
    + apply list_elem_of_In, set_order_spec, Hin. by exists line.
    + apply endswith_spec. by exists before.
Qed.

(** ** The retry loop of [_are_processes_not_running] *)

Lemma still_running_shows (s : gset string) :
  commands (still_running s) = [] /\ sleeps (still_running s) = [1%nat]
  /\ checks (still_running s) = [].
Proof. done. Qed.

(** One check of [_are_processes_not_running] of an identity that is in
    the set. *)
Lemma check_not_running_run p (s : gset string) env h :
  p ∈ s ->
  check_not_running p s env h =
  match observed env h p with
  | Ok b => (Ok (if b then s else s ∖ {[ p ]}), check_events p b)
  | Raise e => (Raise e, [looking_for p; Run ps_aux])
  | Diverge => (Diverge, [looking_for p; Run ps_aux])
  end.
Proof.
  intros Hin. unfold check_not_running, observed.
  pose proof (is_process_running_run p env h) as Hrun.
  destruct (find_binary _ _) as [b| |] eqn:Hf.
  - rewrite (bind_Ok _ _ _ _ _ _ Hrun), Hrun. simpl.
    destruct b; simpl; [done|].
    unfold set_remove, bind, log, emit, ret. simpl.
    by rewrite bool_decide_eq_true_2.
  - by rewrite (bind_Raise _ _ _ _ _ _ Hrun), Hrun.
  - by rewrite (bind_Diverge _ _ _ _ _ Hrun), Hrun.
Qed.


(** One pass of the [for] loop of [_are_processes_not_running] over a
    snapshot [l] of the set [s]: it leaves in the set exactly the
    identities found running. *)
Lemma pass_not_spec l : forall (s : gset string) env h r evs,
  NoDup l -> (forall q, q ∈ l -> q ∈ s) ->
  for_each l check_not_running s env h = (r, evs) ->
  r <> Diverge
  /\ (forall key, r <> Raise (KeyError key))
  /\ sleeps evs = []
  /\ Forall (eq ps_aux) (commands evs)
  /\ (length (commands evs) <= length l)%nat
  /\ (fst <$> checks evs) `prefix_of` l
  /\ (forall q b, (q, b) ∈ checks evs ->
        exists pre post, evs = pre ++ post /\ sleeps pre = []
                         /\ observed env (h ++ pre) q = Ok b)
  /\ (forall s', r = Ok s' ->
        fst <$> checks evs = l
        /\ length (commands evs) = length l
        /\ forall q, q ∈ s' <-> q ∈ s /\ (q, false) ∉ checks evs)
  /\ (forall e, r = Raise e ->
        exists pre q, q ∈ l /\ sleeps pre = []
                      /\ observed env (h ++ pre) q = Raise e).
Proof.
  induction l as [|p l IH]; intros s env h r evs Hnd Hsub; simpl.
  - intros [= <- <-]. split_and!; try done.
    + intros ? ? []%elem_of_nil.
    + intros s' [= <-]. split_and!; try done.
      intros q. split; [|by intros []].
      intros Hq. split; [done | apply not_elem_of_nil].
  - apply NoDup_cons in Hnd as [Hpl Hnd].
    assert (p ∈ s) as Hp by (apply Hsub; left).
    pose proof (check_not_running_run p s env h Hp) as Hcheck.
    destruct (observed_fails env h p) as [Hdiv Hraise].
    destruct (observed env h p) as [b|e|] eqn:Hobs; [| |done].
    + rewrite (bind_Ok _ _ _ _ _ _ Hcheck).
      destruct (check_events_shows p b) as (Hc & Hs & Hk).
      remember (check_events p b) as e1 eqn:He1.
      destruct (for_each l check_not_running (if b then s else s ∖ {[p]}) env
                  (h ++ e1)) as [r2 e2] eqn:Hrest.
      cbn [fst snd]. intros [= <- <-].
      apply IH in Hrest as (H1 & H2 & H3 & H4 & H5 & H6 & H7 & H8 & H9);
        [|done|].
      2:{ intros q Hq. assert (q <> p) by (intros ->; done).
          assert (q ∈ s) by (apply Hsub; by right).
          destruct b; [done|]. apply elem_of_difference.
          split; [done | by intros ->%elem_of_singleton]. }
      rewrite commands_app, sleeps_app, checks_app, Hc, Hs, Hk, H3.
      cbn [app length fmap list_fmap fst]. split_and!; try done.
      * by constructor.
      * lia.
      * by apply prefix_cons.
      * intros q b' [[= -> ->] | Hq]%elem_of_cons.
        -- exists [], (e1 ++ e2). by rewrite app_nil_r.
        -- destruct (H7 q b' Hq) as (pre & post & -> & Hsl & Ho).
           exists (e1 ++ pre), post.
           rewrite sleeps_app, Hs, Hsl, !app_assoc. done.
      * intros s' Hs'. destruct (H8 s' Hs') as (Hl & Hn & Hq).
        split_and!; [by rewrite Hl | by rewrite Hn |].
        intros q. rewrite Hq, not_elem_of_cons. split.
        -- intros [Hqs Hno]. destruct b.
           ++ by split_and!.
           ++ apply elem_of_difference in Hqs as [Hqs Hqp].
              split_and!; [done | | done].
              intros [= ->]. apply Hqp. by apply elem_of_singleton.
        -- intros [Hqs [Hne Hno]]. split; [|done].
           destruct b; [done|]. apply elem_of_difference.
           split; [done | by intros ->%elem_of_singleton].
      * intros e Hr. destruct (H9 e Hr) as (pre & q & Hq & Hsl & Ho).
        exists (e1 ++ pre), q. rewrite sleeps_app, Hs, Hsl, app_assoc.
        split_and!; [by right | done..].
    + rewrite (bind_Raise _ _ _ _ _ _ Hcheck). intros [= <- <-].
      destruct (Hraise e eq_refl) as [n ->].
      split_and!; try done.
      * simpl. by repeat constructor.
      * simpl. lia.
      * apply prefix_nil.
      * intros ? ? []%elem_of_nil.
      * intros ? [= <-]. exists [], p. rewrite app_nil_r.
        split_and!; [by left | done..].
Qed.

Lemma while_not_done fuel (s : gset string) attempts env h :
  s = ∅ \/ (max_attempts <= attempts)%nat ->
  _are_processes_not_running_while fuel s attempts env h = (Ok false, []).
Proof.
  intros Hstop.
  assert (bool_decide (s ≠ ∅) && (attempts <? max_attempts)%nat = false)
    as Hcond.
  { destruct Hstop as [-> | Hle].
    - by rewrite bool_decide_eq_false_2 by (intros ?; done).
    - apply andb_false_iff. right. by apply Nat.ltb_ge. }
  destruct fuel; simpl; by rewrite Hcond.
Qed.

(** One iteration of the [while] loop of [_are_processes_not_running]. *)
Lemma while_not_step fuel (s : gset string) attempts env h :
  s <> ∅ -> (attempts < max_attempts)%nat ->
  _are_processes_not_running_while (S fuel) s attempts env h =
  match for_each (set_order env s) check_not_running s env h with
  | (Ok s', e1) =>
      if bool_decide (s' ≠ ∅) then
        (fst (_are_processes_not_running_while fuel s' (attempts + 1) env
                (h ++ e1 ++ still_running s')),
         e1 ++ still_running s'
         ++ snd (_are_processes_not_running_while fuel s' (attempts + 1) env
                   (h ++ e1 ++ still_running s')))
      else (Ok true, e1)
  | (Raise x, e1) => (Raise x, e1)
  | (Diverge, e1) => (Diverge, e1)
  end.
Proof.
  intros Hs Hlt. cbn [_are_processes_not_running_while].
  rewrite bool_decide_eq_true_2 by done.
  apply Nat.ltb_lt in Hlt as ->. cbn [andb].
  unfold bind at 1. unfold list_of_set at 1. cbn [app]. rewrite app_nil_r.
  unfold bind at 1.
  destruct (for_each (set_order env s) check_not_running s env h)
    as [[s'|x|] e1]; [|done..].
  destruct (bool_decide (s' ≠ ∅)).
  - unfold bind, log, sleep, emit. cbn [app fst snd].
    rewrite <- !app_assoc. cbn [app].
    by destruct (_are_processes_not_running_while fuel s' (attempts + 1) env _).
  - unfold ret. by rewrite app_nil_r.
Qed.

Lemma no_recheck_stopped_NoDup cs : NoDup (fst <$> cs) -> no_recheck_stopped cs.
Proof.
  induction cs as [|[p b] cs IH]; [done|].
  cbn [fmap list_fmap fst no_recheck_stopped]. intros [Hp Hnd]%NoDup_cons.
  split; [|by apply IH]. intros _ b' Hin. apply Hp.
  apply list_elem_of_fmap. by exists (p, b').
Qed.

Lemma no_recheck_stopped_app cs1 cs2 :
  no_recheck_stopped cs1 -> no_recheck_stopped cs2 ->
  (forall q b, (q, false) ∈ cs1 -> (q, b) ∉ cs2) ->
  no_recheck_stopped (cs1 ++ cs2).
Proof.
  induction cs1 as [|[p b] cs1 IH]; [done|].
  cbn [app no_recheck_stopped]. intros [Hp Hrest] H2 Hcross. split.
  - intros -> b'. rewrite elem_of_app. intros [Hin | Hin].
    + by apply (Hp eq_refl b').
    + apply (Hcross p b'); [by left | done].
  - apply IH; [done..|]. intros q b' Hq. apply Hcross. by right.
Qed.




(** The loop of [_are_processes_not_running], whatever the world: the
    bounds of the other loop, and no check again of an identity found not
    running. *)
Lemma while_not_spec fuel : forall (s : gset string) attempts env h r evs,
  (max_attempts - attempts <= fuel)%nat ->
  _are_processes_not_running_while fuel s attempts env h = (r, evs) ->
  r <> Diverge
  /\ (forall key, r <> Raise (KeyError key))
  /\ Forall (eq 1%nat) (sleeps evs)
  /\ (length (sleeps evs) <= max_attempts - attempts)%nat
  /\ Forall (eq ps_aux) (commands evs)
  /\ (length (commands evs) <= (max_attempts - attempts) * size s)%nat
  /\ (forall q b, (q, b) ∈ checks evs -> q ∈ s)
  /\ no_recheck_stopped (checks evs).
Proof.
  induction fuel as [|fuel IH]; intros s attempts env h r evs Hfuel.
  - rewrite while_not_done by (right; lia). intros [= <- <-].
    split_and!; try done; try apply Nat.le_0_l; try (intros ? ? []%elem_of_nil).
  - destruct (decide (s = ∅ \/ (max_attempts <= attempts)%nat)) as [Hstop|Hgo].
    { rewrite while_not_done by done. intros [= <- <-].
      split_and!; try done; try apply Nat.le_0_l; try (intros ? ? []%elem_of_nil). }
    assert (s <> ∅) as Hs by (intros ->; apply Hgo; by left).
    assert (attempts < max_attempts)%nat as Hlt
      by (apply Nat.nle_gt; intros ?; apply Hgo; by right).
    rewrite while_not_step by done.
    destruct (set_order_spec env s) as (Hnd & Hmem & Hlen).
    destruct (for_each (set_order env s) check_not_running s env h)
      as [rp e1] eqn:Hpass.
    apply pass_not_spec in Hpass
      as (P1 & P2 & P3 & P4 & P5 & P6 & P7 & P8 & P9);
      [|done|by apply Hmem].
    assert (forall q b, (q, b) ∈ checks e1 -> q ∈ s) as Hin1.
    { intros q b Hq. apply Hmem. destruct P6 as [k ->].
      apply elem_of_app. left. apply list_elem_of_fmap. by exists (q, b). }
    assert (no_recheck_stopped (checks e1)) as Hnr1.
    { apply no_recheck_stopped_NoDup. destruct P6 as [k Hk].
      rewrite Hk in Hnd. by apply NoDup_app in Hnd as [? _]. }
    rewrite Hlen in P5.
    destruct rp as [s'|x|]; [| |done].
    + destruct (P8 s' eq_refl) as (_ & _ & Hs').
      assert (s' ⊆ s) as Hsub by (intros q [? _]%Hs'; done).
      pose proof (subseteq_size _ _ Hsub) as Hsize.
      destruct (bool_decide (s' ≠ ∅)).
      * destruct (still_running_shows s') as (Wc & Ws & Wk).
        remember (still_running s') as w eqn:Hw.
        destruct (_are_processes_not_running_while fuel s' (attempts + 1) env
                    (h ++ e1 ++ w)) as [r3 e3] eqn:Hrec.
        cbn [fst snd]. intros [= <- <-].
        apply IH in Hrec as (R1 & R2 & R3 & R4 & R5 & R6 & R7 & R8); [|lia].
        rewrite !sleeps_app, !commands_app, !checks_app, P3, Ws, Wc, Wk.
        cbn [app]. rewrite length_app. split_and!; try done.
        -- by constructor.
        -- simpl. unfold max_attempts in *. lia.
        -- by apply Forall_app.
        -- by eapply attempts_budget.
        -- intros q b [Hq | Hq]%elem_of_app; [by eapply Hin1|].
           apply Hsub. by eapply R7.
        -- apply no_recheck_stopped_app; [done..|].
           intros q b Htrue Hq. apply R7, Hs' in Hq as [_ Hno]. done.
      * intros [= <- <-]. rewrite P3.
        split_and!; try done; try apply Nat.le_0_l;
        try (intros key [= ->]; by apply (P2 key));
        rewrite <- (Nat.add_0_r (length _));
        eapply (attempts_budget _ _ (size s));
        first [done | apply Nat.le_0_l | lia].
    + intros [= <- <-]. rewrite P3.
      split_and!; try done; try apply Nat.le_0_l;
        try (intros key [= ->]; by apply (P2 key));
        rewrite <- (Nat.add_0_r (length _));
        eapply (attempts_budget _ _ (size s));
        first [done | apply Nat.le_0_l | lia].
Qed.

Lemma checks_all_false (cs : list (string * bool)) :
  (forall q b, (q, b) ∈ cs -> b = false) ->
  cs = (fun q => (q, false)) <$> (fst <$> cs).
Proof.
  induction cs as [|[q b] cs IH]; [done|]. intros Hall.
  cbn [fmap list_fmap fst]. f_equal.
  - f_equal. apply (Hall q). by left.
  - apply IH. intros q' b' Hin. apply (Hall q'). by right.
Qed.




(** No identity is found running in the first attempt: the loop answers
    true after one check of each, without sleeping. *)
Lemma while_none_running fuel (s : gset string) attempts env h :
  s <> ∅ -> (attempts < max_attempts)%nat ->
  (forall q pre, q ∈ s -> sleeps pre = [] ->
     observed env (h ++ pre) q = Ok false) ->
  exists evs,
    _are_processes_not_running_while (S fuel) s attempts env h = (Ok true, evs)
    /\ sleeps evs = []
    /\ commands evs = replicate (size s) ps_aux
    /\ checks evs = (fun q => (q, false)) <$> set_order env s.
Proof.
  intros Hs Hlt Hobs. rewrite while_not_step by done.
  destruct (set_order_spec env s) as (Hnd & Hmem & Hlen).
  destruct (for_each (set_order env s) check_not_running s env h)
    as [rp e1] eqn:Hpass.
  apply pass_not_spec in Hpass
    as (P1 & P2 & P3 & P4 & P5 & P6 & P7 & P8 & P9);
    [|done|by apply Hmem].
  destruct rp as [s'|x|]; [| |done].
  - destruct (P8 s' eq_refl) as (Hl & Hn & Hs').
    assert (checks e1 = (fun q => (q, false)) <$> set_order env s) as Hchecks.
    { rewrite <- Hl. apply checks_all_false. intros q b Hq.
      destruct (P7 q b Hq) as (pre & post & _ & Hsl & Ho).
      rewrite Hobs in Ho; [congruence | | done].
      apply Hmem. rewrite <- Hl. apply list_elem_of_fmap. by exists (q, b). }
    assert (s' = ∅) as ->.
    { apply elem_of_equiv_empty_L. intros q [Hq Hno]%Hs'. apply Hno.
      rewrite Hchecks. apply list_elem_of_fmap. exists q.
      split; [done | by apply Hmem]. }
    rewrite bool_decide_eq_false_2 by (intros ?; done).
    exists e1. split_and!; try done.
    rewrite (Forall_eq_replicate _ _ P4). by rewrite Hn, Hlen.
  - destruct (P9 x eq_refl) as (pre & q & Hq & Hsl & Ho).
    rewrite Hobs in Ho; [done | by apply Hmem | done].
Qed.

(** One identity is always found running, and no observation raises: the
    loop answers false after checking that identity once in each of the
    attempts left and sleeping one second after each. *)
Lemma while_always_running p fuel :
  forall (s : gset string) attempts env h,
  (max_attempts - attempts <= fuel)%nat ->
  p ∈ s ->
  (forall pre, observed env (h ++ pre) p = Ok true) ->
  (forall q pre, q ∈ s -> exists b, observed env (h ++ pre) q = Ok b) ->
  exists evs,
    _are_processes_not_running_while fuel s attempts env h = (Ok false, evs)
    /\ sleeps evs = replicate (max_attempts - attempts) 1%nat
    /\ filter (fun c => c.1 = p) (checks evs)
       = replicate (max_attempts - attempts) (p, true).
Proof.
  induction fuel as [|fuel IH]; intros s attempts env h Hfuel Hp Hnever Hok.
  - rewrite while_not_done by (right; lia).
    replace (max_attempts - attempts)%nat with 0%nat by lia. by exists [].
  - destruct (decide (max_attempts <= attempts)%nat) as [Hstop|Hlt].
    { rewrite while_not_done by (by right).
      replace (max_attempts - attempts)%nat with 0%nat by lia. by exists []. }
    apply Nat.nle_gt in Hlt.
    assert (s <> ∅) as Hs by set_solver.
    rewrite while_not_step by done.
    destruct (set_order_spec env s) as (Hnd & Hmem & Hlen).
    destruct (for_each (set_order env s) check_not_running s env h)
      as [rp e1] eqn:Hpass.
    apply pass_not_spec in Hpass
      as (P1 & P2 & P3 & P4 & P5 & P6 & P7 & P8 & P9);
      [|done|by apply Hmem].
    destruct rp as [s'|x|]; [| |done].
    + destruct (P8 s' eq_refl) as (Hl & Hn & Hs').
      assert (exists b, (p, b) ∈ checks e1) as [b Hb].
      { assert (p ∈ fst <$> checks e1) as Hin by (rewrite Hl; by apply Hmem).
        apply list_elem_of_fmap in Hin as ([q b] & -> & Hin). by exists b. }
      assert (b = true) as ->.
      { destruct (P7 p b Hb) as (pre & post & _ & _ & Ho).
        rewrite Hnever in Ho. congruence. }
      assert (p ∈ s') as Hp'.
      { apply Hs'. split; [done|]. intros Hfalse.
        destruct (P7 p false Hfalse) as (pre & post & _ & _ & Ho).
        rewrite Hnever in Ho. congruence. }
      rewrite bool_decide_eq_true_2 by set_solver.
      destruct (still_running_shows s') as (Wc & Ws & Wk).
      remember (still_running s') as w eqn:Hw.
      assert (forall pre, observed env ((h ++ e1 ++ w) ++ pre) p = Ok true)
        as Hnever'.
      { intros pre. rewrite <- !app_assoc. apply Hnever. }
      assert (forall q pre, q ∈ s' ->
                exists b, observed env ((h ++ e1 ++ w) ++ pre) q = Ok b)
        as Hok'.
      { intros q pre Hq. rewrite <- !app_assoc. apply Hok. by apply Hs'. }
      assert (max_attempts - (attempts + 1) <= fuel)%nat as Hfuel' by lia.
      destruct (IH s' (attempts + 1)%nat env (h ++ e1 ++ w)
                  Hfuel' Hp' Hnever' Hok') as (e3 & Hrec & Hsl3 & Hch3).
      rewrite Hrec. cbn [fst snd]. eexists. split; [done|].
      rewrite !sleeps_app, !checks_app, !filter_app, P3, Ws, Wk, Hsl3, Hch3.
      rewrite (checks_of_identity (checks e1) p true);
        [|by rewrite Hl | done].
      replace (max_attempts - attempts)%nat
        with (S (max_attempts - (attempts + 1))) by lia.
      done.
    + destruct (P9 x eq_refl) as (pre & q & Hq & Hsl & Ho).
      destruct (Hok q pre) as [b Hb]; [by apply Hmem | congruence].
Qed.

(** More fuel than the attempts left changes nothing here either. *)
Lemma while_not_fuel fuel : forall (s : gset string) attempts env h,
  (max_attempts - attempts <= fuel)%nat ->
  _are_processes_not_running_while fuel s attempts env h
  = _are_processes_not_running_while (max_attempts - attempts) s attempts env h.
Proof.
  induction fuel as [|fuel IH]; intros s attempts env h Hfuel.
  - by replace (max_attempts - attempts)%nat with 0%nat by lia.
  - destruct (decide (s = ∅ \/ (max_attempts <= attempts)%nat)) as [Hstop|Hgo].
    { by rewrite !while_not_done. }
    assert (s <> ∅) as Hs by (intros ->; apply Hgo; by left).
    assert (attempts < max_attempts)%nat as Hlt
      by (apply Nat.nle_gt; intros ?; apply Hgo; by right).
    replace (max_attempts - attempts)%nat
      with (S (max_attempts - (attempts + 1))) by lia.
    rewrite !while_not_step by done.
    destruct (for_each (set_order env s) check_not_running s env h)
      as [[s'|x|] e1]; [|done..].
    destruct (bool_decide (s' ≠ ∅)); [|done].
    by rewrite IH by lia.
Qed.

(** X6. For a set of identities that is not empty,
    [_are_processes_not_running]
    - answers true after one check of each identity and no sleep, when
      none is found running in the first attempt;
    - answers false, raising nothing, after five attempts and five sleeps
      of one second, when one identity is always found running (and no
      observation raises);
    - ends in any world with the fuel of five attempts, sleeping at most
      five times and running [ps aux] at most once for each identity in
      each attempt;
    - checks only identities of the set, and never again one it found not
      running. *)
Theorem wait_until_none_running (env : Env) (h : list Event)
    (patterns : list string) :
  patterns <> [] ->
  let identities : gset string := list_to_set patterns in
  ((forall q pre, q ∈ identities -> sleeps pre = [] ->
      observed env (h ++ pre) q = Ok false) ->
   exists evs,
     _are_processes_not_running patterns env h = (Ok true, evs)
     /\ sleeps evs = []
     /\ commands evs = replicate (size identities) ps_aux
     /\ checks evs = (fun q => (q, false)) <$> set_order env identities)
  /\ (forall p,
        p ∈ identities ->
        (forall pre, observed env (h ++ pre) p = Ok true) ->
        (forall q pre, q ∈ identities ->
           exists b, observed env (h ++ pre) q = Ok b) ->
        exists evs,
          _are_processes_not_running patterns env h = (Ok false, evs)
          /\ sleeps evs = replicate 5 1%nat
          /\ filter (fun c => c.1 = p) (checks evs) = replicate 5 (p, true))
  /\ (forall r evs,
        _are_processes_not_running patterns env h = (r, evs) ->
        r <> Diverge
        /\ (length (sleeps evs) <= max_attempts)%nat
        /\ Forall (eq 1%nat) (sleeps evs)
        /\ Forall (eq ps_aux) (commands evs)
        /\ (length (commands evs) <= max_attempts * size identities)%nat
        /\ (forall fuel, (max_attempts <= fuel)%nat ->
              _are_processes_not_running_while fuel identities 0 env h
              = (r, evs))
        /\ (forall q b, (q, b) ∈ checks evs -> q ∈ identities)
        /\ no_recheck_stopped (checks evs)).
Proof.
  intros Hne identities. unfold _are_processes_not_running. fold identities.
  assert (identities <> ∅) as Hs.
  { destruct patterns as [|p ?]; [done|]. unfold identities. set_solver. }
  split_and!.
  - intros Hobs. by apply while_none_running; [|unfold max_attempts; lia|].
  - intros p Hp Halways Hok.
    by apply (while_always_running p max_attempts identities 0%nat).
  - intros r evs Hrun.
    pose proof (while_not_spec max_attempts identities 0%nat env h r evs
                  ltac:(lia) Hrun)
      as (R1 & R2 & R3 & R4 & R5 & R6 & R7 & R8).
    rewrite Nat.sub_0_r in R4, R6. split_and!; try done.
    intros fuel Hfuel. rewrite while_not_fuel by lia.
    by rewrite Nat.sub_0_r.
Qed.

Lemma wait_until_none_running_witness :
  (exists evs,
     _are_processes_not_running ["/opt/zscaler/bin/ZSTray"] only_daemon_env []
     = (Ok true, evs) /\ sleeps evs = [])
  /\ (exists evs,
        _are_processes_not_running
          ["/opt/zscaler/bin/zsaservice"; "/opt/zscaler/bin/zstunnel"]
          only_daemon_env []
        = (Ok false, evs) /\ sleeps evs = replicate 5 1%nat).
Proof.
  split.
  - destruct (wait_until_none_running only_daemon_env []
                ["/opt/zscaler/bin/ZSTray"]) as (Hfirst & _);
      [discriminate|].
    destruct Hfirst as (evs & Hrun & Hsl & _).
    + intros q pre Hq _. rewrite only_daemon_observed.
      apply elem_of_list_to_set, list_elem_of_singleton in Hq as ->.
      reflexivity.
    + exists evs. split; assumption.
  - destruct (wait_until_none_running only_daemon_env []
                ["/opt/zscaler/bin/zsaservice"; "/opt/zscaler/bin/zstunnel"])
      as (_ & Halways & _); [discriminate|].
    destruct (Halways "/opt/zscaler/bin/zsaservice") as (evs & Hrun & Hsl & _).
    + apply elem_of_list_to_set. left.
    + intros pre. rewrite only_daemon_observed. reflexivity.
    + intros q pre _. rewrite only_daemon_observed. eexists. reflexivity.
    + exists evs. split; assumption.
Defined.

(** The answers of the loop of [_are_processes_not_running], by what the
    trace shows. *)
Lemma while_not_sound fuel : forall (s : gset string) attempts env h r evs,
  (max_attempts - attempts <= fuel)%nat ->
  _are_processes_not_running_while fuel s attempts env h = (r, evs) ->
  (r = Ok true -> forall q, q ∈ s -> (q, false) ∈ checks evs)
  /\ (r = Ok false -> s <> ∅ ->
      length (sleeps evs) = (max_attempts - attempts)%nat
      /\ exists q, q ∈ s /\ (q, false) ∉ checks evs)
  /\ (forall e, r = Raise e ->
        exists pre q, q ∈ s /\ observed env (h ++ pre) q = Raise e)
  /\ (forall q b, (q, b) ∈ checks evs ->
        exists pre post, evs = pre ++ post
                         /\ observed env (h ++ pre) q = Ok b).
Proof.
  assert (forall (s : gset string) attempts env h r evs,
    (s = ∅ \/ (max_attempts <= attempts)%nat) ->
    (Ok false, []) = (r, evs) ->
    (r = Ok true -> forall q, q ∈ s -> (q, false) ∈ checks evs)
    /\ (r = Ok false -> s <> ∅ ->
        length (sleeps evs) = (max_attempts - attempts)%nat
        /\ exists q, q ∈ s /\ (q, false) ∉ checks evs)
    /\ (forall e, r = Raise e ->
          exists pre q, q ∈ s /\ observed env (h ++ pre) q = Raise e)
    /\ (forall q b, (q, b) ∈ checks evs ->
          exists pre post, evs = pre ++ post
                           /\ observed env (h ++ pre) q = Ok b)) as Hstop.
  { intros s attempts env h r evs Hstop [= <- <-]. split_and!; try done.
    - intros _ Hs. destruct Hstop as [-> | Hle]; [done|].
      split; [simpl; lia|].
      apply set_choose_L in Hs as [q Hq]. exists q.
      split; [done | apply not_elem_of_nil].
    - intros ? ? []%elem_of_nil. }
  induction fuel as [|fuel IH]; intros s attempts env h r evs Hfuel.
  - rewrite while_not_done by (right; lia). by apply Hstop; right; lia.
  - destruct (decide (s = ∅ \/ (max_attempts <= attempts)%nat)) as [Hs|Hgo].
    { rewrite while_not_done by done. by apply Hstop. }
    assert (s <> ∅) as Hs by (intros ->; apply Hgo; by left).
    assert (attempts < max_attempts)%nat as Hlt
      by (apply Nat.nle_gt; intros ?; apply Hgo; by right).
    rewrite while_not_step by done.
    destruct (set_order_spec env s) as (Hnd & Hmem & Hlen).
    destruct (for_each (set_order env s) check_not_running s env h)
      as [rp e1] eqn:Hpass.
    apply pass_not_spec in Hpass
      as (P1 & P2 & P3 & P4 & P5 & P6 & P7 & P8 & P9);
      [|done|by apply Hmem].
    assert (forall q b, (q, b) ∈ checks e1 ->
      forall rest, exists pre post,
        e1 ++ rest = pre ++ post /\ observed env (h ++ pre) q = Ok b) as Hobs1.
    { intros q b Hq rest.
      destruct (P7 q b Hq) as (pre & post & -> & _ & Ho).
      exists pre, (post ++ rest). by rewrite app_assoc. }
    destruct rp as [s'|x|]; [| |done].
    + destruct (P8 s' eq_refl) as (_ & _ & Hs').
      destruct (bool_decide (s' ≠ ∅)) eqn:Hleft.
      * apply bool_decide_eq_true in Hleft.
        destruct (still_running_shows s') as (Wc & Ws & Wk).
        remember (still_running s') as w eqn:Hw.
        destruct (_are_processes_not_running_while fuel s' (attempts + 1) env
                    (h ++ e1 ++ w)) as [r3 e3] eqn:Hrec.
        cbn [fst snd]. intros [= <- <-].
        apply IH in Hrec as (R1 & R2 & R3 & R4); [|lia].
        rewrite !sleeps_app, !checks_app, P3, Ws, Wk. cbn [app].
        split_and!.
        -- intros Hr q Hq.
           destruct (decide ((q, false) ∈ checks e1)) as [Hin|Hout].
           ++ apply elem_of_app. by left.
           ++ apply elem_of_app. right. apply (R1 Hr), Hs'. by split.
        -- intros Hr _. destruct (R2 Hr Hleft) as (Hlen3 & q & Hq & Hout).
           split; [simpl; lia|]. apply Hs' in Hq as [Hq Hout1].
           exists q. split; [done|]. by intros [?|?]%elem_of_app.
        -- intros e Hr. destruct (R3 e Hr) as (pre & q & Hq & Ho).
           exists (e1 ++ w ++ pre), q. apply Hs' in Hq as [Hq _].
           split; [done|]. by rewrite !app_assoc in *.
        -- intros q b [Hq | Hq]%elem_of_app; [by apply Hobs1|].
           destruct (R4 q b Hq) as (pre & post & -> & Ho).
           exists (e1 ++ w ++ pre), post. split.
           ++ by rewrite <- !app_assoc.
           ++ by rewrite !app_assoc in *.
      * apply bool_decide_eq_false in Hleft.
        assert (s' = ∅) as -> by (by destruct (decide (s' = ∅))).
        intros [= <- <-]. split_and!; try done.
        -- intros _ q Hq.
           destruct (decide ((q, false) ∈ checks e1)) as [Hin|Hout]; [done|].
           exfalso. eapply (not_elem_of_empty (C:=gset string) q).
           apply Hs'. by split.
        -- intros q b Hq. destruct (Hobs1 q b Hq []) as (pre & post & E & Ho).
           exists pre, post. by rewrite app_nil_r in E.
    + intros [= <- <-]. split_and!; try done.
      * intros e [= <-]. destruct (P9 x eq_refl) as (pre & q & Hq & _ & Ho).
        exists pre, q. split; [by apply Hmem | done].
      * intros q b Hq. destruct (Hobs1 q b Hq []) as (pre & post & E & Ho).
        exists pre, post. by rewrite app_nil_r in E.
Qed.

(** [_are_processes_not_running] is a wait for its identities to be found
    not running. *)
Lemma are_processes_not_running_waited_for patterns env h :
  patterns <> [] ->
  waited_for env h patterns false
    (_are_processes_not_running patterns env h).
Proof.
  intros Hne.
  destruct (_are_processes_not_running patterns env h) as [r evs] eqn:Hrun.
  unfold _are_processes_not_running in Hrun.
  pose proof (while_not_spec max_attempts (list_to_set patterns) 0%nat env h r evs
                (Nat.le_sub_l _ _) Hrun) as (Hd & _ & Hone & _ & _ & _ & Hin & _).
  apply while_not_sound in Hrun as (S1 & S2 & S3 & S4); [|apply Nat.le_sub_l].
  assert ((list_to_set patterns : gset string) <> ∅) as Hs.
  { destruct patterns as [|p ?]; [done|]. set_solver. }
  unfold waited_for. cbn [fst snd]. split_and!.
  - done.
  - intros Hr q Hq. apply (S1 Hr). by apply elem_of_list_to_set.
  - intros Hr. destruct (S2 Hr Hs) as (Hlen & q & Hq & Hno). split.
    + by rewrite (Forall_eq_replicate _ _ Hone), Hlen.
    + exists q. split; [by apply elem_of_list_to_set in Hq | done].
  - intros q b Hq. split; [|by apply S4].
    by apply Hin, elem_of_list_to_set in Hq.
  - intros e Hr. destruct (S3 e Hr) as (pre & q & Hq & Ho).
    exists pre, q. split; [by apply elem_of_list_to_set in Hq | done].
Qed.

(** ** The shutdown sequence *)

Lemma stop_zscaler_run env h v1 e1 v2 e2 v3 e3 :
  _did_gui_stop_correctly env (h ++ user_events stop_gui) = (v1, e1) ->
  _did_daemon_stop_correctly env
    (h ++ user_events stop_gui ++ e1 ++ sudo_events stop_daemon) = (v2, e2) ->
  _was_daemon_disabled_correctly daemon_service env
    (h ++ user_events stop_gui ++ e1 ++ sudo_events stop_daemon ++ e2
       ++ sudo_events disable_daemon) = (v3, e3) ->
  stop_zscaler env h =
  after (user_events stop_gui ++ e1)
    (gate v1 failed_to_stop_gui
       (after (sudo_events stop_daemon ++ e2)
          (gate v2 failed_to_stop_daemon
             (after (sudo_events disable_daemon ++ e3)
                (gate v3 failed_to_disable
                   (Ok tt, stopped_events)))))).
Proof.
  intros Hv1 Hv2 Hv3. unfold stop_zscaler.
  rewrite bind_run. unfold _stop_systemd_service_as_user.
  rewrite run_as_user_run. cbn [fst snd]. rewrite bind_run.
  fold stop_gui. rewrite Hv1. cbn [fst snd]. rewrite !after_after.
  f_equal. destruct v1 as [[|]| |]; cbn [gate]; try reflexivity.
  rewrite unless_exit_gate. cbn [gate].
  rewrite bind_run. unfold _stop_systemd_service_as_root.
  rewrite run_as_sudo_run. cbn [fst snd]. rewrite bind_run.
  replace ((((h ++ user_events stop_gui) ++ e1) ++ []) ++ sudo_events _)
    with (h ++ user_events stop_gui ++ e1 ++ sudo_events stop_daemon)
    by (by rewrite app_nil_r, <- !app_assoc).
  rewrite Hv2. cbn [fst snd]. rewrite !after_after.
  f_equal. destruct v2 as [[|]| |]; cbn [gate]; try reflexivity.
  rewrite unless_exit_gate. cbn [gate].
  rewrite bind_run. unfold _disable_systemd_service_as_root.
  rewrite run_as_sudo_run. cbn [fst snd]. rewrite bind_run.
  replace ((((h ++ user_events stop_gui ++ e1 ++ sudo_events stop_daemon)
               ++ e2) ++ []) ++ sudo_events _)
    with (h ++ user_events stop_gui ++ e1 ++ sudo_events stop_daemon ++ e2
            ++ sudo_events disable_daemon)
    by (by rewrite app_nil_r, <- !app_assoc).
  rewrite Hv3. cbn [fst snd]. rewrite !after_after.
  f_equal. destruct v3 as [[|]| |]; cbn [gate]; try reflexivity.
Qed.

Lemma disabled_commands unit_name env h :
  commands (_is_systemd_unit_disabled unit_name env h).2
  = [systemctl_status unit_name].
Proof.
  rewrite is_systemd_unit_disabled_run. by destruct (loaded_line _ _).
Qed.

Lemma are_processes_not_running_commands patterns env h :
  commands (_are_processes_not_running patterns env h).2
  = replicate (length (commands (_are_processes_not_running patterns env h).2))
              ps_aux.
Proof.
  destruct (_are_processes_not_running patterns env h) as [r evs] eqn:Hrun.
  apply while_not_spec in Hrun as (_ & _ & _ & _ & Hc & _); [|done].
  by apply Forall_eq_replicate.
Qed.

(** [main] for the subcommand down, when the status found is not none
    running: the shutdown sequence runs after the classification. *)
Lemma main_down env h sys_argv st e0 :
  is_zscaler_running env (h ++ [argv_log sys_argv]) = (Ok st, e0) ->
  st <> no_processes_running ->
  main sys_argv (Some "down") env h =
  after (argv_log sys_argv :: e0)
    (finish (stop_zscaler env (h ++ argv_log sys_argv :: e0))).
Proof.
  intros Hcur Hst. unfold main. unfold log at 1. rewrite bind_emit.
  rewrite bind_run. fold (argv_log sys_argv). rewrite Hcur. cbn [fst snd].
  rewrite after_after. cbn [String.eqb Ascii.eqb Bool.eqb].
  rewrite bool_decide_eq_false_2 by done.
  replace ((h ++ [argv_log sys_argv]) ++ e0)
    with (h ++ argv_log sys_argv :: e0) by (by rewrite <- app_assoc).
  cbn [app]. f_equal. unfold bind, ret, finish.
  destruct (stop_zscaler env _) as [[[]|x|] e]; by rewrite ?app_nil_r.
Qed.

(** X7. [main] for the subcommand down, when the status found is not none
    running.  When the three verifications succeed the commands run are,
    after the three observations of the classifier and in this order: stop
    the GUI unit, [ps aux] while the tray process is waited for, stop the
    daemon unit, [ps aux] while the daemon and tunnel processes are waited
    for, disable the daemon unit, query its status.  When a verification
    fails, the run exits with the message of that step and no later step
    is run.  No run ever starts or enables a unit.  The first verification
    is a wait for the tray process to be found not running, the second a
    wait for the daemon and tunnel processes to be; the third is the
    status query of the daemon unit, answering whether the status text it
    reads reports the unit disabled. *)
Theorem shutdown_sequence (env : Env) (h0 : list Event)
    (sys_argv : list string) (st : ZScalerVpnStatus) (e0 : list Event) :
  is_zscaler_running env (h0 ++ [argv_log sys_argv]) = (Ok st, e0) ->
  st <> no_processes_running ->
  let h := h0 ++ argv_log sys_argv :: e0 in
  let verify1 := _did_gui_stop_correctly env (h ++ user_events stop_gui) in
  let verify2 :=
    _did_daemon_stop_correctly env
      (h ++ user_events stop_gui ++ verify1.2 ++ sudo_events stop_daemon) in
  let verify3 :=
    _was_daemon_disabled_correctly daemon_service env
      (h ++ user_events stop_gui ++ verify1.2 ++ sudo_events stop_daemon
         ++ verify2.2 ++ sudo_events disable_daemon) in
  let run := main sys_argv (Some "down") env h0 in
  let k1 := length (commands verify1.2) in
  let k2 := length (commands verify2.2) in
  let status := systemctl_status daemon_service in
  (verify1.1 = Ok true -> verify2.1 = Ok true -> verify3.1 = Ok true ->
   run.1 = Ok None
   /\ commands run.2
      = replicate 3 ps_aux ++ [stop_gui] ++ replicate k1 ps_aux
        ++ ["sudo" :: stop_daemon] ++ replicate k2 ps_aux
        ++ ["sudo" :: disable_daemon; status])
  /\ (verify1.1 = Ok false ->
      run.1 = Raise failed_to_stop_gui
      /\ commands run.2
         = replicate 3 ps_aux ++ [stop_gui] ++ replicate k1 ps_aux)
  /\ (verify1.1 = Ok true -> verify2.1 = Ok false ->
      run.1 = Raise failed_to_stop_daemon
      /\ commands run.2
         = replicate 3 ps_aux ++ [stop_gui] ++ replicate k1 ps_aux
           ++ ["sudo" :: stop_daemon] ++ replicate k2 ps_aux)
  /\ (verify1.1 = Ok true -> verify2.1 = Ok true -> verify3.1 = Ok false ->
      run.1 = Raise failed_to_disable
      /\ commands run.2
         = replicate 3 ps_aux ++ [stop_gui] ++ replicate k1 ps_aux
           ++ ["sudo" :: stop_daemon] ++ replicate k2 ps_aux
           ++ ["sudo" :: disable_daemon; status])
  /\ (forall cmd,
        cmd ∈ commands run.2 ->
        cmd ∈ [ps_aux; stop_gui; "sudo" :: stop_daemon;
               "sudo" :: disable_daemon; status])
  /\ waited_for env (h ++ user_events stop_gui)
       ["/opt/zscaler/bin/ZSTray"] false verify1
  /\ waited_for env
       (h ++ user_events stop_gui ++ verify1.2 ++ sudo_events stop_daemon)
       ["/opt/zscaler/bin/zsaservice"; "/opt/zscaler/bin/zstunnel"] false
       verify2
  /\ status_query "; disabled; preset: disabled)"
       (stdout env
          ((h ++ user_events stop_gui ++ verify1.2 ++ sudo_events stop_daemon
              ++ verify2.2 ++ sudo_events disable_daemon)
             ++ [checking_disabled daemon_service])
          status)
       verify3.1.
Proof.
  intros Hcur Hst h verify1 verify2 verify3 run k1 k2 status.
  assert (waited_for env (h ++ user_events stop_gui)
            ["/opt/zscaler/bin/ZSTray"] false verify1) as Hv1
    by (by apply are_processes_not_running_waited_for).
  assert (waited_for env
            (h ++ user_events stop_gui ++ verify1.2 ++ sudo_events stop_daemon)
            ["/opt/zscaler/bin/zsaservice"; "/opt/zscaler/bin/zstunnel"] false
            verify2) as Hv2
    by (by apply are_processes_not_running_waited_for).
  assert (status_query "; disabled; preset: disabled)"
            (stdout env
               ((h ++ user_events stop_gui ++ verify1.2
                   ++ sudo_events stop_daemon ++ verify2.2
                   ++ sudo_events disable_daemon)
                  ++ [checking_disabled daemon_service])
               status)
            verify3.1) as Hv3.
  { unfold verify3, _was_daemon_disabled_correctly.
    rewrite is_systemd_unit_disabled_run. fold status.
    pose proof (loaded_line_status_query "; disabled; preset: disabled)"
      status
      (stdout env
         ((h ++ user_events stop_gui ++ verify1.2
             ++ sudo_events stop_daemon ++ verify2.2
             ++ sudo_events disable_daemon)
            ++ [checking_disabled daemon_service]) status))
      as Hq.
    by destruct (loaded_line status _). }
  assert (commands e0 = replicate 3 ps_aux) as Hc0
    by (by eapply is_zscaler_running_commands).
  assert (commands verify1.2 = replicate k1 ps_aux) as Hc1
    by apply are_processes_not_running_commands.
  assert (commands verify2.2 = replicate k2 ps_aux) as Hc2
    by apply are_processes_not_running_commands.
  assert (commands verify3.2 = [status]) as Hc3 by apply disabled_commands.
  assert (run =
    after (argv_log sys_argv :: e0)
      (finish
         (after (user_events stop_gui ++ verify1.2)
            (gate verify1.1 failed_to_stop_gui
               (after (sudo_events stop_daemon ++ verify2.2)
                  (gate verify2.1 failed_to_stop_daemon
                     (after (sudo_events disable_daemon ++ verify3.2)
                        (gate verify3.1 failed_to_disable
                           (Ok tt, stopped_events))))))))) as ->.
  { unfold run. rewrite (main_down _ _ _ _ _ Hcur) by done. fold h.
    by rewrite (stop_zscaler_run env h verify1.1 verify1.2 verify2.1
                  verify2.2 verify3.1 verify3.2)
      by apply surjective_pairing. }
  clearbody k1 k2 verify1 verify2 verify3.
  destruct verify1 as [v1 e1], verify2 as [v2 e2], verify3 as [v3 e3].
  cbn [fst snd] in *.
  assert (commands (user_events stop_gui) = [stop_gui]) as Hcg by done.
  assert (commands (sudo_events stop_daemon) = ["sudo" :: stop_daemon])
    as Hcd by done.
  assert (commands (sudo_events disable_daemon) = ["sudo" :: disable_daemon])
    as Hce by done.
  assert (commands stopped_events = []) as Hcs by done.
  assert (forall evs, commands (argv_log sys_argv :: evs) = commands evs)
    as Hca by done.
  split_and!.
  - intros -> -> ->. unfold after, finish. cbn [gate fst snd].
    split; [done|].
    rewrite !commands_app, Hca, Hc0, Hcg, Hc1, Hcd, Hc2, Hce, Hc3, Hcs.
    by rewrite ?app_nil_r, <- ?app_assoc.
  - intros ->. unfold after, finish. cbn [gate fst snd]. split; [done|].
    rewrite !commands_app, Hca, Hc0, Hcg, Hc1.
    by rewrite ?app_nil_r, <- ?app_assoc.
  - intros -> ->. unfold after, finish. cbn [gate fst snd]. split; [done|].
    rewrite !commands_app, Hca, Hc0, Hcg, Hc1, Hcd, Hc2.
    by rewrite ?app_nil_r, <- ?app_assoc.
  - intros -> -> ->. unfold after, finish. cbn [gate fst snd].
    split; [done|].
    rewrite !commands_app, Hca, Hc0, Hcg, Hc1, Hcd, Hc2, Hce, Hc3.
    by rewrite ?app_nil_r, <- ?app_assoc.
  - intros cmd. unfold after, finish.
    destruct v1 as [[|]| |]; cbn [gate fst snd];
      [destruct v2 as [[|]| |]; cbn [gate fst snd];
         [destruct v3 as [[|]| |]; cbn [gate fst snd] |..] |..];
      rewrite !commands_app, Hca, ?Hc0, ?Hcg, ?Hc1, ?Hcd, ?Hc2, ?Hce, ?Hc3,
        ?Hcs;
      rewrite !elem_of_app, ?elem_of_replicate, !elem_of_cons, !elem_of_nil;
      naive_solver.
  - exact Hv1.
  - exact Hv2.
  - exact Hv3.
Qed.

Lemma shutdown_sequence_witness :
  (main ["vpn"; "down"] (Some "down") winding_down_env []).1 = Ok None
  /\ commands (main ["vpn"; "down"] (Some "down") winding_down_env []).2
     = [ ps_aux; ps_aux; ps_aux;
         stop_gui; ps_aux;
         "sudo" :: stop_daemon; ps_aux; ps_aux;
         "sudo" :: disable_daemon; systemctl_status daemon_service ].
Proof.
  destruct (shutdown_sequence winding_down_env [] ["vpn"; "down"]
              all_processes_running
              (is_zscaler_running winding_down_env
                 [argv_log ["vpn"; "down"]]).2)
    as (Hsuccess & _).
  - vm_compute. reflexivity.
  - discriminate.
  - destruct Hsuccess as (Hresult & Hcommands).
    + vm_compute. reflexivity.
    + vm_compute. reflexivity.
    + vm_compute. reflexivity.
    + split; [exact Hresult|]. rewrite Hcommands. vm_compute. reflexivity.
Defined.

(** ** The dispatch of [main] *)

(** The observations of the classifier are runs of [ps aux], at most one
    for each executable, whatever their outcome. *)
Lemma map_M_observe_only_ps l env h :
  exists k, (k <= length l)%nat
    /\ commands (map_M _is_process_running l env h).2 = replicate k ps_aux.
Proof.
  revert h. induction l as [|p l IH]; intros h.
  - exists 0%nat. by split.
  - cbn [map_M]. rewrite bind_run.
    destruct (_is_process_running p env h) as [r e1] eqn:Hp.
    apply is_process_running_events in Hp as (Hc & _).
    cbn [fst snd]. unfold after. cbn [fst snd].
    destruct r as [b| |].
    + destruct (IH (h ++ e1)) as (k & Hk & Hck). exists (S k).
      split; [simpl; lia|]. rewrite bind_run. unfold after. cbn [fst snd].
      rewrite !commands_app, Hc, Hck.
      destruct (map_M _ l env (h ++ e1)).1; cbn [snd]; by rewrite ?app_nil_r.
    + exists 1%nat. split; [simpl; lia|]. cbn [snd]. by rewrite app_nil_r, Hc.
    + exists 1%nat. split; [simpl; lia|]. cbn [snd]. by rewrite app_nil_r, Hc.
Qed.

Lemma is_zscaler_running_only_ps env h :
  exists k, (k <= 3)%nat
    /\ commands (is_zscaler_running env h).2 = replicate k ps_aux.
Proof.
  unfold is_zscaler_running. rewrite bind_run.
  destruct (map_M_observe_only_ps binaries env h) as (k & Hk & Hc).
  exists k. split; [done|]. unfold after. cbn [fst snd].
  rewrite commands_app, Hc.
  destruct (map_M _ binaries env h).1 as [bs| |]; cbn [snd];
    [|by rewrite app_nil_r..].
  rewrite bind_emit. unfold after. cbn [fst snd].
  repeat case_bool_decide; cbn; by rewrite app_nil_r.
Qed.

(** [main] when the classifier has answered. *)
Lemma main_classified env h sys_argv sub st e0 :
  is_zscaler_running env (h ++ [argv_log sys_argv]) = (Ok st, e0) ->
  main sys_argv sub env h =
  after (argv_log sys_argv :: e0)
    (match sub with
     | Some "up" =>
         if bool_decide (st = all_processes_running)
         then (Ok None, [Log INFO (Fmt "ZSCaler is already up" [])])
         else finish (start_zscaler env (h ++ argv_log sys_argv :: e0))
     | Some "down" =>
         if bool_decide (st = no_processes_running)
         then (Ok None, [Log INFO (Fmt "ZSCaler is already down" [])])
         else finish (stop_zscaler env (h ++ argv_log sys_argv :: e0))
     | Some other => (Raise (unexpected_subcommand other), [])
     | None => (Ok None, [Log INFO (status_report st)])
     end).
Proof.
  intros Hcur. unfold main. unfold log at 1. rewrite bind_emit.
  rewrite bind_run. fold (argv_log sys_argv). rewrite Hcur. cbn [fst snd].
  rewrite after_after.
  replace ((h ++ [argv_log sys_argv]) ++ e0)
    with (h ++ argv_log sys_argv :: e0) by (by rewrite <- app_assoc).
  cbn [app]. f_equal.
  destruct sub as [sub|].
  - destruct (String.eqb sub "up") eqn:Hup.
    { apply String.eqb_eq in Hup as ->. case_bool_decide; [done|].
      unfold bind, ret, finish.
      destruct (start_zscaler env _) as [[[]|x|] e]; by rewrite ?app_nil_r. }
    destruct (String.eqb sub "down") eqn:Hdown.
    { apply String.eqb_eq in Hdown as ->. case_bool_decide; [done|].
      unfold bind, ret, finish.
      destruct (stop_zscaler env _) as [[[]|x|] e]; by rewrite ?app_nil_r. }
    apply String.eqb_neq in Hup, Hdown.
    assert (forall (X : Type) (a b c : X),
      match sub with "up" => a | "down" => b | _ => c end = c) as ->; [|done].
    intros X a b c.
    repeat (first [ reflexivity | congruence
                  | destruct sub as [|[[] [] [] [] [] [] [] []] sub] ]).
  - by destruct st.
Qed.

(** X8. [main] does not call [decide_action], and yet does what it
    decides.  When the classifier has answered, for the subcommand up with
    all running as the desired status, and for the subcommand down with
    none running as the desired status: [decide_action] raises nothing;
    when it answers nothing to reconcile, [main] runs no command of its
    own and logs one line; when it answers startup, [main] goes on as
    [start_zscaler]; when it answers shutdown, as [stop_zscaler]. *)
Theorem main_follows_decide_action (env : Env) (h0 : list Event)
    (sys_argv : list string) (st : ZScalerVpnStatus) (e0 : list Event) :
  is_zscaler_running env (h0 ++ [argv_log sys_argv]) = (Ok st, e0) ->
  let h := h0 ++ argv_log sys_argv :: e0 in
  let follows (sub : string) (desired : ZScalerVpnStatus) :=
    match decide_action st desired with
    | Ok nothing_to_reconcile =>
        exists msg,
          main sys_argv (Some sub) env h0
          = (Ok None, argv_log sys_argv :: e0 ++ [Log INFO msg])
    | Ok startup =>
        main sys_argv (Some sub) env h0
        = after (argv_log sys_argv :: e0) (finish (start_zscaler env h))
    | Ok shutdown =>
        main sys_argv (Some sub) env h0
        = after (argv_log sys_argv :: e0) (finish (stop_zscaler env h))
    | Raise _ | Diverge => False
    end in
  follows "up" all_processes_running /\ follows "down" no_processes_running.
Proof.
  intros Hcur h follows. unfold follows.
  rewrite !(main_classified _ _ _ _ _ _ Hcur). fold h.
  split; destruct st; cbn; try reflexivity; by eexists.
Qed.

Lemma main_follows_decide_action_witness :
  main ["vpn"; "up"] (Some "up") obedient_env []
  = after (argv_log ["vpn"; "up"]
             :: (is_zscaler_running obedient_env [argv_log ["vpn"; "up"]]).2)
      (finish
         (start_zscaler obedient_env
            ([] ++ argv_log ["vpn"; "up"]
               :: (is_zscaler_running obedient_env
                     [argv_log ["vpn"; "up"]]).2))).
Proof.
  destruct (main_follows_decide_action obedient_env [] ["vpn"; "up"]
              no_processes_running
              (is_zscaler_running obedient_env [argv_log ["vpn"; "up"]]).2)
    as [Hup _].
  - vm_compute. reflexivity.
  - exact Hup.
Defined.

(** X9. With no subcommand, and with a subcommand that is neither up nor
    down, [main] only observes: whatever the outcome, the commands it runs
    are [ps aux], at most three times.  When the
    classifier has answered, [main] with no subcommand logs the line of
    that status and returns; with another subcommand it raises
    [NotImplementedError], after the three observations. *)
Theorem main_only_observes (env : Env) (h : list Event)
    (sys_argv : list string) (sub : option string) :
  sub <> Some "up" -> sub <> Some "down" ->
  let run := main sys_argv sub env h in
  (exists k, (k <= 3)%nat /\ commands run.2 = replicate k ps_aux)
  /\ (forall st e0,
        is_zscaler_running env (h ++ [argv_log sys_argv]) = (Ok st, e0) ->
        commands run.2 = replicate 3 ps_aux
        /\ match sub with
           | None =>
               run = (Ok None,
                      argv_log sys_argv :: e0 ++ [Log INFO (status_report st)])
           | Some other =>
               run = (Raise (unexpected_subcommand other),
                      argv_log sys_argv :: e0)
           end).
Proof.
  intros Hup Hdown run.
  assert (forall st e0,
    is_zscaler_running env (h ++ [argv_log sys_argv]) = (Ok st, e0) ->
    run = after (argv_log sys_argv :: e0)
            (match sub with
             | Some other => (Raise (unexpected_subcommand other), [])
             | None => (Ok None, [Log INFO (status_report st)])
             end)) as Hrun.
  { intros st e0 Hcur. unfold run. rewrite (main_classified _ _ _ _ _ _ Hcur).
    f_equal. destruct sub as [sub|]; [|done].
    repeat (first [ reflexivity | congruence
                  | destruct sub as [|[[] [] [] [] [] [] [] []] sub] ]). }
  destruct (is_zscaler_running env (h ++ [argv_log sys_argv]))
    as [r e0] eqn:Hcur.
  pose proof (is_zscaler_running_only_ps env (h ++ [argv_log sys_argv]))
    as (k & Hk & Hc).
  rewrite Hcur in Hc. cbn [snd] in Hc.
  split.
  - destruct r as [st|x|].
    + rewrite (Hrun st e0 eq_refl). exists k. split; [done|].
      unfold after. cbn [fst snd].
      rewrite commands_app.
      change (commands (argv_log sys_argv :: e0)) with (commands e0).
      rewrite Hc. destruct sub; cbn; by rewrite app_nil_r.
    + exists k. split; [done|]. unfold run, main. unfold log at 1.
      rewrite bind_emit, bind_run. fold (argv_log sys_argv). rewrite Hcur.
      unfold after. cbn [fst snd]. rewrite app_nil_r.
      by change (commands ([argv_log sys_argv] ++ e0)) with (commands e0).
    + exists k. split; [done|]. unfold run, main. unfold log at 1.
      rewrite bind_emit, bind_run. fold (argv_log sys_argv). rewrite Hcur.
      unfold after. cbn [fst snd]. rewrite app_nil_r.
      by change (commands ([argv_log sys_argv] ++ e0)) with (commands e0).
  - intros st e0' [= -> <-]. rewrite (Hrun st e0 eq_refl).
    apply is_zscaler_running_commands in Hcur.
    unfold after. cbn [fst snd]. split.
    + rewrite commands_app.
      change (commands (argv_log sys_argv :: e0)) with (commands e0).
      rewrite Hcur. destruct sub; cbn; by rewrite ?app_nil_r.
    + destruct sub; cbn [fst snd app]; by rewrite ?app_nil_r.
Qed.

Lemma main_only_observes_witness :
  commands (main ["vpn"] None only_tray_env []).2 = replicate 3 ps_aux
  /\ (main ["vpn"] None only_tray_env []).1 = Ok None.
Proof.
  destruct (main_only_observes only_tray_env [] ["vpn"] None) as [_ Hst];
    [discriminate..|].
  destruct (Hst some_processes_running
              (is_zscaler_running only_tray_env [argv_log ["vpn"]]).2)
    as [Hc Hrun].
  - vm_compute. reflexivity.
  - split; [exact Hc|]. by rewrite Hrun.
Defined.

(** ** The check of the daemon *)



Lemma parse_all_not_Diverge events : parse_all events <> Diverge.
Proof.
  induction events as [|e events IH]; simpl; [done|].
  unfold _parse, Datetime.strptime.
  destruct (Datetime.match_format (Time e)) as [[time [|c rest]]|];
    [|done..].
  repeat (destruct (_ : bool); [done|]).
  by destruct (parse_all events).
Qed.






(** ** The loop of the daemon *)




(** ** The answers of the two waits *)

(** X12. What the answer of [_are_processes_running] is worth.  When it
    answers true, every identity was found running by a check of the run,
    each at its own point of the run.  When it answers false for a set
    that is not empty, it has slept five times one second and one identity
    was never found running.  Each check the run reports is what an
    observation gave at that point of the run, and an exception is that of
    an observation of an identity of the set. *)
Theorem wait_answer_is_sound (env : Env) (h : list Event)
    (patterns : list string) :
  let identities : gset string := list_to_set patterns in
  let run := _are_processes_running patterns env h in
  (run.1 = Ok true ->
   forall q, q ∈ identities -> (q, true) ∈ checks run.2)
  /\ (run.1 = Ok false -> patterns <> [] ->
      sleeps run.2 = replicate 5 1%nat
      /\ exists q, q ∈ identities /\ (q, true) ∉ checks run.2)
  /\ (forall e, run.1 = Raise e ->
        exists pre q, q ∈ identities /\ observed env (h ++ pre) q = Raise e)
  /\ (forall q b, (q, b) ∈ checks run.2 ->
        exists pre post, run.2 = pre ++ post
                         /\ observed env (h ++ pre) q = Ok b).
Proof.
  intros identities run.
  destruct run as [r evs] eqn:Hrun. unfold run in Hrun.
  unfold _are_processes_running in Hrun. fold identities in Hrun.
  pose proof (while_spec max_attempts identities 0%nat env h r evs
                (Nat.le_sub_l _ _) Hrun) as (_ & _ & Hone & _).
  apply while_sound in Hrun as (S1 & S2 & S3 & S4); [|apply Nat.le_sub_l].
  cbn [fst snd]. split_and!; [done| |done..].
  intros Hr Hne.
  assert (identities <> ∅) as Hs.
  { destruct patterns as [|p ?]; [done|]. unfold identities. set_solver. }
  destruct (S2 Hr Hs) as [Hlen Hq]. split; [|done].
  rewrite (Forall_eq_replicate _ _ Hone), Hlen. done.
Qed.

(** X13. What the answer of [_are_processes_not_running] is worth.  When
    it answers true, every identity was found not running by a check of
    the run, each at its own point of the run.  When it answers false for
    a set that is not empty, it has slept five times one second and one
    identity was never found not running.  Each check the run
    reports is what an observation gave at that point of the run, and an
    exception is that of an observation of an identity of the set. *)
Theorem wait_stopped_answer_is_sound (env : Env) (h : list Event)
    (patterns : list string) :
  let identities : gset string := list_to_set patterns in
  let run := _are_processes_not_running patterns env h in
  (run.1 = Ok true ->
   forall q, q ∈ identities -> (q, false) ∈ checks run.2)
  /\ (run.1 = Ok false -> patterns <> [] ->
      sleeps run.2 = replicate 5 1%nat
      /\ exists q, q ∈ identities /\ (q, false) ∉ checks run.2)
  /\ (forall e, run.1 = Raise e ->
        exists pre q, q ∈ identities /\ observed env (h ++ pre) q = Raise e)
  /\ (forall q b, (q, b) ∈ checks run.2 ->
        exists pre post, run.2 = pre ++ post
                         /\ observed env (h ++ pre) q = Ok b).
Proof.
  intros identities run.
  destruct run as [r evs] eqn:Hrun. unfold run in Hrun.
  unfold _are_processes_not_running in Hrun. fold identities in Hrun.
  pose proof (while_not_spec max_attempts identities 0%nat env h r evs
                (Nat.le_sub_l _ _) Hrun) as (_ & _ & Hone & _).
  apply while_not_sound in Hrun as (S1 & S2 & S3 & S4); [|apply Nat.le_sub_l].
  cbn [fst snd]. split_and!; [done| |done..].
  intros Hr Hne.
  assert (identities <> ∅) as Hs.
  { destruct patterns as [|p ?]; [done|]. unfold identities. set_solver. }
  destruct (S2 Hr Hs) as [Hlen Hq]. split; [|done].
  rewrite (Forall_eq_replicate _ _ Hone), Hlen. done.
Qed.

(** ** Which event decides *)

Lemma ltb_true_not_le (a b : string) :
  String.ltb a b = true -> ~ (b ≤ a)%string.
Proof.
  unfold String.le, String.ltb, String.leb.
  rewrite (String.compare_antisym a b).
  destruct (b ?= a)%string; cbn; [discriminate.. | by intros _ []].
Qed.

Lemma insert_by_t_last x l :
  last (insert_by_t x l)
  = if forallb (fun y => negb (String.ltb (t x) (t y))) l then Some x
    else last l.
Proof.
  induction l as [|y l IH]; [done|]. cbn [insert_by_t forallb].
  destruct (String.ltb (t x) (t y)); cbn [negb andb]; [done|].
  destruct (insert_by_t x l) as [|z l'] eqn:Hins.
  { by destruct l; [|simpl in Hins; destruct (String.ltb _ _)]. }
  rewrite last_cons_cons, IH.
  destruct (forallb _ l) eqn:Hall; [done|]. by destruct l.
Qed.

Lemma decides_le parsed x y :
  decides parsed x -> y ∈ parsed -> (t y ≤ t x)%string.
Proof.
  intros (pre & post & -> & Hpre & Hpost).
  intros [Hy | [-> | Hy]%elem_of_cons]%elem_of_app.
  - by apply Hpre.
  - done.
  - destruct (total (≤)%string (t y) (t x)) as [?|?]; [done|].
    by destruct (Hpost y Hy).
Qed.

(** One more event: it takes the place of the deciding one unless it is
    earlier. *)
Lemma decides_snoc parsed m x :
  decides parsed m ->
  decides (parsed ++ [x]) (if String.ltb (t x) (t m) then m else x).
Proof.
  intros Hm. destruct (String.ltb (t x) (t m)) eqn:Hlt.
  - destruct Hm as (pre & post & -> & Hpre & Hpost).
    exists pre, (post ++ [x]). split_and!; [by rewrite <- app_assoc | done |].
    intros y [Hy | ->%list_elem_of_singleton]%elem_of_app; [by apply Hpost|].
    by apply ltb_true_not_le.
  - apply ltb_false_le in Hlt. exists parsed, []. split_and!; [done| |].
    + intros y Hy. etrans; [|exact Hlt]. by eapply decides_le.
    + intros ? []%elem_of_nil.
Qed.

Lemma sorted_by_t_decides parsed x :
  last (sorted_by_t parsed) = Some x -> decides parsed x.
Proof.
  unfold sorted_by_t.
  assert (forall l done acc,
    acc ≡ₚ done ->
    (done = [] \/ exists m, last acc = Some m /\ decides done m) ->
    forall x,
      last (fold_left (fun acc x => insert_by_t x acc) l acc) = Some x ->
      decides (done ++ l) x) as Hgen.
  { induction l as [|y l IH]; intros done acc Hperm Hinv z; cbn [fold_left].
    - rewrite app_nil_r. intros Hlast.
      destruct Hinv as [-> | (m & Hm & Hd)]; [|congruence].
      apply Permutation_nil_r in Hperm. by subst acc.
    - intros Hlast.
      replace (done ++ y :: l) with ((done ++ [y]) ++ l)
        by (by rewrite <- app_assoc).
      apply (IH (done ++ [y]) (insert_by_t y acc)); [| |done].
      + rewrite insert_by_t_perm, Hperm. apply Permutation_cons_append.
      + right. rewrite insert_by_t_last.
        destruct Hinv as [-> | (m & Hm & Hd)].
        { apply Permutation_nil_r in Hperm. subst acc. exists y.
          split; [done|]. exists [], []. split_and!; [done|..];
            intros ? []%elem_of_nil. }
        pose proof (decides_snoc _ _ y Hd) as Hsnoc.
        destruct (forallb _ acc) eqn:Hall.
        * exists y. split; [done|].
          assert (String.ltb (t y) (t m) = false) as Hlt.
          { rewrite forallb_forall in Hall.
            apply negb_true_iff, Hall, list_elem_of_In.
            by eapply last_Some_elem_of. }
          by rewrite Hlt in Hsnoc.
        * exists m. split; [done|].
          assert (String.ltb (t y) (t m) = true) as Hlt; [|by rewrite Hlt in Hsnoc].
          apply not_true_iff_false in Hall.
          destruct (String.ltb (t y) (t m)) eqn:Hlt; [done|].
          exfalso. apply Hall, forallb_forall. intros z' Hz'.
          apply negb_true_iff.
          destruct (String.ltb (t y) (t z')) eqn:Hyz; [|done].
          apply ltb_true_not_le in Hyz. destruct Hyz.
          etrans; [|by apply ltb_false_le].
          eapply decides_le; [done|]. rewrite <- Hperm.
          by apply list_elem_of_In. }
  intros Hlast. apply (Hgen parsed [] []); [done | by left | done].
Qed.

Lemma decides_unique parsed x x' :
  decides parsed x -> decides parsed x' -> x = x'.
Proof.
  intros (pre & post & -> & Hpre & Hpost) (pre' & post' & E & Hpre' & Hpost').
  revert pre' E Hpre'. induction pre as [|y pre IH]; intros pre' E Hpre'.
  - destruct pre' as [|y' pre']; [by injection E|].
    cbn [app] in E. injection E as <- ->.
    destruct (Hpost x'); [|apply Hpre'; by left].
    apply elem_of_app. right. by left.
  - destruct pre' as [|y' pre'].
    + cbn [app] in E. injection E as -> <-.
      destruct (Hpost' x); [|apply Hpre; by left].
      apply elem_of_app. right. by left.
    + cbn [app] in E. injection E as <- E.
      apply (IH (fun z Hz => Hpre z (list_elem_of_further _ _ _ Hz)) pre' E).
      intros z Hz. apply Hpre'. by right.
Qed.

Lemma parse_all_spec events :
  match parse_all events with
  | Ok parsed => parsed_from events parsed
  | Raise x =>
      exists pre e post,
        events = pre ++ e :: post
        /\ Forall (fun y => is_Ok (_parse y)) pre
        /\ _parse e = Raise x
  | Diverge => False
  end.
Proof.
  induction events as [|e events IH]; cbn [parse_all]; [constructor|].
  pose proof (parse_all_not_Diverge [e]) as He. cbn [parse_all] in He.
  destruct (_parse e) as [p|x|] eqn:Hp; [| |done].
  - destruct (parse_all events) as [parsed|x|]; [| |done].
    + by constructor.
    + destruct IH as (pre & e' & post & -> & Hpre & He').
      exists (e :: pre), e', post. split_and!; [done| |done].
      constructor; [by rewrite Hp | done].
  - exists [], e, events. by split_and!.
Qed.

(** X14. The monitor, with matching events in the store.  When all of
    them parse, one event decides, and only one can: the last, in the
    order of the query, of the events with the latest key; no event before
    it has a later key and every event after it has an earlier one.  The
    monitor logs that event and answers by its name, an
    [UnsupportedScenario] for a name it does not know.  When one of them
    does not parse, the monitor raises the error of the first such event
    and logs nothing. *)
Theorem security_status_outcomes (env : Env) (h : list Event)
    (table : list Notification) :
  zscaler_db env = Some table ->
  select_events table <> [] ->
  let events := select_events table in
  let run := is_internet_security_on env h in
  match parse_all events with
  | Ok parsed =>
      parsed_from events parsed
      /\ exists last_event,
           decides parsed last_event
           /\ (forall x, decides parsed x -> x = last_event)
           /\ run = (status_of_name (NotificationName (row last_event)),
                     [last_event_log last_event])
  | Raise x =>
      run = (Raise x, [])
      /\ exists pre e post,
           events = pre ++ e :: post
           /\ Forall (fun y => is_Ok (_parse y)) pre
           /\ _parse e = Raise x
  | Diverge => False
  end.
Proof.
  intros Hdb Hne events run.
  pose proof (parse_all_spec events) as Hspec.
  assert (run =
    match parse_all events with
    | Ok parsed =>
        match last (sorted_by_t parsed) with
        | Some last_event =>
            (status_of_name (NotificationName (row last_event)),
             [last_event_log last_event])
        | None => (Raise (IndexError (Fmt "list index out of range" [])), [])
        end
    | Raise x => (Raise x, [])
    | Diverge => (Diverge, [])
    end) as Hrun.
  { unfold run, is_internet_security_on. rewrite Hdb. fold events.
    destruct events as [|e events'] eqn:Hsel; [done|].
    rewrite bind_run. unfold lift. cbn [fst snd].
    destruct (parse_all (e :: events')) as [parsed| |]; [|done..].
    destruct (last (sorted_by_t parsed)) as [last_event|]; [|done].
    unfold status_of_name, after, bind, log, emit, ret, raise.
    cbn [fst snd app].
    repeat (destruct (String.eqb (NotificationName (row last_event)) _);
            [done|]).
    done. }
  destruct (parse_all events) as [parsed|x|]; [|done..].
  split; [done|].
  destruct (last (sorted_by_t parsed)) as [last_event|] eqn:Hlast.
  - apply sorted_by_t_decides in Hlast. exists last_event.
    split_and!; [done| |done].
    intros x Hx. by eapply decides_unique.
  - apply last_None in Hlast.
    destruct (sorted_by_t_spec parsed) as [Hp _]. rewrite Hlast in Hp.
    apply Permutation_nil_l in Hp. subst parsed.
    apply Forall2_nil_inv_r in Hspec. by destruct Hne.
Qed.

Lemma security_status_outcomes_witness :
  is_internet_security_on
    (constant_env "" (Some [on_at_11; off_at_10; on_at_11])) []
  = (Ok on,
     [last_event_log {| row := on_at_11; t := "2024-01-01T11:00:00" |}]).
Proof.
  pose proof (security_status_outcomes
                (constant_env "" (Some [on_at_11; off_at_10; on_at_11])) []
                [on_at_11; off_at_10; on_at_11] eq_refl) as Hspec.
  cbv zeta in Hspec.
  assert (select_events [on_at_11; off_at_10; on_at_11]
          = [on_at_11; off_at_10; on_at_11]) as Hsel
    by (vm_compute; reflexivity).
  rewrite Hsel in Hspec.
  assert (parse_all [on_at_11; off_at_10; on_at_11]
          = Ok [ {| row := on_at_11; t := "2024-01-01T11:00:00" |};
                 {| row := off_at_10; t := "2024-01-01T10:00:00" |};
                 {| row := on_at_11; t := "2024-01-01T11:00:00" |} ])
    as Hparse by (vm_compute; reflexivity).
  rewrite Hparse in Hspec.
  destruct Hspec as (_ & last_event & _ & Hunique & Hrun); [discriminate|].
  rewrite Hrun.
  rewrite <- (Hunique {| row := on_at_11; t := "2024-01-01T11:00:00" |}).
  - reflexivity.
  - exists [ {| row := on_at_11; t := "2024-01-01T11:00:00" |};
             {| row := off_at_10; t := "2024-01-01T10:00:00" |} ], [].
    split_and!; [reflexivity | | intros ? []%elem_of_nil].
    intros y [-> | [-> | []%elem_of_nil]%elem_of_cons]%elem_of_cons;
      vm_compute; exact I.
Defined.

(** ** The key of an event and the order of time *)

Lemma compare_refl (s : string) : (s ?= s)%string = Eq.
Proof.
  induction s as [|c s IH]; [done|]. cbn [String.compare].
  unfold Ascii.compare. by rewrite N.compare_refl.
Qed.

Lemma compare_append (a a' b b' : string) :
  String.length a = String.length a' ->
  (a +:+ b ?= a' +:+ b')%string = lex (a ?= a')%string (b ?= b')%string.
Proof.
  revert a'. induction a as [|c a IH]; intros [|c' a']; try done.
  intros [= Hlen]. rewrite !append_cons. cbn [String.compare].
  destruct (Ascii.compare c c'); [by apply IH | done..].
Qed.

Lemma length_append_string (a b : string) :
  String.length (a +:+ b) = (String.length a + String.length b)%nat.
Proof.
  induction a as [|c a IH]; [done|]. rewrite append_cons. simpl. by rewrite IH.
Qed.

Lemma append_char c (s : string) : String c "" +:+ s = String c s.
Proof. reflexivity. Qed.

Lemma compare_separator c (s s' : string) :
  (String c s ?= String c s')%string = (s ?= s')%string.
Proof.
  cbn [String.compare]. unfold Ascii.compare. by rewrite N.compare_refl.
Qed.

Lemma zero_padded_2 n m :
  (n < 100)%nat -> (m < 100)%nat ->
  String.length (Datetime.zero_padded 2 n) = 2%nat
  /\ (Datetime.zero_padded 2 n ?= Datetime.zero_padded 2 m)%string
     = Nat.compare n m.
Proof.
  intros Hn Hm.
  assert (two_digits_in_order = true) as Hall by (vm_compute; reflexivity).
  unfold two_digits_in_order in Hall. rewrite forallb_forall in Hall.
  specialize (Hall n). rewrite forallb_forall in Hall.
  specialize (Hall ltac:(apply in_seq; lia) m ltac:(apply in_seq; lia)).
  apply andb_true_iff in Hall as [Hlen Hcmp].
  apply Nat.eqb_eq in Hlen. split; [done|].
  by destruct (_ ?= _)%string, (Nat.compare n m).
Qed.

Lemma zero_padded_4 n :
  (n < 100 * 100)%nat ->
  Datetime.zero_padded 4 n
  = Datetime.zero_padded 2 (n / 100) +:+ Datetime.zero_padded 2 (n mod 100).
Proof.
  intros Hn.
  assert (four_digits_are_two_and_two = true) as Hall
    by (vm_compute; reflexivity).
  unfold four_digits_are_two_and_two in Hall. rewrite forallb_forall in Hall.
  apply String.eqb_eq, Hall, in_seq. lia.
Qed.

Lemma compare_hundreds n m :
  lex (Nat.compare (n / 100) (m / 100)) (Nat.compare (n mod 100) (m mod 100))
  = Nat.compare n m.
Proof.
  pose proof (Nat.div_mod_eq n 100) as Hn.
  pose proof (Nat.div_mod_eq m 100) as Hm.
  pose proof (Nat.mod_upper_bound n 100 ltac:(lia)) as Hrn.
  pose proof (Nat.mod_upper_bound m 100 ltac:(lia)) as Hrm.
  unfold lex.
  destruct (Nat.compare_spec (n / 100) (m / 100)) as [Hq|Hq|Hq];
    destruct (Nat.compare_spec (n mod 100) (m mod 100)) as [Hr|Hr|Hr];
    destruct (Nat.compare_spec n m) as [H|H|H]; try reflexivity; lia.
Qed.

Lemma zero_padded_4_compare n m :
  (n < 100 * 100)%nat -> (m < 100 * 100)%nat ->
  String.length (Datetime.zero_padded 4 n)
  = String.length (Datetime.zero_padded 4 m)
  /\ (Datetime.zero_padded 4 n ?= Datetime.zero_padded 4 m)%string
     = Nat.compare n m.
Proof.
  intros Hn Hm. rewrite !zero_padded_4 by done.
  assert (n / 100 < 100)%nat as Hqn by (apply Nat.Div0.div_lt_upper_bound; lia).
  assert (m / 100 < 100)%nat as Hqm by (apply Nat.Div0.div_lt_upper_bound; lia).
  pose proof (Nat.mod_upper_bound n 100 ltac:(lia)) as Hrn.
  pose proof (Nat.mod_upper_bound m 100 ltac:(lia)) as Hrm.
  destruct (zero_padded_2 (n / 100) (m / 100) Hqn Hqm) as [Hl1 Hc1].
  destruct (zero_padded_2 (m / 100) (n / 100) Hqm Hqn) as [Hl1' _].
  destruct (zero_padded_2 (n mod 100) (m mod 100) Hrn Hrm) as [Hl2 Hc2].
  destruct (zero_padded_2 (m mod 100) (n mod 100) Hrm Hrn) as [Hl2' _].
  split.
  - by rewrite !length_append_string, Hl1, Hl1', Hl2, Hl2'.
  - rewrite compare_append by congruence.
    rewrite Hc1, Hc2. apply compare_hundreds.
Qed.

(** The keys of two dates and times of the calendar are in the order of
    the dates and times. *)
Lemma isoformat_compare d1 d2 :
  valid d1 -> valid d2 ->
  (Datetime.isoformat d1 ?= Datetime.isoformat d2)%string
  = chronological d1 d2.
Proof.
  intros (Hy1 & Hm1 & Hd1 & HH1 & HM1 & HS1) (Hy2 & Hm2 & Hd2 & HH2 & HM2 & HS2).
  assert (forall y m, (Datetime.days_in_month y m <= 31)%nat) as Hdays.
  { intros y m. unfold Datetime.days_in_month.
    destruct (Datetime.is_leap y);
      do 12 (try destruct m as [|m]); simpl; lia. }
  pose proof (Hdays (Datetime.year d1) (Datetime.month d1)).
  pose proof (Hdays (Datetime.year d2) (Datetime.month d2)).
  unfold Datetime.isoformat, chronological.
  destruct (zero_padded_4_compare (Datetime.year d1) (Datetime.year d2))
    as [Hly Hcy]; [lia..|].
  destruct (zero_padded_2 (Datetime.month d1) (Datetime.month d2))
    as [Hlm Hcm]; [lia..|].
  destruct (zero_padded_2 (Datetime.month d2) (Datetime.month d1))
    as [Hlm' _]; [lia..|].
  destruct (zero_padded_2 (Datetime.day d1) (Datetime.day d2))
    as [Hld Hcd]; [lia..|].
  destruct (zero_padded_2 (Datetime.day d2) (Datetime.day d1))
    as [Hld' _]; [lia..|].
  destruct (zero_padded_2 (Datetime.hour d1) (Datetime.hour d2))
    as [HlH HcH]; [lia..|].
  destruct (zero_padded_2 (Datetime.hour d2) (Datetime.hour d1))
    as [HlH' _]; [lia..|].
  destruct (zero_padded_2 (Datetime.minute d1) (Datetime.minute d2))
    as [HlM HcM]; [lia..|].
  destruct (zero_padded_2 (Datetime.minute d2) (Datetime.minute d1))
    as [HlM' _]; [lia..|].
  destruct (zero_padded_2 (Datetime.second d1) (Datetime.second d2))
    as [_ HcS]; [lia..|].
  rewrite !append_char.
  rewrite compare_append, Hcy by done. f_equal.
  rewrite compare_separator.
  rewrite compare_append, Hcm by congruence. f_equal.
  rewrite compare_separator.
  rewrite compare_append, Hcd by congruence. f_equal.
  rewrite compare_separator.
  rewrite compare_append, HcH by congruence. f_equal.
  rewrite compare_separator.
  rewrite compare_append, HcM by congruence. f_equal.
  by rewrite compare_separator.
Qed.

Lemma digit_value_bound c :
  Datetime.is_digit c = true -> (Datetime.digit_value c <= 9)%nat.
Proof.
  destruct c as [[] [] [] [] [] [] [] []]; try discriminate;
    intros _; vm_compute; lia.
Qed.

Lemma span_digits_digits s ds r :
  Datetime.span_digits s = (ds, r) ->
  Forall (fun c => Datetime.is_digit c = true) (list_ascii_of_string ds).
Proof.
  revert ds r. induction s as [|c s IH]; intros ds r; cbn [Datetime.span_digits].
  - intros [= <- <-]. constructor.
  - destruct (Datetime.is_digit c) eqn:Hc.
    + destruct (Datetime.span_digits s) as [ds' r'].
      intros [= <- <-]. constructor; [done | by eapply IH].
    + intros [= <- <-]. constructor.
Qed.

Lemma number_bound ds :
  Forall (fun c => Datetime.is_digit c = true) (list_ascii_of_string ds) ->
  (Datetime.number ds < 10 ^ String.length ds)%nat.
Proof.
  unfold Datetime.number.
  assert (forall l acc,
    Forall (fun c => Datetime.is_digit c = true) l ->
    (fold_left (fun acc c => 10 * acc + Datetime.digit_value c) l acc
     < (acc + 1) * 10 ^ length l)%nat) as Hgen.
  { induction l as [|c l IH]; intros acc Hl; cbn [fold_left length].
    - simpl. lia.
    - apply Forall_cons in Hl as [Hc Hl]. apply digit_value_bound in Hc.
      eapply Nat.lt_le_trans; [by apply IH|].
      rewrite Nat.pow_succ_r'.
      assert (0 < 10 ^ length l)%nat by (apply Nat.neq_0_lt_0, Nat.pow_nonzero; lia).
      nia. }
  intros Hds. specialize (Hgen _ 0%nat Hds).
  replace (length (list_ascii_of_string ds)) with (String.length ds) in Hgen.
  - by rewrite Nat.add_0_l, Nat.mul_1_l in Hgen.
  - clear. induction ds as [|c ds IH]; [done|]. simpl. by rewrite IH.
Qed.

Lemma digits_bound lo hi s n r :
  Datetime.digits lo hi s = Some (n, r) -> (n < 10 ^ hi)%nat.
Proof.
  unfold Datetime.digits.
  destruct (Datetime.span_digits s) as [ds r'] eqn:Hspan.
  destruct (_ && _) eqn:Hlen; [|done]. intros [= <- <-].
  apply andb_true_iff in Hlen as [_ Hhi%Nat.leb_le].
  eapply Nat.lt_le_trans; [apply number_bound; by eapply span_digits_digits|].
  apply Nat.pow_le_mono_r; [lia | done].
Qed.

Lemma index_of_bound x l i :
  Datetime.index_of x l = Some i -> (i < length l)%nat.
Proof.
  revert i. induction l as [|y l IH]; intros i; cbn [Datetime.index_of]; [done|].
  destruct (String.eqb x y).
  - intros [= <-]. simpl. lia.
  - destruct (Datetime.index_of x l) as [j|]; [|done].
    intros [= <-]. specialize (IH j eq_refl). simpl. lia.
Qed.

Lemma in_range_bound lo hi v :
  Datetime.in_range lo hi v = Some tt -> (lo <= v <= hi)%nat.
Proof.
  unfold Datetime.in_range. destruct (_ && _) eqn:H; [|done].
  apply andb_true_iff in H as [?%Nat.leb_le ?%Nat.leb_le]. done.
Qed.

Lemma name_of_bound n names s i r :
  Datetime.name_of n names s = Some (i, r) -> (i < length names)%nat.
Proof.
  unfold Datetime.name_of.
  destruct (Datetime.split_at n s) as [[w r']|]; [|done].
  cbn [mbind option_bind].
  destruct (Datetime.index_of _ names) as [j|] eqn:Hj; [|done].
  cbn [mbind option_bind]. intros [= <- <-]. by eapply index_of_bound.
Qed.

(** One step of the match of the format. *)
Ltac match_step H :=
  match type of H with
  | (?m ≫= _) = Some _ =>
      let E := fresh "E" in
      destruct m as [?|] eqn:E; [|discriminate H];
      cbn [mbind option_bind] in H
  | (let '(_, _) := ?p in _) = Some _ => destruct p
  end.

(** What [strptime] returns is a date and time of the calendar. *)
Lemma strptime_valid s d : Datetime.strptime s = Ok d -> valid d.
Proof.
  unfold Datetime.strptime.
  destruct (Datetime.match_format s) as [[d' [|c rest]]|] eqn:Hm; [|done..].
  destruct (Datetime.year d' =? 0)%nat eqn:Hy; [done|].
  destruct (_ <? Datetime.day d')%nat eqn:Hd; [done|].
  destruct (59 <? Datetime.second d')%nat eqn:Hs; [done|].
  intros [= <-].
  apply Nat.eqb_neq in Hy. apply Nat.ltb_ge in Hd, Hs.
  unfold Datetime.match_format in Hm.
  repeat match_step Hm.
  injection Hm as <- _.
  repeat match goal with
         | u : unit |- _ => destruct u
         | H : Datetime.in_range _ _ _ = Some _ |- _ =>
             apply in_range_bound in H
         | H : Datetime.digits _ _ _ = Some _ |- _ =>
             apply digits_bound in H
         | H : Datetime.name_of _ _ _ = Some _ |- _ =>
             apply name_of_bound in H
         end.
  unfold valid.
  cbn [Datetime.year Datetime.month Datetime.day Datetime.hour
       Datetime.minute Datetime.second] in *.
  cbn [length Datetime.a_month Datetime.a_weekday Datetime.am_pm] in *.
  change (10 ^ 4)%nat with (10 * 10 * (10 * 10))%nat in *.
  split_and!; lia.
Qed.

Lemma chronological_Eq d1 d2 : chronological d1 d2 = Eq <-> d1 = d2.
Proof.
  split.
  - unfold chronological, lex. destruct d1, d2. cbn.
    repeat match goal with
           | |- context [Nat.compare ?a ?b] =>
               destruct (Nat.compare_spec a b); [subst | done..]
           end.
    done.
  - intros <-. unfold chronological, lex. by rewrite !Nat.compare_refl.
Qed.

(** X15. The key the events are sorted by is in the order of time.  For
    two events that parse, the dates and times that [strptime] returns
    are dates and times of the calendar, and the keys, compared as
    strings, are in the order of these dates and times: year, month, day,
    hour, minute, second.  Two keys are equal only for the same date and
    time. *)
Theorem key_order_is_chronological (e1 e2 : Notification)
    (p1 p2 : ParsedEvent) :
  _parse e1 = Ok p1 -> _parse e2 = Ok p2 ->
  exists d1 d2,
    Datetime.strptime (Time e1) = Ok d1
    /\ Datetime.strptime (Time e2) = Ok d2
    /\ valid d1 /\ valid d2
    /\ (t p1 ?= t p2)%string = chronological d1 d2
    /\ ((t p1 ≤ t p2)%string <-> chronological d1 d2 <> Gt)
    /\ (t p1 = t p2 <-> d1 = d2).
Proof.
  unfold _parse.
  destruct (Datetime.strptime (Time e1)) as [d1| |] eqn:H1; [|done..].
  destruct (Datetime.strptime (Time e2)) as [d2| |] eqn:H2; [|done..].
  intros [= <-] [= <-]. exists d1, d2. cbn [t].
  pose proof (strptime_valid _ _ H1) as V1.
  pose proof (strptime_valid _ _ H2) as V2.
  pose proof (isoformat_compare d1 d2 V1 V2) as Hcmp.
  split_and!; try done.
  - unfold String.le, String.leb. rewrite Hcmp.
    by destruct (chronological d1 d2).
  - rewrite <- chronological_Eq, <- Hcmp. split.
    + intros ->. apply compare_refl.
    + apply String.compare_eq_iff.
Qed.

Lemma key_order_is_chronological_witness :
  ("2024-01-01T10:00:00" ≤ "2024-01-01T11:00:00")%string.
Proof.
  destruct (key_order_is_chronological off_at_10 on_at_11
              {| row := off_at_10; t := "2024-01-01T10:00:00" |}
              {| row := on_at_11; t := "2024-01-01T11:00:00" |})
    as (d1 & d2 & H1 & H2 & _ & _ & _ & Hle & _).
  - vm_compute. reflexivity.
  - vm_compute. reflexivity.
  - apply Hle.
    assert (Ok d1 = Datetime.strptime (Time off_at_10)) as E1 by done.
    assert (Ok d2 = Datetime.strptime (Time on_at_11)) as E2 by done.
    vm_compute in E1, E2. injection E1 as ->. injection E2 as ->.
    vm_compute. discriminate.
Defined.
